(** * QuakeWatch operational scripts: teardown (cleanup.py) and Helm
      deployment verification (test_helm_deployment.py)

    Both scripts are sequences of calls to external programs with light
    control flow.  The embedding keeps the control flow of the Python source
    and treats everything outside the interpreter (the processes spawned, the
    terminal, the clock, the HTTP server under test) as an arbitrary
    [System]: a type of world states with one transition function per
    primitive the scripts call.  A script is a function from a state to a new
    state, the list of observable events it produced, and either a value or a
    raised Python exception. *)

From Stdlib Require Import String Ascii List ZArith Bool Lia DecimalString.
Import ListNotations.
Open Scope string_scope.
Open Scope Z_scope.


Set Warnings "-register-all".

(** ** Python strings *)

Module Py.

(** [sep.join(parts)]. *)
Definition join (sep : string) (parts : list string) : string :=
  String.concat sep parts.

(** [needle in hay] for two strings: substring test. *)
Fixpoint contains (needle hay : string) : bool :=
  String.prefix needle hay ||
  match hay with
  | EmptyString => false
  | String _ rest => contains needle rest
  end.

(** [x in xs] for a list of strings. *)
Definition mem (x : string) (xs : list string) : bool :=
  existsb (String.eqb x) xs.

(** The ASCII characters [str.isspace] accepts. *)
Definition isspace (c : ascii) : bool :=
  let n := nat_of_ascii c in
  ((9 <=? n) && (n <=? 13) || (28 <=? n) && (n <=? 32))%nat.

Fixpoint lstrip (s : string) : string :=
  match s with
  | String c rest => if isspace c then lstrip rest else s
  | EmptyString => EmptyString
  end.

Fixpoint rstrip (s : string) : string :=
  match s with
  | EmptyString => EmptyString
  | String c rest =>
      match rstrip rest with
      | EmptyString => if isspace c then EmptyString else String c EmptyString
      | r => String c r
      end
  end.

(** [s.strip()]. *)
Definition strip (s : string) : string := rstrip (lstrip s).

Definition lower_ascii (c : ascii) : ascii :=
  let n := nat_of_ascii c in
  if ((65 <=? n) && (n <=? 90))%nat then ascii_of_nat (n + 32) else c.

(** [s.lower()] on ASCII text. *)
Fixpoint lower (s : string) : string :=
  match s with
  | EmptyString => EmptyString
  | String c rest => String (lower_ascii c) (lower rest)
  end.

(** [s.split(sep)] for a one-character separator: never returns the empty
    list, and keeps empty fields. *)
Fixpoint split_on (sep : ascii) (s : string) : list string :=
  match s with
  | EmptyString => [EmptyString]
  | String c rest =>
      if Ascii.eqb c sep then EmptyString :: split_on sep rest
      else match split_on sep rest with
           | field :: fields => String c field :: fields
           | [] => [String c EmptyString]
           end
  end.

(** [s.split()]: fields separated by runs of whitespace, no empty field. *)
Fixpoint split_ws_aux (cur : string) (s : string) : list string :=
  match s with
  | EmptyString =>
      match cur with EmptyString => [] | _ => [cur] end
  | String c rest =>
      if isspace c
      then match cur with
           | EmptyString => split_ws_aux EmptyString rest
           | _ => cur :: split_ws_aux EmptyString rest
           end
      else split_ws_aux (cur ++ String c EmptyString) rest
  end.

Definition split (s : string) : list string := split_ws_aux EmptyString s.

(** [bool(s)]. *)
Definition truthy (s : string) : bool :=
  match s with EmptyString => false | _ => true end.

(** [str(n)] for a natural number and for an integer. *)
Definition str_nat (n : nat) : string := NilZero.string_of_uint (Nat.to_uint n).
Definition str_Z (z : Z) : string := NilZero.string_of_int (Z.to_int z).

Definition newline : ascii := ascii_of_nat 10.

(** [c * n] for a one-character string. *)
Fixpoint repeat_char (c : ascii) (n : nat) : string :=
  match n with
  | O => EmptyString
  | S k => String c (repeat_char c k)
  end.

End Py.

(** ** Exceptions, outcomes and events *)

(** The exceptions the scripts can see.  [KeyboardInterrupt] and
    [SystemExit] derive from [BaseException] only; an [Exception] carries its
    class name and [str(e)]. *)
Inductive exn : Type :=
| KeyboardInterrupt
| SystemExit (code : Z)
| Exception (cls : string) (msg : string).

Definition is_Exception (e : exn) : bool :=
  match e with Exception _ _ => true | _ => false end.

Inductive result (A : Type) : Type :=
| Ok (a : A)
| Raise (e : exn).
Arguments Ok {A} a.
Arguments Raise {A} e.

(** The exit status of the interpreter for the outcome of [main()]: zero on a
    normal return, the code of a [SystemExit], one on an uncaught exception,
    130 on an uncaught [KeyboardInterrupt]. *)
Definition exit_status (r : result unit) : Z :=
  match r with
  | Ok _ => 0
  | Raise (SystemExit code) => code
  | Raise (Exception _ _) => 1
  | Raise KeyboardInterrupt => 130
  end.

(** What a primitive of the host system can do: complete, fail with an
    exception deriving from [Exception] (a missing binary, an OS error, a
    closed stdin), or be interrupted by the operator. *)
Inductive outcome (A : Type) : Type :=
| Done (a : A)
| Failed (cls : string) (msg : string)
| Interrupted.
Arguments Done {A} a.
Arguments Failed {A} cls msg.
Arguments Interrupted {A}.

Definition result_of_outcome {A} (o : outcome A) : result A :=
  match o with
  | Done a => Ok a
  | Failed cls msg => Raise (Exception cls msg)
  | Interrupted => Raise KeyboardInterrupt
  end.

(** A finished child process: [(returncode, stdout, stderr)]. *)
Record Completed : Type := mkCompleted {
  returncode : Z;
  stdout : string;
  stderr : string
}.

(** Decoded JSON, as [json.loads] returns it; an object holds the items of
    the resulting [dict], so its keys are distinct. *)
Inductive json : Type :=
| JNull
| JBool (b : bool)
| JNum (n : Z)
| JStr (s : string)
| JArr (items : list json)
| JObj (fields : list (string * json)).

(** Observable events, in the order the interpreter performs them. *)
Inductive event : Type :=
| Spawn (cmd : list string)              (* subprocess.run(cmd, ...) *)
| Print (line : string)                  (* print(line) *)
| Sleep (seconds : Z)                    (* time.sleep(seconds) *)
| Input (prompt : string)                (* input(prompt) *)
| Popen (cmd : list string) (child : option nat)
    (* subprocess.Popen(cmd, ...) and the child it returned, if it did *)
| Terminate (pid : nat)                  (* process.terminate() *)
| Wait (pid : nat)                       (* process.wait() *)
| HttpGet (url : string) (timeout : Z)   (* requests.get(url, timeout=...) *)
| Traceback.                             (* traceback.print_exc() *)

(** ** The host system *)

Record System : Type := mkSystem {
  World : Type;
  (** [subprocess.run(cmd, capture_output=..., text=True)], without [check] *)
  subprocess_run : list string -> bool -> World -> World * outcome Completed;
  (** [os.path.exists(path)] *)
  os_path_exists : string -> World -> bool;
  (** [input(prompt)] *)
  builtin_input : string -> World -> World * outcome string;
  (** [time.sleep(seconds)] *)
  time_sleep : Z -> World -> World * outcome unit;
  (** [f"{time.time() - start_time:.1f}"], from the world at [start_time]
      and the current one *)
  format_elapsed : World -> World -> string;
  (** [subprocess.Popen(cmd, stdout=PIPE, stderr=PIPE)], returning the child *)
  subprocess_Popen : list string -> World -> World * outcome nat;
  (** [process.terminate()] and [process.wait()] on a child *)
  process_terminate : nat -> World -> World;
  process_wait : nat -> World -> World;
  (** [requests.get(url, timeout=...)]: the status code, a
      [requests.RequestException] ([Failed "RequestException"]), or another
      failure *)
  requests_get : string -> Z -> World -> World * outcome Z;
  (** [json.loads(text)]; [None] is a [JSONDecodeError] *)
  json_loads : string -> option json;
  (** [a == b] and [str(a)] on decoded JSON *)
  py_eq : json -> json -> bool;
  py_str : json -> string;
  (** [str(e)] for [subprocess.CalledProcessError(returncode, cmd)] *)
  py_called_process_error : list string -> Z -> string
}.

(** ** The monad of a running script

    [S] is the interpreter-side state (the world together with the mutable
    attributes of the object the method belongs to). *)

Definition M (S A : Type) : Type := S -> S * list event * result A.

Definition ret {S A} (a : A) : M S A := fun s => (s, [], Ok a).

Definition raise {S A} (e : exn) : M S A := fun s => (s, [], Raise e).

Definition bind {S A B} (m : M S A) (f : A -> M S B) : M S B :=
  fun s =>
    let '(s1, l1, r1) := m s in
    match r1 with
    | Ok a => let '(s2, l2, r2) := f a s1 in (s2, (l1 ++ l2)%list, r2)
    | Raise e => (s1, l1, Raise e)
    end.

Definition emit {S} (e : event) : M S unit := fun s => (s, [e], Ok tt).

(** [try: m  except <handles>: handler(e)]; an exception the clause does not
    name goes through. *)
Definition try_except {S A} (m : M S A) (handles : exn -> bool)
    (handler : exn -> M S A) : M S A :=
  fun s =>
    let '(s1, l1, r1) := m s in
    match r1 with
    | Ok a => (s1, l1, Ok a)
    | Raise e =>
        if handles e
        then let '(s2, l2, r2) := handler e s1 in (s2, (l1 ++ l2)%list, r2)
        else (s1, l1, Raise e)
    end.

(** [try: m  finally: fin]; [fin] always runs, and an exception it raises
    replaces the outcome of [m]. *)
Definition try_finally {S A} (m : M S A) (fin : M S unit) : M S A :=
  fun s =>
    let '(s1, l1, r1) := m s in
    let '(s2, l2, r2) := fin s1 in
    (s2, (l1 ++ l2)%list, match r2 with Ok _ => r1 | Raise e => Raise e end).

(** [for x in xs: body(x)], without [break]. *)
Fixpoint for_each {S A} (xs : list A) (body : A -> M S unit) : M S unit :=
  match xs with
  | [] => ret tt
  | x :: rest => bind (body x) (fun _ => for_each rest body)
  end.

Definition when {S} (c : bool) (m : M S unit) : M S unit :=
  if c then m else ret tt.

Declare Scope py_scope.
Delimit Scope py_scope with py.
Notation "x <- m ;; k" := (bind m (fun x => k))
  (at level 61, m at next level, right associativity) : py_scope.
Notation "m ;; k" := (bind m (fun _ => k))
  (at level 61, right associativity) : py_scope.
Open Scope py_scope.

Definition final_state {S A} (x : S * list event * result A) : S := fst (fst x).
Definition trace {S A} (x : S * list event * result A) : list event := snd (fst x).
Definition value {S A} (x : S * list event * result A) : result A := snd x.

Definition print {S} (line : string) : M S unit := emit (Print line).

(** * cleanup.py *)

Module Cleanup.

(** [class Colors] *)
Module Colors.
Definition ESC : string := String (ascii_of_nat 27) EmptyString.
Definition RED : string := ESC ++ "[91m".
Definition GREEN : string := ESC ++ "[92m".
Definition YELLOW : string := ESC ++ "[93m".
Definition BLUE : string := ESC ++ "[94m".
Definition CYAN : string := ESC ++ "[96m".
Definition RESET : string := ESC ++ "[0m".
Definition BOLD : string := ESC ++ "[1m".
End Colors.

(** The parsed command line. *)
Record Args : Type := mkArgs {
  all : bool;
  dry_run : bool;
  verbose : bool
}.

Section WithSystem.

Variable sys : System.

(** The part of a [QuakeWatchCleanup] object that changes, with the world. *)
Record State : Type := mkState {
  world : World sys;
  deleted_resources : list string
}.

Definition Script (A : Type) : Type := M State A.

Definition sys_run (cmd : list string) (capture_output : bool) : Script Completed :=
  fun s =>
    let '(w, o) := subprocess_run sys cmd capture_output (world s) in
    (mkState w (deleted_resources s), [Spawn cmd], result_of_outcome o).

Definition sys_input (prompt : string) : Script string :=
  fun s =>
    let '(w, o) := builtin_input sys prompt (world s) in
    (mkState w (deleted_resources s), [Input prompt], result_of_outcome o).

Definition sys_sleep (seconds : Z) : Script unit :=
  fun s =>
    let '(w, o) := time_sleep sys seconds (world s) in
    (mkState w (deleted_resources s), [Sleep seconds], result_of_outcome o).

Definition path_exists (path : string) : Script bool :=
  fun s => (s, [], Ok (os_path_exists sys path (world s))).

Definition get_world : Script (World sys) :=
  fun s => (s, [], Ok (world s)).

Definition get_deleted : Script (list string) :=
  fun s => (s, [], Ok (deleted_resources s)).

(** [self.deleted_resources.append(item)] *)
Definition log_deleted (item : string) : Script unit :=
  fun s => (mkState (world s) (deleted_resources s ++ [item])%list, [], Ok tt).

(** ** Helper methods *)

Definition rule : string := Py.repeat_char "=" 60.

Definition nl : string := String Py.newline EmptyString.

Definition print_header (message : string) : Script unit :=
  print (nl ++ Colors.BOLD ++ Colors.CYAN ++ rule ++ Colors.RESET) ;;
  print (Colors.BOLD ++ Colors.CYAN ++ message ++ Colors.RESET) ;;
  print (Colors.BOLD ++ Colors.CYAN ++ rule ++ Colors.RESET ++ nl).

Definition print_success (message : string) : Script unit :=
  print (Colors.GREEN ++ "✅ " ++ message ++ Colors.RESET).

Definition print_error (message : string) : Script unit :=
  print (Colors.RED ++ "❌ " ++ message ++ Colors.RESET).

Definition print_warning (message : string) : Script unit :=
  print (Colors.YELLOW ++ "⚠️  " ++ message ++ Colors.RESET).

Definition print_info (message : string) : Script unit :=
  print (Colors.BLUE ++ "ℹ️  " ++ message ++ Colors.RESET).

(** [str(e)] *)
Definition str_exn (e : exn) : string :=
  match e with
  | Exception _ msg => msg
  | KeyboardInterrupt => EmptyString
  | SystemExit code => Py.str_Z code
  end.

(** The dry-run test of [run_command]:
    [cmd[0] in ['kubectl', 'helm'] and any(x in cmd for x in ['delete', 'uninstall'])];
    [cmd[0]] raises on the empty list. *)
Definition destructive (cmd : list string) : result bool :=
  match cmd with
  | [] => Raise (Exception "IndexError" "list index out of range")
  | c0 :: _ =>
      Ok (Py.mem c0 ["kubectl"; "helm"]
          && existsb (fun x => Py.mem x cmd) ["delete"; "uninstall"])
  end.

Definition dry_run_line (cmd : list string) : string :=
  Colors.YELLOW ++ "[DRY-RUN] Would execute: " ++ Py.join " " cmd ++ Colors.RESET.

Definition run_command (self : Args) (cmd : list string) (capture_output : bool)
  : Script (Z * string * string) :=
  when (verbose self)
    (print (Colors.CYAN ++ "> " ++ Py.join " " cmd ++ Colors.RESET)) ;;
  skip <- (if dry_run self
           then match destructive cmd with
                | Ok b => ret b
                | Raise e => raise e
                end
           else ret false) ;;
  if skip : bool
  then print (dry_run_line cmd) ;; ret (0, EmptyString, EmptyString)
  else
    try_except
      (r <- sys_run cmd capture_output ;;
       ret (returncode r, stdout r, stderr r))
      is_Exception
      (fun e => ret (1, EmptyString, str_exn e)).

Definition confirm_action (self : Args) (message : string) (default : bool)
  : Script bool :=
  if all self then ret true
  else
    let prompt := Colors.YELLOW ++ "? " ++ message ++ " ["
                  ++ (if default then "Y/n" else "y/N") ++ "]: " ++ Colors.RESET in
    line <- sys_input prompt ;;
    let response := Py.lower (Py.strip line) in
    ret (if Py.truthy response then Py.mem response ["y"; "yes"] else default).

Definition namespace_exists (self : Args) (namespace : string) : Script bool :=
  r <- run_command self ["kubectl"; "get"; "namespace"; namespace] true ;;
  let '(returncode, _, _) := r in
  ret (returncode =? 0).

(** [if namespace:] on an [Optional[str]] *)
Definition given (namespace : option string) : option string :=
  match namespace with
  | Some ns => if Py.truthy ns then Some ns else None
  | None => None
  end.

Definition with_namespace (cmd : list string) (namespace : option string)
  : list string :=
  match given namespace with
  | Some ns => (cmd ++ ["-n"; ns])%list
  | None => cmd
  end.

Definition resource_exists (self : Args) (resource_type name : string)
    (namespace : option string) : Script bool :=
  let cmd := with_namespace ["kubectl"; "get"; resource_type; name] namespace in
  r <- run_command self cmd true ;;
  let '(returncode, _, _) := r in
  ret (returncode =? 0).

Definition helm_release_exists (self : Args) (release namespace : string)
  : Script bool :=
  r <- run_command self ["helm"; "list"; "-n"; namespace; "-q"] true ;;
  let '(returncode, stdout, _) := r in
  ret ((returncode =? 0) && Py.contains release stdout).

Definition delete_resource (self : Args) (resource_type name : string)
    (namespace : option string) (wait : bool) : Script bool :=
  let cmd := with_namespace
               ["kubectl"; "delete"; resource_type; name; "--ignore-not-found=true"]
               namespace in
  let cmd := if wait then (cmd ++ ["--wait=true"])%list else cmd in
  r <- run_command self cmd true ;;
  let '(returncode, _, stderr) := r in
  if returncode =? 0
  then
    log_deleted (resource_type ++ "/" ++ name ++
                 match given namespace with
                 | Some ns => " -n " ++ ns
                 | None => EmptyString
                 end) ;;
    ret true
  else
    when (Py.truthy stderr && verbose self)
      (print_error ("Failed to delete " ++ resource_type ++ "/" ++ name ++ ": " ++ stderr)) ;;
    ret false.

Definition delete_namespace_wait (self : Args) (namespace : string) (timeout : Z)
  : Script bool :=
  present <- namespace_exists self namespace ;;
  if negb present then ret true
  else
    let cmd := ["kubectl"; "delete"; "namespace"; namespace;
                "--timeout=" ++ Py.str_Z timeout ++ "s"] in
    r <- run_command self cmd true ;;
    let '(returncode, _, stderr) := r in
    if returncode =? 0
    then log_deleted ("namespace/" ++ namespace) ;; ret true
    else
      when (verbose self)
        (print_error ("Failed to delete namespace " ++ namespace ++ ": " ++ stderr)) ;;
      ret false.

(** [for x in xs: acc = body(x, acc)]: a loop that updates a local. *)
Fixpoint for_fold {A B} (xs : list A) (acc : B) (body : A -> B -> Script B)
  : Script B :=
  match xs with
  | [] => ret acc
  | x :: rest => acc' <- body x acc ;; for_fold rest acc' body
  end.

(** ** Prerequisite checks *)

Definition tools : list (string * string) :=
  [("kubectl", "kubectl version --client"); ("helm", "helm version")].

Definition check_prerequisites (self : Args) : Script bool :=
  print_header "Checking Prerequisites" ;;
  all_found <-
    for_fold tools true (fun '(tool, version_cmd) all_found =>
      r <- run_command self (Py.split version_cmd) true ;;
      let '(returncode, _, _) := r in
      if returncode =? 0
      then print_success (tool ++ " is installed") ;; ret all_found
      else print_error (tool ++ " is not installed") ;; ret false) ;;
  r <- run_command self ["kubectl"; "cluster-info"] true ;;
  let '(returncode, _, _) := r in
  if returncode =? 0
  then print_success "kubectl can connect to cluster" ;; ret all_found
  else print_error "kubectl cannot connect to cluster" ;; ret false.

(** ** Resource listing *)

(** The [resources] dict: category to items, in insertion order. *)
Definition Inventory : Type := list (string * list string).

Definition empty_inventory : Inventory :=
  [("ArgoCD", []); ("Application", []); ("Monitoring Stack", []);
   ("Monitoring Resources", []); ("Namespaces", [])].

(** [resources[key].extend(items)] *)
Definition extend (key : string) (items : list string) (resources : Inventory)
  : Inventory :=
  map (fun '(k, v) => if String.eqb k key then (k, (v ++ items)%list) else (k, v))
      resources.

Definition app_kinds : string :=
  "all,configmap,secret,pvc,serviceaccount,cronjob,servicemonitor".

Definition app_selector : string := "app.kubernetes.io/instance=earthquake-app".

Definition monitoring_resources : list (string * string * string) :=
  [("servicemonitor", "quakewatch-app", "default");
   ("prometheusrule", "quakewatch-alerts", "monitoring");
   ("configmap", "quakewatch-dashboard", "monitoring")].

Definition print_summary (resources : Inventory) : Script nat :=
  for_fold resources 0%nat (fun '(category, items) total =>
    if negb (Nat.eqb (length items) 0)
    then
      print (Colors.BOLD ++ category ++ ":" ++ Colors.RESET) ;;
      for_each (firstn 10 items) (fun item => print ("  • " ++ item)) ;;
      when (10 <? length items)%nat
        (print ("  ... and " ++ Py.str_nat (length items - 10) ++ " more")) ;;
      print EmptyString ;;
      ret (total + length items)%nat
    else ret total).

Definition list_resources_to_delete (self : Args) : Script Inventory :=
  print_header "Resources to be Deleted" ;;
  let resources := empty_inventory in
  found <- resource_exists self "application" "earthquake-app" (Some "argocd") ;;
  let resources :=
    if found then extend "ArgoCD" ["application/earthquake-app -n argocd"] resources
    else resources in
  r <- run_command self
         ["kubectl"; "get"; app_kinds; "-l"; app_selector; "-n"; "default";
          "-o"; "name"] true ;;
  let '(returncode, stdout, _) := r in
  let resources :=
    if (returncode =? 0) && Py.truthy (Py.strip stdout)
    then extend "Application" (Py.split_on Py.newline (Py.strip stdout)) resources
    else resources in
  found <- helm_release_exists self "kube-prometheus-stack" "monitoring" ;;
  let resources :=
    if found
    then extend "Monitoring Stack" ["Helm release: kube-prometheus-stack"] resources
    else resources in
  resources <-
    for_fold monitoring_resources resources (fun '(res_type, name, ns) resources =>
      found <- resource_exists self res_type name (Some ns) ;;
      ret (if found
           then extend "Monitoring Resources"
                  [res_type ++ "/" ++ name ++ " -n " ++ ns] resources
           else resources)) ;;
  resources <-
    for_fold ["argocd"; "monitoring"] resources (fun ns resources =>
      found <- namespace_exists self ns ;;
      ret (if found then extend "Namespaces" ["namespace/" ++ ns] resources
           else resources)) ;;
  total <- print_summary resources ;;
  if Nat.eqb total 0
  then print_info "No resources found to delete" ;; ret resources
  else
    print (Colors.BOLD ++ "Total resources: " ++ Py.str_nat total
           ++ Colors.RESET ++ nl) ;;
    ret resources.

(** ** Cleanup operations *)

Definition kill_port_forwards (self : Args) : Script unit :=
  print_header "Stopping Port-Forward Processes" ;;
  r <- run_command self ["pgrep"; "-f"; "kubectl port-forward"] true ;;
  let '(returncode, stdout, _) := r in
  if (returncode =? 0) && Py.truthy (Py.strip stdout)
  then
    let pids := Py.split_on Py.newline (Py.strip stdout) in
    print_info ("Found " ++ Py.str_nat (length pids) ++ " port-forward process(es)") ;;
    when (negb (dry_run self))
      (run_command self ["pkill"; "-f"; "kubectl port-forward"] true ;;
       print_success "All port-forwards stopped")
  else print_info "No port-forward processes running".

Definition delete_argocd_application (self : Args) : Script unit :=
  print_header "Removing ArgoCD Application" ;;
  found <- resource_exists self "application" "earthquake-app" (Some "argocd") ;;
  if found : bool
  then
    print_info "Deleting ArgoCD application 'earthquake-app'..." ;;
    deleted <- delete_resource self "application" "earthquake-app" (Some "argocd") false ;;
    when deleted
      (print_success "ArgoCD application deleted" ;;
       when (negb (dry_run self)) (sys_sleep 3))
  else print_info "ArgoCD application not found".

Definition delete_application_resources (self : Args) : Script unit :=
  print_header "Removing Application Resources" ;;
  let cmd := ["kubectl"; "delete"; app_kinds; "-l"; app_selector;
              "-n"; "default"; "--ignore-not-found=true"] in
  r <- run_command self cmd true ;;
  let '(returncode, stdout, _) := r in
  (if returncode =? 0
   then
     print_success "Application resources deleted" ;;
     when (Py.truthy stdout && verbose self) (print stdout)
   else print_warning "Some application resources may not have been deleted") ;;
  delete_resource self "servicemonitor" "quakewatch-app" (Some "default") false ;;
  ret tt.

Definition monitoring_manifests : list (string * string) :=
  [("monitoring/standalone/servicemonitor.yaml", "ServiceMonitor");
   ("monitoring/standalone/prometheus-alerts.yaml", "PrometheusRule");
   ("monitoring/standalone/grafana-dashboard.yaml", "Grafana Dashboard")].

(** The body of the loop of [delete_monitoring_resources]. *)
Definition delete_monitoring_manifest (self : Args) (entry : string * string)
  : Script unit :=
  let '(file_path, description) := entry in
  present <- path_exists file_path ;;
  if present : bool
  then
    r <- run_command self
           ["kubectl"; "delete"; "-f"; file_path; "--ignore-not-found=true"] true ;;
    let '(returncode, _, _) := r in
    when (returncode =? 0) (print_success (description ++ " deleted"))
  else
    if Py.contains "servicemonitor" file_path
    then delete_resource self "servicemonitor" "quakewatch-app" (Some "default") false ;;
         ret tt
    else if Py.contains "prometheus-alerts" file_path
    then delete_resource self "prometheusrule" "quakewatch-alerts" (Some "monitoring") false ;;
         ret tt
    else if Py.contains "grafana-dashboard" file_path
    then delete_resource self "configmap" "quakewatch-dashboard" (Some "monitoring") false ;;
         ret tt
    else ret tt.

Definition delete_monitoring_resources (self : Args) : Script unit :=
  print_header "Removing Monitoring Resources" ;;
  for_each monitoring_manifests (delete_monitoring_manifest self).

Definition delete_monitoring_stack (self : Args) : Script unit :=
  print_header "Removing Prometheus & Grafana Stack" ;;
  found <- helm_release_exists self "kube-prometheus-stack" "monitoring" ;;
  (if found : bool
   then
     print_info "Uninstalling kube-prometheus-stack Helm release..." ;;
     r <- run_command self
            ["helm"; "uninstall"; "kube-prometheus-stack"; "-n"; "monitoring"] true ;;
     let '(returncode, _, stderr) := r in
     if returncode =? 0
     then print_success "Helm release uninstalled" ;;
          log_deleted "helm-release/kube-prometheus-stack"
     else print_error ("Failed to uninstall Helm release: " ++ stderr)
   else print_info "kube-prometheus-stack not installed") ;;
  present <- namespace_exists self "monitoring" ;;
  when present
    (print_info "Cleaning up PVCs in monitoring namespace..." ;;
     run_command self
       ["kubectl"; "delete"; "pvc"; "--all"; "-n"; "monitoring";
        "--ignore-not-found=true"] true ;;
     ret tt).

Definition delete_namespaces (self : Args) : Script unit :=
  print_header "Removing Namespaces" ;;
  for_each ["argocd"; "monitoring"] (fun namespace =>
    present <- namespace_exists self namespace ;;
    if present : bool
    then
      print_info ("Deleting namespace '" ++ namespace ++ "' (this may take a moment)...") ;;
      deleted <- delete_namespace_wait self namespace 120 ;;
      if deleted : bool
      then print_success ("Namespace '" ++ namespace ++ "' deleted")
      else print_warning ("Namespace '" ++ namespace
                          ++ "' deletion timed out (may still be deleting in background)")
    else print_info ("Namespace '" ++ namespace ++ "' not found")).

(** ** Main cleanup flow *)

(** [sys.exit(code)] *)
Definition sys_exit {A} (code : Z) : Script A := raise (SystemExit code).

(** The six calls under "Execute cleanup in order". *)
Definition execute_cleanup (self : Args) : Script unit :=
  kill_port_forwards self ;;
  delete_argocd_application self ;;
  delete_application_resources self ;;
  delete_monitoring_resources self ;;
  delete_monitoring_stack self ;;
  delete_namespaces self.

Definition print_report (self : Args) (elapsed : string) : Script unit :=
  print_header "Cleanup Complete" ;;
  (if dry_run self
   then
     print_info ("DRY-RUN completed in " ++ elapsed ++ "s") ;;
     print_info "Run without --dry-run to actually delete resources"
   else
     print_success ("Cleanup completed in " ++ elapsed ++ "s") ;;
     deleted <- get_deleted ;;
     print_info ("Deleted " ++ Py.str_nat (length deleted) ++ " resource(s)") ;;
     when (verbose self && negb (Nat.eqb (length deleted) 0))
       (print (nl ++ Colors.BOLD ++ "Deleted resources:" ++ Colors.RESET) ;;
        for_each deleted (fun resource => print ("  • " ++ resource)))) ;;
  print EmptyString ;;
  print_info "k3s is still running. To redeploy: ./build-deploy.sh" ;;
  print_info "To stop k3s: sudo systemctl stop k3s".

(** What follows the confirmation in the [try] block of [run]. *)
Definition proceed (self : Args) : Script unit :=
  start_time <- get_world ;;
  execute_cleanup self ;;
  now <- get_world ;;
  print_report self (format_elapsed sys start_time now).

Definition confirmed (self : Args) : Script bool :=
  if negb (dry_run self)
  then
    print (Colors.YELLOW ++ "⚠️  This will DELETE all resources listed above"
           ++ Colors.RESET) ;;
    print (Colors.GREEN ++ "✅ Resources NOT deleted:" ++ Colors.RESET) ;;
    print "  • k3s service (will keep running)" ;;
    print "  • Prometheus Operator CRDs (shared cluster resources)" ;;
    print "  • metrics-server (may be used by other apps)" ;;
    print "  • kubectl config" ;;
    print "  • Helm repositories" ;;
    print EmptyString ;;
    confirm_action self (Colors.BOLD ++ "Proceed with cleanup?" ++ Colors.RESET) false
  else ret true.

(** The [try] block of [run]. *)
Definition run_body (self : Args) : Script unit :=
  print_header "QuakeWatch Cleanup Script" ;;
  when (dry_run self)
    (print_warning "DRY-RUN MODE: No resources will be deleted" ;;
     print EmptyString) ;;
  ready <- check_prerequisites self ;;
  (if negb ready
   then print_error "Prerequisites check failed" ;; sys_exit 1
   else ret tt) ;;
  resources <- list_resources_to_delete self ;;
  if forallb (fun '(_, v) => Nat.eqb (length v) 0) resources
  then print_success "Nothing to clean up!"
  else
    go <- confirmed self ;;
    if negb go
    then print_info "Cleanup cancelled"
    else proceed self.

Definition run (self : Args) : Script unit :=
  try_except (run_body self)
    (fun e => match e with
              | KeyboardInterrupt | Exception _ _ => true
              | SystemExit _ => false
              end)
    (fun e => match e with
              | KeyboardInterrupt =>
                  print EmptyString ;;
                  print_warning "Cleanup interrupted by user" ;;
                  sys_exit 1
              | _ =>
                  print_error ("Unexpected error: " ++ str_exn e) ;;
                  when (verbose self) (emit Traceback) ;;
                  sys_exit 1
              end).

(** [main()], after [parser.parse_args()]. *)
Definition main (args : Args) (w : World sys) : State * list event * result unit :=
  run args (mkState w []).

End WithSystem.

End Cleanup.

(** * test_helm_deployment.py *)

Module HelmDeploymentTest.

(** The attributes [__init__] sets; [timeout] is never read. *)
Record Self : Type := mkSelf {
  release_name : string;
  namespace : string
}.

Definition helm_chart_path : string := "quackwatch-helm/".

(** [HelmDeploymentTest()] with its default arguments. *)
Definition default_self : Self := mkSelf "quakewatch-test" "default".

(** [os.environ] *)
Definition Environ : Type := string -> option string.

Definition setenv (key val : string) (env : Environ) : Environ :=
  fun k => if String.eqb k key then Some val else env k.

(** [os.getenv(key, default)] *)
Definition getenv (env : Environ) (key default : string) : string :=
  match env key with
  | Some v => v
  | None => default
  end.

(** [os.getenv("CLEANUP", "true").lower() == "true"] *)
Definition cleanup_enabled (env : Environ) : bool :=
  String.eqb (Py.lower (getenv env "CLEANUP" "true")) "true".

(** ** Python operations on decoded JSON *)

Definition type_error {A} (msg : string) : result A :=
  Raise (Exception "TypeError" msg).

Fixpoint dict_get (fields : list (string * json)) (key : string) : option json :=
  match fields with
  | [] => None
  | (k, v) :: rest => if String.eqb k key then Some v else dict_get rest key
  end.

(** [v[key]] for a string key *)
Definition getitem (v : json) (key : string) : result json :=
  match v with
  | JObj fields =>
      match dict_get fields key with
      | Some x => Ok x
      | None => Raise (Exception "KeyError" ("'" ++ key ++ "'"))
      end
  | JArr _ => type_error "list indices must be integers or slices, not str"
  | JStr _ => type_error "string indices must be integers, not 'str'"
  | JNum _ => type_error "'int' object is not subscriptable"
  | JBool _ => type_error "'bool' object is not subscriptable"
  | JNull => type_error "'NoneType' object is not subscriptable"
  end.

(** [v[k1][k2]] *)
Definition getitem2 (v : json) (k1 k2 : string) : result json :=
  match getitem v k1 with
  | Ok x => getitem x k2
  | Raise e => Raise e
  end.

(** [bool(v)] *)
Definition truthy (v : json) : bool :=
  match v with
  | JNull => false
  | JBool b => b
  | JNum n => negb (n =? 0)
  | JStr s => Py.truthy s
  | JArr items => negb (Nat.eqb (length items) 0)
  | JObj fields => negb (Nat.eqb (length fields) 0)
  end.

Fixpoint chars (s : string) : list json :=
  match s with
  | EmptyString => []
  | String c rest => JStr (String c EmptyString) :: chars rest
  end.

(** The values [for x in v] goes through *)
Definition iterate (v : json) : result (list json) :=
  match v with
  | JArr items => Ok items
  | JObj fields => Ok (map (fun kv => JStr (fst kv)) fields)
  | JStr s => Ok (chars s)
  | JNum _ => type_error "'int' object is not iterable"
  | JBool _ => type_error "'bool' object is not iterable"
  | JNull => type_error "'NoneType' object is not iterable"
  end.

(** [len(v)] *)
Definition len (v : json) : result nat :=
  match v with
  | JArr items => Ok (length items)
  | JObj fields => Ok (length fields)
  | JStr s => Ok (String.length s)
  | JNum _ => type_error "object of type 'int' has no len()"
  | JBool _ => type_error "object of type 'bool' has no len()"
  | JNull => type_error "object of type 'NoneType' has no len()"
  end.

(** [v > 0] *)
Definition gt_zero (v : json) : result bool :=
  match v with
  | JNum n => Ok (0 <? n)
  | JBool b => Ok b
  | _ => type_error "'>' not supported between instances"
  end.

(** [v != text] for a string literal *)
Definition differs (v : json) (text : string) : bool :=
  match v with
  | JStr s => negb (String.eqb s text)
  | _ => true
  end.

(** The inner loop of [test_pods_running]: [all_running] after the [for]
    with its [break]; the pods after the first one that is not running are
    not looked at. *)
Fixpoint all_running (pods : list json) : result bool :=
  match pods with
  | [] => Ok true
  | pod :: rest =>
      match getitem2 pod "status" "phase" with
      | Raise e => Raise e
      | Ok phase => if differs phase "Running" then Ok false else all_running rest
      end
  end.

Section WithSystem.

Variable sys : System.

Record State : Type := mkState {
  world : World sys;
  environ : Environ
}.

Definition Script (A : Type) : Type := M State A.

Definition lift {A} (r : result A) : Script A := fun s => (s, [], r).

Definition sys_run (cmd : list string) : Script Completed :=
  fun s =>
    let '(w, o) := subprocess_run sys cmd true (world s) in
    (mkState w (environ s), [Spawn cmd], result_of_outcome o).

Definition sys_sleep (seconds : Z) : Script unit :=
  fun s =>
    let '(w, o) := time_sleep sys seconds (world s) in
    (mkState w (environ s), [Sleep seconds], result_of_outcome o).

Definition sys_Popen (cmd : list string) : Script nat :=
  fun s =>
    let '(w, o) := subprocess_Popen sys cmd (world s) in
    (mkState w (environ s),
     [Popen cmd (match o with Done pid => Some pid | _ => None end)],
     result_of_outcome o).

Definition sys_terminate (pid : nat) : Script unit :=
  fun s => (mkState (process_terminate sys pid (world s)) (environ s),
            [Terminate pid], Ok tt).

Definition sys_wait (pid : nat) : Script unit :=
  fun s => (mkState (process_wait sys pid (world s)) (environ s),
            [Wait pid], Ok tt).

Definition sys_get (url : string) (timeout : Z) : Script Z :=
  fun s =>
    let '(w, o) := requests_get sys url timeout (world s) in
    (mkState w (environ s), [HttpGet url timeout], result_of_outcome o).

Definition get_environ : Script Environ := fun s => (s, [], Ok (environ s)).

(** [os.environ[key] = val] *)
Definition put_environ (key val : string) : Script unit :=
  fun s => (mkState (world s) (setenv key val (environ s)), [], Ok tt).

(** [json.loads(text)] *)
Definition loads (text : string) : Script json :=
  match json_loads sys text with
  | Some v => ret v
  | None => raise (Exception "JSONDecodeError" "Expecting value")
  end.

(** [assert cond, msg] *)
Definition assert (cond : bool) (msg : string) : Script unit :=
  if cond then ret tt else raise (Exception "AssertionError" msg).

(** [subprocess.run] raises [CalledProcessError] under [check] when the
    command returns non-zero; [run_command] catches only that exception,
    prints it and raises it again.  Every other exception goes through. *)
Definition run_command (cmd : list string) (check : bool) : Script Completed :=
  r <- sys_run cmd ;;
  if check && negb (returncode r =? 0)
  then
    print ("Command failed: " ++ Py.join " " cmd) ;;
    print ("Return code: " ++ Py.str_Z (returncode r)) ;;
    print ("STDOUT: " ++ stdout r) ;;
    print ("STDERR: " ++ stderr r) ;;
    raise (Exception "CalledProcessError"
             (py_called_process_error sys cmd (returncode r)))
  else ret r.

Definition test_helm_install (self : Self) : Script unit :=
  print "🔹 Installing Helm chart..." ;;
  let cmd := ["helm"; "upgrade"; "--install"; release_name self; helm_chart_path;
              "--namespace"; namespace self; "--create-namespace";
              "--wait"; "--timeout=5m"] in
  r <- run_command cmd true ;;
  assert (returncode r =? 0) ("Helm install failed: " ++ stderr r) ;;
  print "✅ Helm chart installed successfully".

Definition test_deployment_status (self : Self) : Script unit :=
  print "🔹 Checking deployment status..." ;;
  let cmd := ["kubectl"; "get"; "deployment"; "quackwatch-helm";
              "-n"; namespace self; "-o"; "json"] in
  r <- run_command cmd true ;;
  deployment <- loads (stdout r) ;;
  replicas <- lift (getitem2 deployment "status" "replicas") ;;
  positive <- lift (gt_zero replicas) ;;
  assert positive "No replicas found" ;;
  ready <- lift (getitem2 deployment "status" "readyReplicas") ;;
  replicas <- lift (getitem2 deployment "status" "replicas") ;;
  assert (py_eq sys ready replicas) "Not all replicas are ready" ;;
  ready <- lift (getitem2 deployment "status" "readyReplicas") ;;
  print ("✅ Deployment has " ++ py_str sys ready ++ " ready replicas").

Definition max_attempts : nat := 30.

Definition pods_cmd (self : Self) (output : string) : list string :=
  ["kubectl"; "get"; "pods"; "-l"; "app.kubernetes.io/instance=quackwatch-helm";
   "-n"; namespace self; "-o"; output].

(** One turn of the [for attempt in range(max_attempts)] loop:
    [Some items] when it returns [pods["items"]], [None] when the loop goes
    on to the next attempt. *)
Definition attempt_once (self : Self) (attempt : nat) : Script (option json) :=
  r <- run_command (pods_cmd self "json") true ;;
  pods <- loads (stdout r) ;;
  items <- lift (getitem pods "items") ;;
  if negb (truthy items)
  then sys_sleep 2 ;; ret None
  else
    each <- lift (iterate items) ;;
    running <- lift (all_running each) ;;
    if running : bool
    then
      n <- lift (len items) ;;
      print ("✅ All " ++ Py.str_nat n ++ " pods are running") ;;
      ret (Some items)
    else
      print ("⏳ Waiting for pods to be ready... (attempt "
             ++ Py.str_nat (attempt + 1) ++ "/" ++ Py.str_nat max_attempts ++ ")") ;;
      sys_sleep 2 ;;
      ret None.

Fixpoint attempts (self : Self) (range : list nat) : Script (option json) :=
  match range with
  | [] => ret None
  | attempt :: rest =>
      r <- attempt_once self attempt ;;
      match r with
      | Some items => ret (Some items)
      | None => attempts self rest
      end
  end.

Definition test_pods_running (self : Self) : Script json :=
  print "🔹 Checking pod status..." ;;
  r <- attempts self (seq 0 max_attempts) ;;
  match r with
  | Some items => ret items
  | None =>
      raise (Exception "AssertionError"
               "Pods did not reach Running state within timeout")
  end.

Definition test_service_exists (self : Self) : Script json :=
  print "🔹 Checking service..." ;;
  let cmd := ["kubectl"; "get"; "service"; "quackwatch-helm";
              "-n"; namespace self; "-o"; "json"] in
  r <- run_command cmd true ;;
  service <- loads (stdout r) ;;
  ports <- lift (getitem2 service "spec" "ports") ;;
  assert (truthy ports) "Service has no ports defined" ;;
  ports <- lift (getitem2 service "spec" "ports") ;;
  n <- lift (len ports) ;;
  print ("✅ Service exists with " ++ Py.str_nat n ++ " ports") ;;
  ret service.

Definition first_pod_name (self : Self) : Script string :=
  r <- run_command (pods_cmd self "jsonpath={.items[0].metadata.name}") true ;;
  ret (Py.strip (stdout r)).

Definition test_configmap_mount (self : Self) : Script unit :=
  print "🔹 Verifying ConfigMap mount..." ;;
  pod_name <- first_pod_name self ;;
  assert (Py.truthy pod_name) "No pods found for ConfigMap test" ;;
  r <- run_command ["kubectl"; "exec"; pod_name; "-n"; namespace self;
                    "--"; "ls"; "/data"] false ;;
  if returncode r =? 0
  then
    print "✅ ConfigMap mounted successfully" ;;
    config_result <-
      run_command ["kubectl"; "exec"; pod_name; "-n"; namespace self;
                   "--"; "cat"; "/data/earthquake.conf"] false ;;
    if returncode config_result =? 0
    then print "✅ Configuration file accessible"
    else print "⚠️ Configuration file not found, but mount exists"
  else print "⚠️ ConfigMap mount directory not found".

Definition is_RequestException (e : exn) : bool :=
  match e with
  | Exception cls _ => String.eqb cls "RequestException"
  | _ => false
  end.

Definition health_endpoints : list string := ["/ping"; "/health"; "/status"].

(** The body of the [try] block of [test_application_health]. *)
Definition probe_endpoints : Script unit :=
  sys_sleep 3 ;;
  for_each health_endpoints (fun endpoint =>
    try_except
      (status_code <- sys_get ("http://localhost:8080" ++ endpoint) 10 ;;
       if status_code =? 200
       then print ("✅ Health endpoint " ++ endpoint ++ " responding")
       else print ("⚠️ Health endpoint " ++ endpoint ++ " returned "
                   ++ Py.str_Z status_code))
      is_RequestException
      (fun e => print ("⚠️ Health endpoint " ++ endpoint ++ " failed: "
                       ++ Cleanup.str_exn e))) ;;
  try_except
    (status_code <- sys_get "http://localhost:8080/" 10 ;;
     if status_code =? 200
     then print "✅ Main application endpoint responding"
     else print ("⚠️ Main endpoint returned " ++ Py.str_Z status_code))
    is_RequestException
    (fun e => print ("⚠️ Main application endpoint failed: " ++ Cleanup.str_exn e)).

Definition port_forward_cmd (self : Self) (pod_name : string) : list string :=
  ["kubectl"; "port-forward"; pod_name; "8080:5000"; "-n"; namespace self].

Definition test_application_health (self : Self) : Script unit :=
  print "🔹 Testing application health..." ;;
  pod_name <- first_pod_name self ;;
  assert (Py.truthy pod_name) "No pods found for health test" ;;
  port_forward_process <- sys_Popen (port_forward_cmd self pod_name) ;;
  try_finally probe_endpoints
    (sys_terminate port_forward_process ;;
     sys_wait port_forward_process).

Definition test_hpa_exists (self : Self) : Script unit :=
  print "🔹 Checking HPA..." ;;
  let cmd := ["kubectl"; "get"; "hpa"; "quackwatch-helm";
              "-n"; namespace self; "-o"; "json"] in
  r <- run_command cmd false ;;
  if returncode r =? 0
  then
    hpa <- loads (stdout r) ;;
    min_replicas <- lift (getitem2 hpa "spec" "minReplicas") ;;
    max_replicas <- lift (getitem2 hpa "spec" "maxReplicas") ;;
    print ("✅ HPA configured: " ++ py_str sys min_replicas ++ "-"
           ++ py_str sys max_replicas ++ " replicas")
  else print "⚠️ HPA not found or not configured".

Definition uninstall_cmd (self : Self) : list string :=
  ["helm"; "uninstall"; release_name self; "-n"; namespace self].

Definition cleanup (self : Self) : Script unit :=
  print "🧹 Cleaning up test deployment..." ;;
  r <- run_command (uninstall_cmd self) false ;;
  if returncode r =? 0
  then print "✅ Test deployment cleaned up"
  else print "⚠️ Cleanup may have failed, check manually".

(** The seven steps in the [try] block of [run_all_tests]. *)
Definition test_steps (self : Self) : Script unit :=
  test_helm_install self ;;
  test_deployment_status self ;;
  test_pods_running self ;;
  test_service_exists self ;;
  test_configmap_mount self ;;
  test_application_health self ;;
  test_hpa_exists self.

(** [if os.getenv("CLEANUP", "true").lower() == "true": self.cleanup()] *)
Definition cleanup_if_enabled (self : Self) : Script unit :=
  env <- get_environ ;;
  when (cleanup_enabled env) (cleanup self).

Definition banner : string := Py.repeat_char "=" 50.

Definition run_all_tests (self : Self) : Script bool :=
  print "🚀 Starting Helm Deployment Test Suite" ;;
  print banner ;;
  try_finally
    (try_except
       (test_steps self ;;
        print banner ;;
        print "✅ All tests completed successfully!" ;;
        ret true)
       is_Exception
       (fun e =>
          print banner ;;
          print ("❌ Test failed: " ++ Cleanup.str_exn e) ;;
          ret false))
    (cleanup_if_enabled self).

(** The parsed command line of the script. *)
Record Args : Type := mkArgs {
  arg_release_name : string;
  arg_namespace : string;
  no_cleanup : bool
}.

Definition main (args : Args) : Script unit :=
  when (no_cleanup args) (put_environ "CLEANUP" "false") ;;
  let test_suite := mkSelf (arg_release_name args) (arg_namespace args) in
  success <- run_all_tests test_suite ;;
  raise (SystemExit (if success : bool then 0 else 1)).

(** [class TestHelmDeployment]: the suite [setup_class] builds and
    [teardown_class]. *)
Definition test_suite : Self := mkSelf "quackwatch-helm" "default".

Definition teardown_class : Script unit := cleanup_if_enabled test_suite.

End WithSystem.
End HelmDeploymentTest.

(** * Scripted systems

    A concrete [System] for running the scripts: the world is the number of
    primitive calls made so far, and each primitive answers from a table
    indexed by that number and by its arguments. *)

Module Scripted.

Record Scenario : Type := mkScenario {
  respond : nat -> list string -> outcome Completed;
  files : string -> bool;
  answer : nat -> outcome string;
  nap : nat -> outcome unit;
  child : nat -> outcome nat;
  http : nat -> string -> outcome Z;
  parse : string -> option json
}.

Definition scalar_eq (a b : json) : bool :=
  match a, b with
  | JNum x, JNum y => x =? y
  | JStr x, JStr y => String.eqb x y
  | JBool x, JBool y => Bool.eqb x y
  | JNull, JNull => true
  | _, _ => false
  end.

Definition scalar_str (a : json) : string :=
  match a with
  | JNum x => Py.str_Z x
  | JStr x => x
  | JBool true => "True"
  | JBool false => "False"
  | JNull => "None"
  | _ => "..."
  end.

Definition system (sc : Scenario) : System :=
  {| World := nat;
     subprocess_run := fun cmd _ n => (S n, respond sc n cmd);
     os_path_exists := fun path _ => files sc path;
     builtin_input := fun _ n => (S n, answer sc n);
     time_sleep := fun _ n => (S n, nap sc n);
     format_elapsed := fun _ _ => "0.0";
     subprocess_Popen := fun _ n => (S n, child sc n);
     process_terminate := fun _ n => S n;
     process_wait := fun _ n => S n;
     requests_get := fun url _ n => (S n, http sc n url);
     json_loads := parse sc;
     py_eq := scalar_eq;
     py_str := scalar_str;
     py_called_process_error := fun cmd rc =>
       "Command '" ++ Py.join " " cmd ++ "' returned non-zero exit status "
       ++ Py.str_Z rc ++ "." |}.

Definition completed (rc : Z) (out : string) : outcome Completed :=
  Done (mkCompleted rc out EmptyString).

(** A quiet scenario: every command succeeds with no output, no file
    exists, the operator answers "y", nothing fails. *)
Definition quiet : Scenario :=
  {| respond := fun _ _ => completed 0 EmptyString;
     files := fun _ => false;
     answer := fun _ => Done "y";
     nap := fun _ => Done tt;
     child := fun n => Done n;
     http := fun _ _ => Done 200;
     parse := fun _ => None |}.

End Scripted.

(** * The vocabulary of the statements *)

(** ** Traces, exceptions and returned values *)

(** Every event a script produces satisfies [P], from every state. *)
Definition emits {S A} (P : event -> Prop) (m : M S A) : Prop :=
  forall s, Forall P (trace (m s)).

(** Every exception a script raises satisfies [E], from every state. *)
Definition throws {S A} (E : exn -> Prop) (m : M S A) : Prop :=
  forall s e, value (m s) = Raise e -> E e.

(** A script returns, from every state, a value that satisfies [Q]. *)
Definition returns {S A} (Q : A -> Prop) (m : M S A) : Prop :=
  forall s, exists a, value (m s) = Ok a /\ Q a.

(** A run that returns and whose last event is [last], after events that all
    satisfy [P]. *)
Definition ends_with {S} (P : event -> Prop) (last : event)
    (x : S * list event * result unit) : Prop :=
  value x = Ok tt /\ exists t, trace x = (t ++ [last])%list /\ Forall P t.

(** An exception other than [SystemExit]. *)
Definition not_exit (e : exn) : Prop :=
  match e with
  | SystemExit _ => False
  | _ => True
  end.

(** The number of commands run and the seconds slept in a trace. *)
Fixpoint polls (t : list event) : nat :=
  match t with
  | [] => 0
  | Spawn _ :: rest => S (polls rest)
  | _ :: rest => polls rest
  end.

Fixpoint slept (t : list event) : Z :=
  match t with
  | [] => 0
  | Sleep seconds :: rest => seconds + slept rest
  | _ :: rest => slept rest
  end.

(** The commands of a trace, in order. *)
Definition commands_run (t : list event) : list string :=
  flat_map (fun e => match e with
                     | Spawn cmd => [Py.join " " cmd]
                     | _ => []
                     end) t.

(** ** The commands of the teardown script *)

Fixpoint cmd_eqb (a b : list string) : bool :=
  match a, b with
  | [], [] => true
  | x :: a', y :: b' => String.eqb x y && cmd_eqb a' b'
  | _, _ => false
  end.

Definition listed (cmd : list string) (allowed : list (list string)) : bool :=
  existsb (cmd_eqb cmd) allowed.

Definition covers (big small : list (list string)) : bool :=
  forallb (fun cmd => listed cmd big) small.

(** [run_command] hands [cmd] to [subprocess.run]: it is not held back by the
    dry-run test. *)
Definition launched (self : Cleanup.Args) (cmd : list string) : bool :=
  negb (Cleanup.dry_run self &&
        match Cleanup.destructive cmd with Ok b => b | Raise _ => true end).

(** The events a part of the script may produce: the commands it spawns are
    among [allowed] and passed the dry-run test, it sleeps only for one of the
    durations [naps], it reads the terminal only if [prompts], and it starts
    no background process and no HTTP request. *)
Definition only (self : Cleanup.Args) (allowed : list (list string))
    (naps : list Z) (prompts : bool) (e : event) : Prop :=
  match e with
  | Spawn cmd => In cmd allowed /\ launched self cmd = true
  | Sleep seconds => In seconds naps
  | Input _ => prompts = true
  | Print _ | Traceback => True
  | Popen _ _ | Terminate _ | Wait _ | HttpGet _ _ => False
  end.

(** The commands each part of the teardown script can hand to
    [subprocess.run]. *)
Module Footprint.

Definition prerequisites : list (list string) :=
  [["kubectl"; "version"; "--client"];
   ["helm"; "version"];
   ["kubectl"; "cluster-info"]].

Definition listing : list (list string) :=
  [["kubectl"; "get"; "application"; "earthquake-app"; "-n"; "argocd"];
   ["kubectl"; "get";
    "all,configmap,secret,pvc,serviceaccount,cronjob,servicemonitor";
    "-l"; "app.kubernetes.io/instance=earthquake-app"; "-n"; "default";
    "-o"; "name"];
   ["helm"; "list"; "-n"; "monitoring"; "-q"];
   ["kubectl"; "get"; "servicemonitor"; "quakewatch-app"; "-n"; "default"];
   ["kubectl"; "get"; "prometheusrule"; "quakewatch-alerts"; "-n"; "monitoring"];
   ["kubectl"; "get"; "configmap"; "quakewatch-dashboard"; "-n"; "monitoring"];
   ["kubectl"; "get"; "namespace"; "argocd"];
   ["kubectl"; "get"; "namespace"; "monitoring"]].

Definition pgrep : list string := ["pgrep"; "-f"; "kubectl port-forward"].
Definition pkill : list string := ["pkill"; "-f"; "kubectl port-forward"].

Definition port_forwards (dry : bool) : list (list string) :=
  if dry then [pgrep] else [pgrep; pkill].

Definition argocd_application : list (list string) :=
  [["kubectl"; "get"; "application"; "earthquake-app"; "-n"; "argocd"];
   ["kubectl"; "delete"; "application"; "earthquake-app";
    "--ignore-not-found=true"; "-n"; "argocd"]].

Definition application_resources : list (list string) :=
  [["kubectl"; "delete";
    "all,configmap,secret,pvc,serviceaccount,cronjob,servicemonitor";
    "-l"; "app.kubernetes.io/instance=earthquake-app"; "-n"; "default";
    "--ignore-not-found=true"];
   ["kubectl"; "delete"; "servicemonitor"; "quakewatch-app";
    "--ignore-not-found=true"; "-n"; "default"]].

Definition monitoring_objects : list (list string) :=
  [["kubectl"; "delete"; "-f"; "monitoring/standalone/servicemonitor.yaml";
    "--ignore-not-found=true"];
   ["kubectl"; "delete"; "-f"; "monitoring/standalone/prometheus-alerts.yaml";
    "--ignore-not-found=true"];
   ["kubectl"; "delete"; "-f"; "monitoring/standalone/grafana-dashboard.yaml";
    "--ignore-not-found=true"];
   ["kubectl"; "delete"; "servicemonitor"; "quakewatch-app";
    "--ignore-not-found=true"; "-n"; "default"];
   ["kubectl"; "delete"; "prometheusrule"; "quakewatch-alerts";
    "--ignore-not-found=true"; "-n"; "monitoring"];
   ["kubectl"; "delete"; "configmap"; "quakewatch-dashboard";
    "--ignore-not-found=true"; "-n"; "monitoring"]].

Definition monitoring_stack : list (list string) :=
  [["helm"; "list"; "-n"; "monitoring"; "-q"];
   ["helm"; "uninstall"; "kube-prometheus-stack"; "-n"; "monitoring"];
   ["kubectl"; "get"; "namespace"; "monitoring"];
   ["kubectl"; "delete"; "pvc"; "--all"; "-n"; "monitoring";
    "--ignore-not-found=true"]].

Definition namespaces : list (list string) :=
  [["kubectl"; "get"; "namespace"; "argocd"];
   ["kubectl"; "delete"; "namespace"; "argocd"; "--timeout=120s"];
   ["kubectl"; "get"; "namespace"; "monitoring"];
   ["kubectl"; "delete"; "namespace"; "monitoring"; "--timeout=120s"]].

(** A deletion phase as the operator sees it: the title of its header, the
    commands it can run and the pauses it can make. *)
Record Phase : Type := mkPhase {
  title : string;
  commands : list (list string);
  pauses : list Z
}.

(** The six deletion phases, in the order of "Execute cleanup in order". *)
Definition plan (dry : bool) : list Phase :=
  [mkPhase "Stopping Port-Forward Processes" (port_forwards dry) [];
   mkPhase "Removing ArgoCD Application" argocd_application [3];
   mkPhase "Removing Application Resources" application_resources [];
   mkPhase "Removing Monitoring Resources" monitoring_objects [];
   mkPhase "Removing Prometheus & Grafana Stack" monitoring_stack [];
   mkPhase "Removing Namespaces" namespaces []].

Definition teardown (dry : bool) : list (list string) :=
  concat (map commands (plan dry)).

Definition script (dry : bool) : list (list string) :=
  (prerequisites ++ listing ++ teardown dry)%list.

End Footprint.

(** The three lines [print_header] prints. *)
Definition header (title : string) : list event :=
  [Print (Cleanup.nl ++ Cleanup.Colors.BOLD ++ Cleanup.Colors.CYAN
          ++ Cleanup.rule ++ Cleanup.Colors.RESET);
   Print (Cleanup.Colors.BOLD ++ Cleanup.Colors.CYAN ++ title
          ++ Cleanup.Colors.RESET);
   Print (Cleanup.Colors.BOLD ++ Cleanup.Colors.CYAN ++ Cleanup.rule
          ++ Cleanup.Colors.RESET ++ Cleanup.nl)].

(** The events of one phase: its header, then only its own commands and
    pauses, and no prompt. *)
Definition segment_of (self : Cleanup.Args) (phase : Footprint.Phase) (seg : list event)
  : Prop :=
  exists rest,
    seg = (header (Footprint.title phase) ++ rest)%list /\
    Forall (only self (Footprint.commands phase) (Footprint.pauses phase) false) rest.

(** A script goes through the phases of [plan] in order: its trace is the
    concatenation of the segments of the phases it reached, these are an
    initial part of [plan], and it reached them all when it returns. *)
Definition follows (sys : System) (self : Cleanup.Args)
    (plan : list Footprint.Phase) (m : Cleanup.Script sys unit) : Prop :=
  forall s, exists reached,
    trace (m s) = concat reached /\
    Forall2 (segment_of self) (firstn (length reached) plan) reached /\
    (forall u, value (m s) = Ok u -> length reached = length plan).

(** A command with a mutating verb: a [pkill], or a [kubectl]/[helm] command
    with [delete] or [uninstall] among its words. *)
Definition mutating (cmd : list string) : bool :=
  match cmd with
  | [] => false
  | program :: _ =>
      String.eqb program "pkill"
      || (Py.mem program ["kubectl"; "helm"]
          && (Py.mem "delete" cmd || Py.mem "uninstall" cmd))
  end.

(** No mutating command is handed to [subprocess.run]. *)
Definition harmless (e : event) : Prop :=
  match e with
  | Spawn cmd => mutating cmd = false
  | _ => True
  end.

(** The line [run_command] echoes under [--verbose]. *)
Definition echo (self : Cleanup.Args) (cmd : list string) : list event :=
  if Cleanup.verbose self
  then [Print (Cleanup.Colors.CYAN ++ "> " ++ Py.join " " cmd ++ Cleanup.Colors.RESET)]
  else [].

Definition marked (line : string) : bool := Py.contains "[DRY-RUN]" line.

(** No line of the trace carries the dry-run marker. *)
Definition unmarked (e : event) : Prop :=
  match e with
  | Print line => marked line = false
  | _ => True
  end.

(** A deletion command: [delete] or [uninstall] is among its words. *)
Definition deletes (cmd : list string) : bool :=
  Py.mem "delete" cmd || Py.mem "uninstall" cmd.

Definition ignores_not_found (cmd : list string) : bool :=
  Py.mem "--ignore-not-found=true" cmd.

Definition helm_uninstall : list string :=
  ["helm"; "uninstall"; "kube-prometheus-stack"; "-n"; "monitoring"].

Definition namespace_delete (namespace : string) : list string :=
  ["kubectl"; "delete"; "namespace"; namespace; "--timeout=120s"].

(** The deletions that do not ask for ignore-not-found; the script probes
    for their target first. *)
Definition probed_first : list (list string) :=
  [namespace_delete "argocd"; namespace_delete "monitoring"; helm_uninstall].

Definition tolerant (e : event) : Prop :=
  match e with
  | Spawn cmd =>
      deletes cmd = true -> ignores_not_found cmd = true \/ In cmd probed_first
  | _ => True
  end.

(** What [run_body] does once the prerequisites are met. *)
Definition after_prerequisites (sys : System) (self : Cleanup.Args)
  : Cleanup.Script sys unit :=
  resources <- Cleanup.list_resources_to_delete sys self ;;
  if forallb (fun '(_, v) => Nat.eqb (length v) 0) resources
  then Cleanup.print_success sys "Nothing to clean up!"
  else
    go <- Cleanup.confirmed sys self ;;
    if negb go
    then Cleanup.print_info sys "Cleanup cancelled"
    else Cleanup.proceed sys self.

Definition label_query : list string :=
  ["kubectl"; "get";
   "all,configmap,secret,pvc,serviceaccount,cronjob,servicemonitor";
   "-l"; "app.kubernetes.io/instance=earthquake-app"; "-n"; "default";
   "-o"; "name"].

Definition release_listing : list string :=
  ["helm"; "list"; "-n"; "monitoring"; "-q"].

(** What the commands of the prerequisite check and of the inventory answer
    when the tools work and nothing is deployed: the version and
    cluster-info commands succeed; the query by label fails or prints
    nothing; the release listing fails or does not show the release; every
    query by name fails. *)
Definition bare (cmd : list string) (rc : Z) (out : string) : bool :=
  if listed cmd Footprint.prerequisites then rc =? 0
  else if cmd_eqb cmd label_query
       then negb ((rc =? 0) && Py.truthy (Py.strip out))
  else if cmd_eqb cmd release_listing
       then negb ((rc =? 0) && Py.contains "kube-prometheus-stack" out)
  else if listed cmd Footprint.listing then negb (rc =? 0)
  else true.

(** In every world the system answers as a bare cluster does; a command that
    cannot be launched counts as status 1 with no output, and the operator
    does not interrupt. *)
Definition nothing_deployed (sys : System) : Prop :=
  forall cmd capture_output w,
    match snd (subprocess_run sys cmd capture_output w) with
    | Done r => bare cmd (returncode r) (stdout r) = true
    | Failed _ _ => bare cmd 1 EmptyString = true
    | Interrupted => False
    end.

Definition all_empty (resources : Cleanup.Inventory) : bool :=
  forallb (fun '(_, v) => Nat.eqb (length v) 0) resources.

Definition nothing_to_clean_up : event :=
  Print (Cleanup.Colors.GREEN ++ "✅ " ++ "Nothing to clean up!" ++ Cleanup.Colors.RESET).

(** What a prober makes of the outcome of its query, given how it reads a
    completed one: a failure to launch counts as status 1 with no output, an
    interrupt goes through. *)
Definition reading (exists_in : Completed -> bool) (o : outcome Completed)
  : result bool :=
  match o with
  | Done r => Ok (exists_in r)
  | Failed _ msg => Ok (exists_in (mkCompleted 1 EmptyString msg))
  | Interrupted => Raise KeyboardInterrupt
  end.


Definition delete_application : list string :=
  ["kubectl"; "delete"; "application"; "earthquake-app";
   "--ignore-not-found=true"; "-n"; "argocd"].

(** The trace of the ArgoCD phase: the pause, if any, is its last event, it
    lasts three seconds, and the deletion of the application was run before
    it. *)
Definition pauses_last (self : Cleanup.Args) (t : list event) : Prop :=
  exists body tail,
    t = (body ++ tail)%list
    /\ Forall (only self Footprint.argocd_application [] false) body
    /\ (tail = [] \/ (tail = [Sleep 3] /\ In (Spawn delete_application) body)).


(** ** The verification script *)

(** A pod that reports the phase [Running]. *)
Definition running (pod : json) : Prop :=
  HelmDeploymentTest.getitem2 pod "status" "phase" = Ok (JStr "Running").



(** The state after [k] turns of the loop that all said "not yet". *)
Fixpoint after (sys : System) (self : HelmDeploymentTest.Self) (k : nat)
    (s : HelmDeploymentTest.State sys) : HelmDeploymentTest.State sys :=
  match k with
  | O => s
  | S k' => after sys self k' (final_state (HelmDeploymentTest.attempt_once sys self 0 s))
  end.


(** An event that is not about a background process. *)
Definition process_free (e : event) : Prop :=
  match e with
  | Popen _ _ | Terminate _ | Wait _ => False
  | _ => True
  end.

(** A script that leaves [os.environ] as it found it. *)
Definition keeps (sys : System) {A} (m : HelmDeploymentTest.Script sys A) : Prop :=
  forall s, HelmDeploymentTest.environ sys (final_state (m s))
            = HelmDeploymentTest.environ sys s.

(** ** Scenarios *)

Module Scenarios.

Import Scripted.

(** Two port-forward processes are running; everything else is quiet. *)
Definition forwarding : Scenario :=
  {| respond := fun _ cmd =>
       if cmd_eqb cmd Footprint.pgrep
       then completed 0 ("4242" ++ Cleanup.nl ++ "4243" ++ Cleanup.nl)
       else completed 0 EmptyString;
     files := files quiet;
     answer := answer quiet;
     nap := nap quiet;
     child := child quiet;
     http := http quiet;
     parse := parse quiet |}.

(** The whole stack is deployed and one port-forward is running. *)
Definition deployed : Scenario :=
  {| respond := fun _ cmd =>
       if cmd_eqb cmd Footprint.pgrep then completed 0 "4242"
       else if cmd_eqb cmd ["helm"; "list"; "-n"; "monitoring"; "-q"]
       then completed 0 "kube-prometheus-stack"
       else completed 0 EmptyString;
     files := files quiet;
     answer := fun _ => Done "yes";
     nap := nap quiet;
     child := child quiet;
     http := http quiet;
     parse := parse quiet |}.

(** The tools answer and the cluster is reachable, but nothing is deployed:
    a query by name fails with "not found", a query by label and the release
    listing succeed with no output, and no port-forward is running. *)
Definition starts_with (words cmd : list string) : bool :=
  cmd_eqb words (firstn (length words) cmd).

Definition by_label (cmd : list string) : bool :=
  starts_with ["kubectl"; "get"] cmd
  && match nth_error cmd 3 with
     | Some word => String.eqb word "-l"
     | None => false
     end.

Definition empty_cluster : Scenario :=
  {| respond := fun _ cmd =>
       if by_label cmd then completed 0 EmptyString
       else if starts_with ["kubectl"; "get"] cmd
       then Done (mkCompleted 1 EmptyString "Error from server (NotFound)")
       else if starts_with ["pgrep"] cmd then completed 1 EmptyString
       else completed 0 EmptyString;
     files := files quiet;
     answer := answer quiet;
     nap := nap quiet;
     child := child quiet;
     http := http quiet;
     parse := parse quiet |}.

(** The stack is deployed and the operator declines at the prompt. *)
Definition declined : Scenario :=
  {| respond := respond deployed;
     files := files quiet;
     answer := fun _ => Done "n";
     nap := nap quiet;
     child := child quiet;
     http := http quiet;
     parse := parse quiet |}.

(** The stack is deployed and the operator hits Ctrl-C at the prompt. *)
Definition interrupted : Scenario :=
  {| respond := respond deployed;
     files := files quiet;
     answer := fun _ => Interrupted;
     nap := nap quiet;
     child := child quiet;
     http := http quiet;
     parse := parse quiet |}.

Definition pod (phase : string) : json :=
  JObj [("status", JObj [("phase", JStr phase)])].

Definition pod_list (pods : list json) : json := JObj [("items", JArr pods)].

(** The output of the pod query is one of two words, decoded as a list with
    one pending pod and one running pod, or as a list of two running pods. *)
Definition decode (text : string) : option json :=
  if String.eqb text "pending"
  then Some (pod_list [pod "Running"; pod "Pending"])
  else if String.eqb text "running"
  then Some (pod_list [pod "Running"; pod "Running"])
  else None.

(** The pods never get past the pending phase. *)
Definition stuck : Scenario :=
  {| respond := fun _ _ => completed 0 "pending";
     files := files quiet;
     answer := answer quiet;
     nap := nap quiet;
     child := child quiet;
     http := http quiet;
     parse := decode |}.

(** The pods are running from the third query on (each turn of the loop
    makes two calls: the query and the sleep). *)
Definition slow_start : Scenario :=
  {| respond := fun n _ =>
       if (n <? 4)%nat then completed 0 "pending" else completed 0 "running";
     files := files quiet;
     answer := answer quiet;
     nap := nap quiet;
     child := child quiet;
     http := http quiet;
     parse := decode |}.


(** No program can be launched. *)
Definition no_binaries : Scenario :=
  {| respond := fun _ cmd =>
       Failed "FileNotFoundError" "[Errno 2] No such file or directory";
     files := files quiet;
     answer := answer quiet;
     nap := nap quiet;
     child := child quiet;
     http := http quiet;
     parse := parse quiet |}.

Definition dry : Cleanup.Args := Cleanup.mkArgs false true false.
Definition real : Cleanup.Args := Cleanup.mkArgs true false false.
Definition interactive : Cleanup.Args := Cleanup.mkArgs false false false.

Definition start (sc : Scenario) : Cleanup.State (system sc) :=
  Cleanup.mkState (system sc) 0%nat [].

(** The verification script starts with an empty environment. *)
Definition start_test (sc : Scenario) : HelmDeploymentTest.State (system sc) :=
  HelmDeploymentTest.mkState (system sc) 0%nat (fun _ => None).

End Scenarios.

(** * Further vocabulary

    What the statements about the single functions need, beyond the
    vocabulary above. *)

(** ** The teardown script *)

Definition index_error : exn := Exception "IndexError" "list index out of range".

(** The status [run_command] reports for the outcome of a launch: the exit
    status of the command, and 1 when it could not be launched. *)
Definition status (o : outcome Completed) : Z :=
  match o with
  | Done r => returncode r
  | _ => 1
  end.





(** The command of [delete_resource]. *)
Definition deletion_cmd (resource_type name : string) (namespace : option string)
    (wait : bool) : list string :=
  let cmd := Cleanup.with_namespace
               ["kubectl"; "delete"; resource_type; name; "--ignore-not-found=true"]
               namespace in
  if wait then (cmd ++ ["--wait=true"])%list else cmd.

(** The entry [delete_resource] appends to [deleted_resources]. *)
Definition deletion_label (resource_type name : string) (namespace : option string)
  : string :=
  resource_type ++ "/" ++ name ++
  match Cleanup.given namespace with
  | Some ns => " -n " ++ ns
  | None => EmptyString
  end.

Definition namespace_probe (namespace : string) : list string :=
  ["kubectl"; "get"; "namespace"; namespace].

(** The command of [delete_namespace_wait]. *)
Definition namespace_deletion (namespace : string) (timeout : Z) : list string :=
  ["kubectl"; "delete"; "namespace"; namespace;
   "--timeout=" ++ Py.str_Z timeout ++ "s"].

(** The number of items of an inventory, all categories together. *)
Definition total_of (resources : Cleanup.Inventory) : nat :=
  list_sum (map (fun entry => length (snd entry)) resources).

(** The categories of an inventory, in the order of the dict. *)
Definition categories (resources : Cleanup.Inventory) : list string :=
  map fst resources.

(** The last line of [list_resources_to_delete]. *)
Definition closing_line (resources : Cleanup.Inventory) : event :=
  if Nat.eqb (total_of resources) 0
  then Print (Cleanup.Colors.BLUE ++ "ℹ️  " ++ "No resources found to delete"
              ++ Cleanup.Colors.RESET)
  else Print (Cleanup.Colors.BOLD ++ "Total resources: "
              ++ Py.str_nat (total_of resources) ++ Cleanup.Colors.RESET
              ++ Cleanup.nl).

(** Whatever a script returns satisfies [Q]. *)
Definition yields {S A} (Q : A -> Prop) (m : M S A) : Prop :=
  forall s a, value (m s) = Ok a -> Q a.

(** A script that, when it returns [a], has [Q a] and has [last a] as its
    last event. *)
Definition closes {S A} (Q : A -> Prop) (last : A -> event) (m : M S A) : Prop :=
  forall s a, value (m s) = Ok a ->
    Q a /\ exists before, trace (m s) = (before ++ [last a])%list.

Definition all_stopped : event :=
  Print (Cleanup.Colors.GREEN ++ "✅ " ++ "All port-forwards stopped"
         ++ Cleanup.Colors.RESET).

(** No launch is interrupted by the operator, and sleeping completes. *)
Definition uninterrupted (sys : System) : Prop :=
  (forall cmd capture_output w,
     snd (subprocess_run sys cmd capture_output w) <> Interrupted)
  /\ (forall seconds w, snd (time_sleep sys seconds w) = Done tt).

(** No exception at all. *)
Definition never (e : exn) : Prop := False.

(** The entries the script can append to [deleted_resources]. *)
Definition loggable : list string :=
  ["application/earthquake-app -n argocd";
   "servicemonitor/quakewatch-app -n default";
   "prometheusrule/quakewatch-alerts -n monitoring";
   "configmap/quakewatch-dashboard -n monitoring";
   "helm-release/kube-prometheus-stack";
   "namespace/argocd";
   "namespace/monitoring"].

(** A script only appends to [deleted_resources], and only entries of
    [allowed]. *)
Definition logs (sys : System) {A} (allowed : list string)
    (m : Cleanup.Script sys A) : Prop :=
  forall s, exists added,
    Cleanup.deleted_resources sys (final_state (m s))
    = (Cleanup.deleted_resources sys s ++ added)%list
    /\ incl added allowed.

(** The number of times a trace reads the terminal. *)
Fixpoint prompts_in (t : list event) : nat :=
  match t with
  | [] => 0
  | Input _ :: rest => S (prompts_in rest)
  | _ :: rest => prompts_in rest
  end.

(** A script reads the terminal at most [n] times. *)
Definition asks {S A} (n : nat) (m : M S A) : Prop :=
  forall s, (prompts_in (trace (m s)) <= n)%nat.

(** The deletion by label of [delete_application_resources]. *)
Definition label_deletion : list string :=
  ["kubectl"; "delete"; Cleanup.app_kinds; "-l"; Cleanup.app_selector;
   "-n"; "default"; "--ignore-not-found=true"].

(** The listing of the releases of a namespace. *)
Definition release_listing_of (namespace : string) : list string :=
  ["helm"; "list"; "-n"; namespace; "-q"].

(** A script sleeps for at most [n] seconds in all. *)
Definition rests {S A} (n : Z) (m : M S A) : Prop :=
  forall s, 0 <= slept (trace (m s)) <= n.

(** A pause of three seconds, or no pause. *)
Definition pause_of_three (e : event) : Prop :=
  match e with
  | Sleep seconds => seconds = 3
  | _ => True
  end.

Definition prerequisites_failed : event :=
  Print (Cleanup.Colors.RED ++ "❌ " ++ "Prerequisites check failed"
         ++ Cleanup.Colors.RESET).

(** What [run] prints for an exception other than the operator's interrupt. *)
Definition error_report (self : Cleanup.Args) (msg : string) : list event :=
  Print (Cleanup.Colors.RED ++ "❌ " ++ ("Unexpected error: " ++ msg)
         ++ Cleanup.Colors.RESET)
  :: (if Cleanup.verbose self then [Traceback] else []).

(** ** The verification script *)

(** The command of [test_helm_install]. *)
Definition install_cmd (self : HelmDeploymentTest.Self) : list string :=
  ["helm"; "upgrade"; "--install"; HelmDeploymentTest.release_name self;
   HelmDeploymentTest.helm_chart_path;
   "--namespace"; HelmDeploymentTest.namespace self; "--create-namespace";
   "--wait"; "--timeout=5m"].

(** The query of an object of the chart, as JSON. *)
Definition object_cmd (self : HelmDeploymentTest.Self) (kind : string) : list string :=
  ["kubectl"; "get"; kind; "quackwatch-helm";
   "-n"; HelmDeploymentTest.namespace self; "-o"; "json"].

(** The query of the name of the first pod. *)
Definition pod_query (self : HelmDeploymentTest.Self) : list string :=
  HelmDeploymentTest.pods_cmd self "jsonpath={.items[0].metadata.name}".

(** What [subprocess.run(..., check=True)] raises for a non-zero status. *)
Definition called_process_error (sys : System) (cmd : list string) (r : Completed)
  : exn :=
  Exception "CalledProcessError" (py_called_process_error sys cmd (returncode r)).

(** The outcome of [run_command(cmd, check)] for what the system answers. *)
Definition checked (sys : System) (cmd : list string) (check : bool)
    (o : outcome Completed) : result Completed :=
  match o with
  | Done r =>
      if check && negb (returncode r =? 0)
      then Raise (called_process_error sys cmd r)
      else Ok r
  | Failed cls msg => Raise (Exception cls msg)
  | Interrupted => Raise KeyboardInterrupt
  end.

(** From state [s], the query [cmd] exits with status zero and prints a
    document that decodes to [d]. *)
Definition answers (sys : System) (cmd : list string)
    (s : HelmDeploymentTest.State sys) (d : json) : Prop :=
  exists r,
    snd (subprocess_run sys cmd true (HelmDeploymentTest.world sys s)) = Done r
    /\ returncode r = 0
    /\ json_loads sys (stdout r) = Some d.

Definition assertion_error (msg : string) : exn := Exception "AssertionError" msg.

Definition key_error (key : string) : exn := Exception "KeyError" ("'" ++ key ++ "'").


(** Every command can be launched and runs to its end. *)
Definition launches (sys : System) : Prop :=
  forall cmd w, exists r, snd (subprocess_run sys cmd true w) = Done r.

(** The port-forward has its three seconds, and every HTTP request gets an
    answer or fails with a [requests.RequestException]. *)
Definition endpoints_answer (sys : System) : Prop :=
  (forall w, snd (time_sleep sys 3 w) = Done tt)
  /\ forall url timeout w,
       match snd (requests_get sys url timeout w) with
       | Done _ => True
       | Failed cls _ => cls = "RequestException"
       | Interrupted => False
       end.

(** The HTTP requests of a trace, in order, with their timeouts. *)
Definition requests_of (t : list event) : list (string * Z) :=
  flat_map (fun e => match e with
                     | HttpGet url timeout => [(url, timeout)]
                     | _ => []
                     end) t.

(** A script whose requests are [l], from every state and whatever it
    returns or raises. *)
Definition gets {S A} (l : list (string * Z)) (m : M S A) : Prop :=
  forall s, requests_of (trace (m s)) = l.

(** A [helm uninstall] command. *)
Definition is_uninstall (cmd : list string) : bool :=
  match cmd with
  | program :: verb :: _ => String.eqb program "helm" && String.eqb verb "uninstall"
  | _ => false
  end.

Definition no_uninstall (e : event) : Prop :=
  match e with
  | Spawn cmd => is_uninstall cmd = false
  | _ => True
  end.

(** ** More scenarios *)

Module Cases.

Import Scripted.


(** The stack is deployed and standard input is closed. *)
Definition closed_stdin : Scenario :=
  {| respond := respond Scenarios.deployed;
     files := files quiet;
     answer := fun _ => Failed "EOFError" "EOF when reading a line";
     nap := nap quiet;
     child := child quiet;
     http := http quiet;
     parse := parse quiet |}.

(** A deployment of two replicas, none of them ready: the API server leaves
    [readyReplicas] out. *)
Definition rollout : json :=
  JObj [("status", JObj [("replicas", JNum 2)])].

(** A service with one port. *)
Definition service : json :=
  JObj [("spec", JObj [("ports", JArr [JObj [("port", JNum 80)]])])].

(** Every query prints the same word, decoded as [document]. *)
Definition printing (document : json) : Scenario :=
  {| respond := fun _ _ => completed 0 "document";
     files := files quiet;
     answer := answer quiet;
     nap := nap quiet;
     child := child quiet;
     http := http quiet;
     parse := fun text =>
       if String.eqb text "document" then Some document else None |}.

(** The application answers 503 on every endpoint. *)
Definition unhealthy : Scenario :=
  {| respond := respond quiet;
     files := files quiet;
     answer := answer quiet;
     nap := nap quiet;
     child := child quiet;
     http := fun _ _ => Done 503;
     parse := parse quiet |}.

(** Another release, whose name extends the name of the stack, is listed. *)
Definition lookalike : Scenario :=
  {| respond := fun _ _ => completed 0 "kube-prometheus-stack-canary";
     files := files quiet;
     answer := answer quiet;
     nap := nap quiet;
     child := child quiet;
     http := http quiet;
     parse := parse quiet |}.

End Cases.

(** * Reasoning about traces *)

Section Traces.

Context {S : Type}.
Variable P : event -> Prop.

Lemma emits_ret A (a : A) : emits P (@ret S A a).
Proof. intros s. constructor. Qed.

Lemma emits_raise A (e : exn) : emits P (@raise S A e).
Proof. intros s. constructor. Qed.

Lemma emits_emit (e : event) : P e -> emits P (@emit S e).
Proof. intros H s. repeat constructor. exact H. Qed.

Lemma emits_bind A B (m : M S A) (f : A -> M S B) :
  emits P m -> (forall a, emits P (f a)) -> emits P (bind m f).
Proof.
  intros Hm Hf s. unfold bind, trace. specialize (Hm s). unfold trace in Hm.
  destruct (m s) as [[s1 l1] [a|e]]; cbn in *; [|exact Hm].
  specialize (Hf a s1). unfold trace in Hf.
  destruct (f a s1) as [[s2 l2] r2]; cbn in *.
  apply Forall_app; split; assumption.
Qed.

Lemma emits_try_except A (m : M S A) handles (handler : exn -> M S A) :
  emits P m -> (forall e, emits P (handler e)) -> emits P (try_except m handles handler).
Proof.
  intros Hm Hh s. unfold try_except, trace. specialize (Hm s). unfold trace in Hm.
  destruct (m s) as [[s1 l1] [a|e]]; cbn in *; [exact Hm|].
  destruct (handles e); [|exact Hm].
  specialize (Hh e s1). unfold trace in Hh.
  destruct (handler e s1) as [[s2 l2] r2]; cbn in *.
  apply Forall_app; split; assumption.
Qed.

Lemma emits_try_finally A (m : M S A) (fin : M S unit) :
  emits P m -> emits P fin -> emits P (try_finally m fin).
Proof.
  intros Hm Hf s. unfold try_finally, trace. specialize (Hm s). unfold trace in Hm.
  destruct (m s) as [[s1 l1] r1]; cbn in *.
  specialize (Hf s1). unfold trace in Hf.
  destruct (fin s1) as [[s2 l2] r2]; cbn in *.
  apply Forall_app; split; assumption.
Qed.

Lemma emits_for_each A (xs : list A) (body : A -> M S unit) :
  (forall x, In x xs -> emits P (body x)) -> emits P (for_each xs body).
Proof.
  induction xs as [|x xs IH]; intros H; cbn.
  - apply emits_ret.
  - apply emits_bind.
    + apply H. now left.
    + intros _. apply IH. intros y Hy. apply H. now right.
Qed.

Lemma emits_when (c : bool) (m : M S unit) :
  (c = true -> emits P m) -> emits P (when c m).
Proof. destruct c; cbn; intros H; [now apply H | apply emits_ret]. Qed.

Lemma emits_print (line : string) : P (Print line) -> emits P (@print S line).
Proof. apply emits_emit. Qed.

End Traces.

(** * The teardown script: which commands can run *)

Section CleanupFootprint.

Import Cleanup.

Variable sys : System.
Variable self : Args.

Lemma cmd_eqb_eq a b : cmd_eqb a b = true -> a = b.
Proof.
  revert b. induction a as [|x a IH]; intros [|y b]; cbn; try discriminate; auto.
  intros H. apply andb_prop in H as [Hx Hr].
  apply String.eqb_eq in Hx. f_equal; auto.
Qed.

Lemma listed_In cmd allowed : listed cmd allowed = true -> In cmd allowed.
Proof.
  unfold listed. intros H. apply existsb_exists in H as (c & Hin & Heq).
  apply cmd_eqb_eq in Heq. now subst.
Qed.

Lemma covers_incl big small : covers big small = true -> incl small big.
Proof.
  unfold covers. rewrite forallb_forall. intros H c Hc.
  apply listed_In. now apply H.
Qed.

Lemma emits_weaken A (m : Script sys A) allowed allowed' naps naps' prompts prompts' :
  covers allowed' allowed = true -> incl naps naps' ->
  (prompts = true -> prompts' = true) ->
  emits (only self allowed naps prompts) m -> emits (only self allowed' naps' prompts') m.
Proof.
  intros Hi Hn Hp H s. apply covers_incl in Hi.
  eapply Forall_impl; [|apply H].
  intros e. destruct e; cbn; auto. intros [H1 H2]. split; auto.
Qed.

Variable allowed : list (list string).
Variable naps : list Z.
Variable prompts : bool.

Lemma run_command_only cmd capture_output :
  listed cmd allowed = true ->
  emits (only self allowed naps prompts) (run_command sys self cmd capture_output).
Proof.
  intros Hin s. apply listed_In in Hin.
  unfold run_command, trace, bind, when, try_except, print, emit, ret, raise, sys_run.
  destruct (verbose self); cbn;
    (destruct (dry_run self) eqn:Hd; cbn;
     [ destruct (destructive cmd) as [[|]|] eqn:Hc; cbn | ]);
    try (destruct (subprocess_run sys cmd capture_output (world sys s)) as [w [r|c m|]]; cbn);
    repeat constructor; auto;
    unfold launched; rewrite Hd; cbn; try rewrite Hc; reflexivity.
Qed.

Lemma for_fold_only A B (xs : list A) (acc : B) (body : A -> B -> Script sys B) :
  (forall x b, In x xs -> emits (only self allowed naps prompts) (body x b)) ->
  emits (only self allowed naps prompts) (for_fold sys xs acc body).
Proof.
  revert acc. induction xs as [|x xs IH]; intros acc H; cbn.
  - apply emits_ret.
  - apply emits_bind.
    + apply H. now left.
    + intros b. apply IH. intros y c Hy. apply H. now right.
Qed.

Lemma sys_sleep_only seconds :
  In seconds naps -> emits (only self allowed naps prompts) (sys_sleep sys seconds).
Proof.
  intros Hn s. unfold sys_sleep, trace.
  destruct (time_sleep sys seconds (world sys s)) as [w o]. repeat constructor. exact Hn.
Qed.

Lemma sys_input_only prompt :
  prompts = true -> emits (only self allowed naps prompts) (sys_input sys prompt).
Proof.
  intros Hp s. unfold sys_input, trace.
  destruct (builtin_input sys prompt (world sys s)) as [w o]. repeat constructor. exact Hp.
Qed.

Lemma silent_only A (m : Script sys A) :
  (forall s, trace (m s) = []) -> emits (only self allowed naps prompts) m.
Proof. intros H s. rewrite H. constructor. Qed.

End CleanupFootprint.

(** Walks through a script of the teardown and checks every event it can
    produce against [only]. *)
Ltac walk :=
  repeat first
    [ match goal with H : negb true = true |- _ => discriminate H end
    | apply emits_ret
    | apply emits_raise
    | apply emits_print; exact I
    | apply emits_emit; exact I
    | apply sys_sleep_only; cbn; tauto
    | apply sys_input_only; reflexivity
    | apply silent_only; reflexivity
    | apply run_command_only; reflexivity
    | apply emits_bind; [|intros]
    | apply emits_when; intros
    | match goal with
      | |- emits _ (if ?c then _ else _) => destruct c eqn:?
      | |- emits _ (match ?x with _ => _ end) => destruct x eqn:?
      | |- emits _ ((match ?x with _ => _ end) _) => destruct x
      end
    | progress unfold Cleanup.print_header, Cleanup.print_success,
        Cleanup.print_error, Cleanup.print_warning, Cleanup.print_info,
        Cleanup.resource_exists, Cleanup.namespace_exists,
        Cleanup.helm_release_exists, Cleanup.delete_resource,
        Cleanup.delete_namespace_wait, Cleanup.sys_exit
    | progress cbn [Cleanup.for_fold for_each Cleanup.tools
                    Cleanup.monitoring_resources Cleanup.monitoring_manifests]
    | apply for_fold_only; intros
    | apply emits_for_each; intros ].

Section CleanupPhases.

Import Cleanup.

Variable sys : System.

Lemma check_prerequisites_only self :
  emits (only self Footprint.prerequisites [] false) (check_prerequisites sys self).
Proof. unfold check_prerequisites. walk. Qed.

Lemma list_resources_to_delete_only self :
  emits (only self Footprint.listing [] false) (list_resources_to_delete sys self).
Proof.
  unfold list_resources_to_delete, print_summary. walk.
Qed.

Lemma kill_port_forwards_only self :
  emits (only self (Footprint.port_forwards (dry_run self)) [] false)
        (kill_port_forwards sys self).
Proof. unfold kill_port_forwards. destruct (dry_run self) eqn:Hd; walk. Qed.

Lemma delete_argocd_application_only self :
  emits (only self Footprint.argocd_application [3] false)
        (delete_argocd_application sys self).
Proof. unfold delete_argocd_application. walk. Qed.

Lemma delete_application_resources_only self :
  emits (only self Footprint.application_resources [] false)
        (delete_application_resources sys self).
Proof. unfold delete_application_resources. walk. Qed.

Lemma delete_monitoring_resources_only self :
  emits (only self Footprint.monitoring_objects [] false)
        (delete_monitoring_resources sys self).
Proof. unfold delete_monitoring_resources, delete_monitoring_manifest. walk. Qed.

Lemma delete_monitoring_stack_only self :
  emits (only self Footprint.monitoring_stack [] false)
        (delete_monitoring_stack sys self).
Proof. unfold delete_monitoring_stack. walk. Qed.

Lemma delete_namespaces_only self :
  emits (only self Footprint.namespaces [] false) (delete_namespaces sys self).
Proof. unfold delete_namespaces. walk. Qed.

(** ** The order of the phases *)

Lemma headed self phase (k : Script sys unit) :
  emits (only self (Footprint.commands phase) (Footprint.pauses phase) false)
        (print_header sys (Footprint.title phase) ;; k) ->
  forall s, segment_of self phase (trace ((print_header sys (Footprint.title phase) ;; k) s)).
Proof.
  intros H s. specialize (H s). revert H.
  unfold print_header, print, emit, bind, trace. cbn.
  destruct (k s) as [[s1 l1] r1]; cbn. intros H.
  exists l1. split; [reflexivity|].
  inversion H as [|? ? _ H1]; subst. inversion H1 as [|? ? _ H2]; subst.
  inversion H2 as [|? ? _ H3]; subst. exact H3.
Qed.

Lemma follows_last self phase (p : Script sys unit) :
  (forall s, segment_of self phase (trace (p s))) -> follows sys self [phase] p.
Proof.
  intros H s. exists [trace (p s)]. cbn. rewrite app_nil_r.
  split; [reflexivity|]. split; [|reflexivity].
  constructor; [apply H | constructor].
Qed.

Lemma follows_cons self phase plan (p k : Script sys unit) :
  (forall s, segment_of self phase (trace (p s))) ->
  follows sys self plan k ->
  follows sys self (phase :: plan) (p ;; k).
Proof.
  intros Hp Hk s. specialize (Hp s). unfold bind, trace, value in *.
  destruct (p s) as [[s1 l1] [u|e]]; cbn in *.
  - destruct (Hk s1) as (reached & Ht & Hf & Hv).
    unfold trace, value in *. destruct (k s1) as [[s2 l2] r2]; cbn in *.
    exists (l1 :: reached). cbn. subst l2.
    split; [reflexivity|]. split; [constructor; assumption|].
    intros u' Hu. f_equal. eauto.
  - exists [l1]. cbn. rewrite app_nil_r.
    split; [reflexivity|]. split; [|discriminate].
    constructor; [assumption | constructor].
Qed.

Ltac include L :=
  eapply emits_weaken; [ | | | apply L];
  [ match goal with
    | |- context [dry_run ?x] => destruct (dry_run x); reflexivity
    end
  | intros ? ?; cbn in *; tauto
  | intros; first [reflexivity | assumption] ].

Lemma execute_cleanup_only self :
  emits (only self (Footprint.script (dry_run self)) [3] true)
        (execute_cleanup sys self).
Proof.
  unfold execute_cleanup.
  apply emits_bind; [include kill_port_forwards_only | intros _].
  apply emits_bind; [include delete_argocd_application_only | intros _].
  apply emits_bind; [include delete_application_resources_only | intros _].
  apply emits_bind; [include delete_monitoring_resources_only | intros _].
  apply emits_bind; [include delete_monitoring_stack_only | intros _].
  include delete_namespaces_only.
Qed.

Lemma run_body_only self :
  emits (only self (Footprint.script (dry_run self)) [3] true) (run_body sys self).
Proof.
  unfold run_body.
  apply emits_bind; [walk | intros _].
  apply emits_bind; [walk | intros _].
  apply emits_bind; [include check_prerequisites_only | intros ready].
  apply emits_bind; [walk | intros _].
  apply emits_bind; [include list_resources_to_delete_only | intros resources].
  destruct (forallb _ resources); [walk|].
  apply emits_bind; [unfold confirmed, confirm_action; walk | intros go].
  destruct (negb go); [walk|].
  unfold proceed.
  apply emits_bind; [walk | intros start_time].
  apply emits_bind; [apply execute_cleanup_only | intros _].
  apply emits_bind; [walk | intros now].
  unfold print_report, get_deleted. walk.
Qed.

Lemma run_only self :
  emits (only self (Footprint.script (dry_run self)) [3] true) (run sys self).
Proof.
  unfold run. apply emits_try_except; [apply run_body_only|].
  intros [| |]; walk.
Qed.

End CleanupPhases.

(** * The teardown script: claims *)

Lemma script_harmless_in_dry_run :
  forallb (fun cmd =>
             negb (negb match Cleanup.destructive cmd with
                        | Ok b => b
                        | Raise _ => true
                        end)
             || negb (mutating cmd))
          (Footprint.script true) = true.
Proof. vm_compute. reflexivity. Qed.

Lemma only_harmless self e :
  Cleanup.dry_run self = true ->
  only self (Footprint.script (Cleanup.dry_run self)) [3] true e -> harmless e.
Proof.
  intros Hd. destruct e; cbn; auto. rewrite Hd. intros [Hin Hl].
  pose proof script_harmless_in_dry_run as H.
  rewrite forallb_forall in H. specialize (H _ Hin).
  unfold launched in Hl. rewrite Hd in Hl. cbn in Hl.
  destruct (mutating cmd); [|reflexivity].
  rewrite Hl in H. discriminate.
Qed.

(** C1, as amended.  In dry-run mode, whatever the system answers, the whole
    run hands no mutating command (kubectl or helm delete or uninstall,
    pkill) to [subprocess.run], and the command runner prints every kubectl
    or helm delete or uninstall it is asked to run with the [[DRY-RUN]]
    marker and reports success without running it.  (The pkill of the
    port-forwards is skipped by a test of its own, with no marker.) *)
Theorem dry_run_runs_nothing_mutating :
  forall (sys : System) (self : Cleanup.Args),
    Cleanup.dry_run self = true ->
    (forall w, Forall harmless (trace (Cleanup.main sys self w)))
    /\ (forall cmd capture_output s,
          Cleanup.destructive cmd = Ok true ->
          Cleanup.run_command sys self cmd capture_output s
          = (s, (echo self cmd ++ [Print (Cleanup.dry_run_line cmd)])%list,
             Ok (0, EmptyString, EmptyString))
          /\ marked (Cleanup.dry_run_line cmd) = true).
Proof.
  intros sys self Hd. split.
  - intros w. unfold Cleanup.main.
    eapply Forall_impl; [|apply run_only].
    intros e. now apply only_harmless.
  - intros cmd capture_output s Hc. split.
    + unfold Cleanup.run_command, echo, bind, when, print, emit, ret.
      rewrite Hd, Hc. destruct (Cleanup.verbose self); reflexivity.
    + reflexivity.
Qed.

Lemma dry_run_runs_nothing_mutating_witness :
  Cleanup.dry_run Scenarios.dry = true
  /\ Forall harmless
       (trace (Cleanup.main (Scripted.system Scenarios.forwarding) Scenarios.dry 0%nat))
  /\ marked (Cleanup.dry_run_line ["helm"; "uninstall"; "kube-prometheus-stack"]) = true.
Proof.
  split; [reflexivity|]. split.
  - apply (proj1 (dry_run_runs_nothing_mutating
                    (Scripted.system Scenarios.forwarding) Scenarios.dry eq_refl)).
  - apply (proj2 (dry_run_runs_nothing_mutating
                    (Scripted.system Scenarios.forwarding) Scenarios.dry eq_refl)
             ["helm"; "uninstall"; "kube-prometheus-stack"] true
             (Scenarios.start Scenarios.forwarding) eq_refl).
Defined.

(** C1, as stated, fails for the pkill of the port-forwards.  With two
    port-forward processes running, the real run of [kill_port_forwards]
    spawns the pkill; the dry run does not spawn it, and prints no line with
    the [[DRY-RUN]] marker. *)
Lemma dry_run_pkill_is_not_marked :
  In (Spawn Footprint.pkill)
     (trace (Cleanup.kill_port_forwards (Scripted.system Scenarios.forwarding)
               Scenarios.real (Scenarios.start Scenarios.forwarding)))
  /\ Forall harmless
       (trace (Cleanup.kill_port_forwards (Scripted.system Scenarios.forwarding)
                 Scenarios.dry (Scenarios.start Scenarios.forwarding)))
  /\ Forall unmarked
       (trace (Cleanup.kill_port_forwards (Scripted.system Scenarios.forwarding)
                 Scenarios.dry (Scenarios.start Scenarios.forwarding))).
Proof.
  split; [|split].
  - vm_compute. tauto.
  - vm_compute. repeat constructor.
  - vm_compute. repeat constructor.
Qed.

Lemma script_tolerant dry :
  forallb (fun cmd => negb (deletes cmd) || ignores_not_found cmd
                      || listed cmd probed_first)
          (Footprint.script dry) = true.
Proof. destruct dry; vm_compute; reflexivity. Qed.

Lemma only_tolerant self e :
  only self (Footprint.script (Cleanup.dry_run self)) [3] true e -> tolerant e.
Proof.
  destruct e; unfold only, tolerant; try (intros; exact I). intros [Hin _] Hd.
  pose proof (script_tolerant (Cleanup.dry_run self)) as H.
  rewrite forallb_forall in H. specialize (H _ Hin).
  rewrite Hd in H. cbn in H.
  apply orb_prop in H as [H|H]; [now left | right; now apply listed_In].
Qed.

Lemma run_bind {S A B} (m : M S A) (f : A -> M S B) (s : S) :
  bind m f s =
  match value (m s) with
  | Ok a =>
      let x := f a (final_state (m s)) in
      (final_state x, (trace (m s) ++ trace x)%list, value x)
  | Raise e => (final_state (m s), trace (m s), Raise e)
  end.
Proof.
  unfold bind, value, trace, final_state.
  destruct (m s) as [[s1 l1] [a|e]]; cbn; [|reflexivity].
  destruct (f a s1) as [[s2 l2] r2]; reflexivity.
Qed.

Lemma not_spawned sys self allowed naps prompts A (m : Cleanup.Script sys A) cmd s :
  emits (only self allowed naps prompts) m ->
  listed cmd allowed = false ->
  ~ In (Spawn cmd) (trace (m s)).
Proof.
  intros Hm Hl Hin. specialize (Hm s). rewrite Forall_forall in Hm.
  apply Hm in Hin. cbn in Hin. destruct Hin as [Hin _].
  unfold listed in Hl.
  assert (existsb (cmd_eqb cmd) allowed = true); [|congruence].
  apply existsb_exists. exists cmd. split; [assumption|].
  clear. induction cmd as [|x cmd IH]; cbn; [reflexivity|].
  now rewrite String.eqb_refl.
Qed.

Section Uninstall.

Import Cleanup.

Variable sys : System.
Variable self : Args.

Lemma listing_only :
  emits (only self [["helm"; "list"; "-n"; "monitoring"; "-q"]] [] false)
        (helm_release_exists sys self "kube-prometheus-stack" "monitoring").
Proof. walk. Qed.

Lemma leftover_claims_only (found : bool) :
  found = false ->
  emits (only self [["kubectl"; "get"; "namespace"; "monitoring"];
                    ["kubectl"; "delete"; "pvc"; "--all"; "-n"; "monitoring";
                     "--ignore-not-found=true"]] [] false)
    ((if found
      then
        print_info sys "Uninstalling kube-prometheus-stack Helm release..." ;;
        r <- run_command sys self
               ["helm"; "uninstall"; "kube-prometheus-stack"; "-n"; "monitoring"] true ;;
        let '(returncode, _, stderr) := r in
        if returncode =? 0
        then print_success sys "Helm release uninstalled" ;;
             log_deleted sys "helm-release/kube-prometheus-stack"
        else print_error sys ("Failed to uninstall Helm release: " ++ stderr)
      else print_info sys "kube-prometheus-stack not installed") ;;
     present <- namespace_exists sys self "monitoring" ;;
     when present
       (print_info sys "Cleaning up PVCs in monitoring namespace..." ;;
        run_command sys self
          ["kubectl"; "delete"; "pvc"; "--all"; "-n"; "monitoring";
           "--ignore-not-found=true"] true ;;
        ret tt)).
Proof. intros ->. walk. Qed.

Lemma uninstall_after_listing s :
  In (Spawn ["helm"; "uninstall"; "kube-prometheus-stack"; "-n"; "monitoring"])
     (trace (delete_monitoring_stack sys self s)) ->
  value (helm_release_exists sys self "kube-prometheus-stack" "monitoring" s)
  = Ok true.
Proof.
  unfold delete_monitoring_stack. rewrite run_bind.
  change (value (print_header sys "Removing Prometheus & Grafana Stack" s)) with (Ok tt).
  change (final_state (print_header sys "Removing Prometheus & Grafana Stack" s)) with s.
  cbv zeta. unfold trace at 1. cbn [fst snd]. rewrite run_bind.
  destruct (value (helm_release_exists sys self "kube-prometheus-stack" "monitoring" s))
    as [[|]|e] eqn:E; [reflexivity| |]; intros H; exfalso;
    apply in_app_or in H as [H|H];
    try (revert H; unfold print_header, trace; cbn;
         intros H; repeat (destruct H as [H|H]; try discriminate H); contradiction);
    cbn [fst snd trace] in H.
  - apply in_app_or in H as [H|H].
    + revert H. apply not_spawned with (1 := listing_only). reflexivity.
    + revert H. apply not_spawned with (1 := leftover_claims_only false eq_refl). reflexivity.
  - revert H. apply not_spawned with (1 := listing_only). reflexivity.
Qed.

End Uninstall.

(** C3, as amended.  Every deletion command the six phases hand to
    [subprocess.run] carries [--ignore-not-found=true], except the two
    namespace deletions and the Helm uninstall.  Those are probed first:
    [delete_namespace_wait] reports success without issuing the deletion when
    its probe finds no namespace, and the uninstall is issued only when the
    release listing showed the release. *)
Theorem deletions_tolerate_absence :
  forall (sys : System) (self : Cleanup.Args) (s : Cleanup.State sys),
    Forall tolerant (trace (Cleanup.execute_cleanup sys self s))
    /\ (forall namespace timeout,
          value (Cleanup.namespace_exists sys self namespace s) = Ok false ->
          value (Cleanup.delete_namespace_wait sys self namespace timeout s) = Ok true
          /\ trace (Cleanup.delete_namespace_wait sys self namespace timeout s)
             = trace (Cleanup.namespace_exists sys self namespace s))
    /\ (In (Spawn helm_uninstall) (trace (Cleanup.delete_monitoring_stack sys self s)) ->
        value (Cleanup.helm_release_exists sys self "kube-prometheus-stack"
                 "monitoring" s) = Ok true).
Proof.
  intros sys self s. split; [|split].
  - eapply Forall_impl; [|apply execute_cleanup_only].
    intros e. apply only_tolerant.
  - intros namespace timeout. unfold Cleanup.delete_namespace_wait, bind, trace, value.
    destruct (Cleanup.namespace_exists sys self namespace s) as [[s1 l1] r1]; cbn.
    intros ->. cbn. rewrite app_nil_r. split; reflexivity.
  - apply uninstall_after_listing.
Qed.

Lemma deletions_tolerate_absence_witness :
  (value (Cleanup.namespace_exists (Scripted.system Scenarios.empty_cluster)
            Scenarios.real "argocd" (Scenarios.start Scenarios.empty_cluster))
   = Ok false
   /\ value (Cleanup.delete_namespace_wait (Scripted.system Scenarios.empty_cluster)
               Scenarios.real "argocd" 120 (Scenarios.start Scenarios.empty_cluster))
      = Ok true)
  /\ (In (Spawn helm_uninstall)
         (trace (Cleanup.delete_monitoring_stack (Scripted.system Scenarios.deployed)
                   Scenarios.real (Scenarios.start Scenarios.deployed)))
      /\ value (Cleanup.helm_release_exists (Scripted.system Scenarios.deployed)
                  Scenarios.real "kube-prometheus-stack" "monitoring"
                  (Scenarios.start Scenarios.deployed)) = Ok true).
Proof.
  split; split.
  - reflexivity.
  - apply (proj1 (proj2 (deletions_tolerate_absence
                           (Scripted.system Scenarios.empty_cluster) Scenarios.real
                           (Scenarios.start Scenarios.empty_cluster)))
             "argocd" 120 eq_refl).
  - vm_compute. tauto.
  - apply (proj2 (proj2 (deletions_tolerate_absence
                           (Scripted.system Scenarios.deployed) Scenarios.real
                           (Scenarios.start Scenarios.deployed)))).
    vm_compute. tauto.
Defined.

(** C3, as stated, fails for the namespace deletion: when the namespace
    exists, [delete_namespace_wait] issues a deletion command that does not
    ask for ignore-not-found. *)
Lemma namespace_deletion_is_strict :
  In (Spawn (namespace_delete "argocd"))
     (trace (Cleanup.delete_namespace_wait (Scripted.system Scripted.quiet)
               Scenarios.real "argocd" 120 (Scenarios.start Scripted.quiet)))
  /\ deletes (namespace_delete "argocd") = true
  /\ ignores_not_found (namespace_delete "argocd") = false.
Proof. split; [vm_compute; tauto | split; reflexivity]. Qed.

(** C5, as amended.  When launching a non-empty command fails with an
    exception, the runner of the teardown script returns normally: status 1,
    empty output and the error text as stderr (or, in dry-run mode for a
    deletion, the simulated success without any launch).  The runner of the
    verification script catches nothing of the kind: the failure goes to its
    caller. *)
Theorem launch_failure_is_a_status :
  forall (sys : System) (self : Cleanup.Args) (cmd : list string)
         (capture_output : bool) (s : Cleanup.State sys) (w : World sys)
         (cls msg : string),
    cmd <> [] ->
    subprocess_run sys cmd capture_output (Cleanup.world sys s) = (w, Failed cls msg) ->
    Cleanup.run_command sys self cmd capture_output s
    = (if launched self cmd
       then (Cleanup.mkState sys w (Cleanup.deleted_resources sys s),
             (echo self cmd ++ [Spawn cmd])%list,
             Ok (1, EmptyString, msg))
       else (s, (echo self cmd ++ [Print (Cleanup.dry_run_line cmd)])%list,
             Ok (0, EmptyString, EmptyString)))
    /\ forall (check : bool) (env : HelmDeploymentTest.Environ),
         capture_output = true ->
         HelmDeploymentTest.run_command sys cmd check
           (HelmDeploymentTest.mkState sys (Cleanup.world sys s) env)
         = (HelmDeploymentTest.mkState sys w env, [Spawn cmd],
            Raise (Exception cls msg)).
Proof.
  intros sys self cmd capture_output s w cls msg Hne Hrun. split.
  - unfold Cleanup.run_command, launched, echo, bind, when, try_except, print, emit,
      ret, raise, Cleanup.sys_run.
    destruct cmd as [|c0 rest]; [contradiction|].
    destruct (Cleanup.verbose self), (Cleanup.dry_run self); cbn;
      try destruct (_ && _); cbn; try rewrite Hrun; reflexivity.
  - intros check env ->.
    unfold HelmDeploymentTest.run_command, HelmDeploymentTest.sys_run, bind. cbn.
    rewrite Hrun. reflexivity.
Qed.

Lemma launch_failure_is_a_status_witness :
  Cleanup.run_command (Scripted.system Scenarios.no_binaries) Scenarios.real
    ["kubectl"; "cluster-info"] true (Scenarios.start Scenarios.no_binaries)
  = (Cleanup.mkState (Scripted.system Scenarios.no_binaries) 1%nat [],
     [Spawn ["kubectl"; "cluster-info"]],
     Ok (1, EmptyString, "[Errno 2] No such file or directory")).
Proof.
  apply (proj1 (launch_failure_is_a_status
                  (Scripted.system Scenarios.no_binaries) Scenarios.real
                  ["kubectl"; "cluster-info"] true
                  (Scenarios.start Scenarios.no_binaries) 1%nat
                  "FileNotFoundError" "[Errno 2] No such file or directory"
                  ltac:(discriminate) eq_refl)).
Defined.

(** C5, as stated, fails for the runner of the verification script: a
    missing binary raises to the caller, with [check] or without. *)
Lemma verification_runner_raises :
  value (HelmDeploymentTest.run_command (Scripted.system Scenarios.no_binaries)
           ["kubectl"; "get"; "pods"] false (Scenarios.start_test Scenarios.no_binaries))
  = Raise (Exception "FileNotFoundError" "[Errno 2] No such file or directory")
  /\ value (HelmDeploymentTest.run_command (Scripted.system Scenarios.no_binaries)
              ["kubectl"; "get"; "pods"] true (Scenarios.start_test Scenarios.no_binaries))
     = Raise (Exception "FileNotFoundError" "[Errno 2] No such file or directory").
Proof. split; reflexivity. Qed.

(** * Reasoning about raised exceptions *)

Section Throws.

Context {S : Type}.
Variable E : exn -> Prop.

Lemma throws_ret A (a : A) : throws E (@ret S A a).
Proof. intros s e H. discriminate H. Qed.

Lemma throws_raise A (e : exn) : E e -> throws E (@raise S A e).
Proof. intros He s e' H. injection H as <-. exact He. Qed.

Lemma throws_emit (e : event) : throws E (@emit S e).
Proof. intros s e' H. discriminate H. Qed.

Lemma throws_print (line : string) : throws E (@print S line).
Proof. apply throws_emit. Qed.

Lemma throws_bind A B (m : M S A) (f : A -> M S B) :
  throws E m -> (forall a, throws E (f a)) -> throws E (bind m f).
Proof.
  intros Hm Hf s e. rewrite run_bind. specialize (Hm s).
  destruct (value (m s)) as [a|e']; cbn.
  - apply Hf.
  - intros H. injection H as <-. now apply Hm.
Qed.

Lemma throws_try_except A (m : M S A) handles (handler : exn -> M S A) :
  (forall s e, value (m s) = Raise e -> handles e = false -> E e) ->
  (forall e, throws E (handler e)) ->
  throws E (try_except m handles handler).
Proof.
  intros Hm Hh s e. unfold try_except, value. specialize (Hm s).
  unfold value in Hm.
  destruct (m s) as [[s1 l1] [a|e']]; cbn in *; [discriminate|].
  destruct (handles e') eqn:Hd.
  - specialize (Hh e' s1 e). unfold value in Hh.
    destruct (handler e' s1) as [[s2 l2] r2]; cbn in *. exact Hh.
  - intros H. injection H as <-. now apply Hm.
Qed.

Lemma throws_for_each A (xs : list A) (body : A -> M S unit) :
  (forall x, throws E (body x)) -> throws E (for_each xs body).
Proof.
  intros H. induction xs as [|x xs IH]; cbn.
  - apply throws_ret.
  - apply throws_bind; auto.
Qed.

Lemma throws_when (c : bool) (m : M S unit) : throws E m -> throws E (when c m).
Proof. destruct c; cbn; intros H; [exact H | apply throws_ret]. Qed.

End Throws.

Lemma outcome_not_exit A (o : outcome A) e :
  result_of_outcome o = Raise e -> not_exit e.
Proof. destruct o; cbn; intros H; try discriminate H; injection H as <-; exact I. Qed.

Section CleanupThrows.

Import Cleanup.

Variable sys : System.
Variable self : Args.

Lemma sys_run_not_exit cmd capture_output :
  throws not_exit (sys_run sys cmd capture_output).
Proof.
  intros s e. unfold sys_run, value.
  destruct (subprocess_run sys cmd capture_output (world sys s)) as [w o]; cbn.
  apply outcome_not_exit.
Qed.

Lemma sys_input_not_exit prompt : throws not_exit (sys_input sys prompt).
Proof.
  intros s e. unfold sys_input, value.
  destruct (builtin_input sys prompt (world sys s)) as [w o]; cbn.
  apply outcome_not_exit.
Qed.

Lemma sys_sleep_not_exit seconds : throws not_exit (sys_sleep sys seconds).
Proof.
  intros s e. unfold sys_sleep, value.
  destruct (time_sleep sys seconds (world sys s)) as [w o]; cbn.
  apply outcome_not_exit.
Qed.

Lemma run_command_not_exit cmd capture_output :
  throws not_exit (run_command sys self cmd capture_output).
Proof.
  unfold run_command.
  apply throws_bind; [apply throws_when, throws_print | intros _].
  apply throws_bind.
  - destruct (dry_run self); [|apply throws_ret].
    destruct cmd; cbn; [apply throws_raise; exact I | apply throws_ret].
  - intros [|].
    + apply throws_bind; [apply throws_print | intros _; apply throws_ret].
    + apply throws_try_except.
      * intros s e H _. revert H. apply throws_bind; [apply sys_run_not_exit|].
        intros r. apply throws_ret.
      * intros e. apply throws_ret.
Qed.

Lemma for_fold_not_exit A B (xs : list A) (acc : B) (body : A -> B -> Script sys B) :
  (forall x b, throws not_exit (body x b)) ->
  throws not_exit (for_fold sys xs acc body).
Proof.
  intros H. revert acc. induction xs as [|x xs IH]; intros acc; cbn.
  - apply throws_ret.
  - apply throws_bind; auto.
Qed.

Lemma silent_not_exit A (m : Script sys A) :
  (forall s, exists a, value (m s) = Ok a) -> throws not_exit m.
Proof. intros H s e He. destruct (H s) as [a Ha]. congruence. Qed.

Ltac calm :=
  repeat first
    [ apply throws_ret
    | apply throws_print
    | apply throws_emit
    | apply sys_sleep_not_exit
    | apply sys_input_not_exit
    | apply run_command_not_exit
    | apply silent_not_exit; intros; eexists; reflexivity
    | apply throws_bind; [|intros]
    | apply throws_when
    | apply for_fold_not_exit; intros
    | apply throws_for_each; intros
    | match goal with
      | |- throws _ (if ?c then _ else _) => destruct c eqn:?
      | |- throws _ (match ?x with _ => _ end) => destruct x eqn:?
      | |- throws _ ((match ?x with _ => _ end) _) => destruct x
      end
    | progress unfold print_header, print_success, print_error, print_warning,
        print_info, resource_exists, namespace_exists, helm_release_exists,
        delete_resource, delete_namespace_wait ].

Lemma check_prerequisites_not_exit :
  throws not_exit (check_prerequisites sys self).
Proof. unfold check_prerequisites. calm. Qed.

Lemma after_prerequisites_not_exit : throws not_exit (after_prerequisites sys self).
Proof.
  unfold after_prerequisites, list_resources_to_delete, print_summary, confirmed,
    confirm_action, proceed, execute_cleanup, kill_port_forwards,
    delete_argocd_application, delete_application_resources,
    delete_monitoring_resources, delete_monitoring_manifest,
    delete_monitoring_stack, delete_namespaces,
    print_report, get_world, get_deleted, log_deleted, path_exists.
  calm.
Qed.

End CleanupThrows.

Lemma value_bind {S A B} (m : M S A) (f : A -> M S B) (s : S) :
  value (bind m f s)
  = match value (m s) with
    | Ok a => value (f a (final_state (m s)))
    | Raise e => Raise e
    end.
Proof. rewrite run_bind. destruct (value (m s)); reflexivity. Qed.

Lemma value_then {S A B} (m : M S A) (f : A -> M S B) (s s' : S) (a : A) l :
  m s = (s', l, Ok a) -> value (bind m f s) = value (f a s').
Proof. intros H. rewrite value_bind, H. reflexivity. Qed.

Lemma value_after {S A B} (m : M S A) (f : A -> M S B) (s : S) (a : A) l :
  m s = (s, l, Ok a) -> value (bind m f s) = value (f a s).
Proof. intros H. rewrite value_bind, H. reflexivity. Qed.

Section ExitStatus.

Variable sys : System.

Lemma run_body_value self s :
  value (Cleanup.run_body sys self s)
  = match value (Cleanup.check_prerequisites sys self s) with
    | Ok ready =>
        if negb ready then Raise (SystemExit 1)
        else value (after_prerequisites sys self
                      (final_state (Cleanup.check_prerequisites sys self s)))
    | Raise e => Raise e
    end.
Proof.
  unfold Cleanup.run_body.
  erewrite value_after by reflexivity.
  assert (Hw : forall m f,
             (forall s', m s' = (s', trace (m s'), Ok tt)) ->
             value (bind (when (Cleanup.dry_run self) m) f s)
             = value (f tt s : Cleanup.State sys * list event * result unit)).
  { intros m f Hm. destruct (Cleanup.dry_run self); cbn [when].
    - erewrite value_after by apply Hm. reflexivity.
    - erewrite value_after by reflexivity. reflexivity. }
  rewrite Hw by (intros s'; reflexivity).
  rewrite value_bind.
  destruct (value (Cleanup.check_prerequisites sys self s)) as [[|]|e]; cbn [negb].
  - erewrite value_after by reflexivity. reflexivity.
  - generalize (final_state (Cleanup.check_prerequisites sys self s)).
    intros s1. reflexivity.
  - reflexivity.
Qed.

Lemma run_value self s :
  value (Cleanup.run sys self s)
  = match value (Cleanup.run_body sys self s) with
    | Ok u => Ok u
    | Raise (SystemExit code) => Raise (SystemExit code)
    | Raise _ => Raise (SystemExit 1)
    end.
Proof.
  unfold Cleanup.run, try_except, value.
  destruct (Cleanup.run_body sys self s) as [[s1 l1] [u|[|code|cls msg]]]; cbn;
    try reflexivity.
  destruct (Cleanup.verbose self); reflexivity.
Qed.

Lemma run_interrupted self s :
  value (Cleanup.run_body sys self s) = Raise KeyboardInterrupt ->
  trace (Cleanup.run sys self s)
  = (trace (Cleanup.run_body sys self s)
     ++ [Print EmptyString;
         Print (Cleanup.Colors.YELLOW ++ "⚠️  " ++ "Cleanup interrupted by user"
                ++ Cleanup.Colors.RESET)])%list.
Proof.
  unfold Cleanup.run, try_except, value, trace.
  destruct (Cleanup.run_body sys self s) as [[s1 l1] r]; cbn. intros ->. reflexivity.
Qed.

Lemma exits_when_unprepared self s code :
  value (Cleanup.run_body sys self s) = Raise (SystemExit code)
  <-> code = 1 /\ value (Cleanup.check_prerequisites sys self s) = Ok false.
Proof.
  rewrite run_body_value. split.
  - destruct (value (Cleanup.check_prerequisites sys self s)) as [[|]|e] eqn:Hc;
      cbn [negb].
    + intros H. apply after_prerequisites_not_exit in H. contradiction.
    + intros H. injection H as <-. split; reflexivity.
    + intros H. injection H as ->.
      apply check_prerequisites_not_exit in Hc. contradiction.
  - intros [-> ->]. reflexivity.
Qed.

Lemma run_all_tests_value self s :
  value (HelmDeploymentTest.run_all_tests sys self s)
  = match value (HelmDeploymentTest.cleanup_if_enabled sys self
                   (final_state (HelmDeploymentTest.test_steps sys self s))) with
    | Raise e => Raise e
    | Ok _ =>
        match value (HelmDeploymentTest.test_steps sys self s) with
        | Ok _ => Ok true
        | Raise (Exception _ _) => Ok false
        | Raise e => Raise e
        end
    end.
Proof.
  unfold HelmDeploymentTest.run_all_tests.
  erewrite value_after by reflexivity.
  erewrite value_after by reflexivity.
  generalize (HelmDeploymentTest.cleanup_if_enabled sys self). intros fin.
  unfold try_finally, try_except, bind, value, final_state, print, emit, ret.
  destruct (HelmDeploymentTest.test_steps sys self s) as [[s1 l1] [u|[|code|cls msg]]];
    cbn; destruct (fin s1) as [[s2 l2] [u2|e2]]; reflexivity.
Qed.

Lemma verification_value targs st :
  let self := HelmDeploymentTest.mkSelf (HelmDeploymentTest.arg_release_name targs)
                (HelmDeploymentTest.arg_namespace targs) in
  let steps :=
    HelmDeploymentTest.test_steps sys self
      (HelmDeploymentTest.mkState sys (HelmDeploymentTest.world sys st)
         (if HelmDeploymentTest.no_cleanup targs
          then HelmDeploymentTest.setenv "CLEANUP" "false"
                 (HelmDeploymentTest.environ sys st)
          else HelmDeploymentTest.environ sys st)) in
  let teardown :=
    HelmDeploymentTest.cleanup_if_enabled sys self (final_state steps) in
  value (HelmDeploymentTest.main sys targs st)
  = match value teardown with
    | Raise e => Raise e
    | Ok _ =>
        match value steps with
        | Ok _ => Raise (SystemExit 0)
        | Raise (Exception _ _) => Raise (SystemExit 1)
        | Raise e => Raise e
        end
    end.
Proof.
  destruct st as [w env]. cbn zeta.
  cbn [HelmDeploymentTest.world HelmDeploymentTest.environ].
  set (self := HelmDeploymentTest.mkSelf _ _).
  unfold HelmDeploymentTest.main. fold self.
  destruct (HelmDeploymentTest.no_cleanup targs); cbn [when];
    (erewrite value_then by reflexivity);
    rewrite value_bind, run_all_tests_value;
    cbn [HelmDeploymentTest.world HelmDeploymentTest.environ];
    match goal with
    | |- context [value (HelmDeploymentTest.cleanup_if_enabled sys self ?s)] =>
        destruct (value (HelmDeploymentTest.cleanup_if_enabled sys self s))
          as [u2|e2]; [|reflexivity]
    end;
    match goal with
    | |- context [value (HelmDeploymentTest.test_steps sys self ?s)] =>
        destruct (value (HelmDeploymentTest.test_steps sys self s))
          as [u|[|code|cls msg]]; reflexivity
    end.
Qed.

End ExitStatus.

(** C7, as amended.  The teardown script exits with status 1 exactly when
    its [try] block raises, and with status 0 when the block returns (which
    includes "nothing to clean up" and a declined confirmation).  The block
    raises [SystemExit] only with code 1 and only when the prerequisite check
    failed; any other exception is an error ([Exception]) or the operator's
    interrupt ([KeyboardInterrupt]), and both end in [sys.exit(1)]; the
    interrupt prints an empty line and the warning "Cleanup interrupted by
    user", and no traceback.  The verification script exits with status 0
    when its seven steps pass and with status 1 when a step raises an
    [Exception] such as an [AssertionError], provided the gated cleanup of
    the [finally] block returns; an exception of that cleanup is what the
    script ends with. *)
Theorem exit_codes :
  forall (sys : System) (args : Cleanup.Args) (w : World sys)
         (targs : HelmDeploymentTest.Args) (st : HelmDeploymentTest.State sys),
    let s := Cleanup.mkState sys w [] in
    let self := HelmDeploymentTest.mkSelf (HelmDeploymentTest.arg_release_name targs)
                  (HelmDeploymentTest.arg_namespace targs) in
    let steps :=
      HelmDeploymentTest.test_steps sys self
        (HelmDeploymentTest.mkState sys (HelmDeploymentTest.world sys st)
           (if HelmDeploymentTest.no_cleanup targs
            then HelmDeploymentTest.setenv "CLEANUP" "false"
                   (HelmDeploymentTest.environ sys st)
            else HelmDeploymentTest.environ sys st)) in
    let teardown :=
      HelmDeploymentTest.cleanup_if_enabled sys self (final_state steps) in
    exit_status (value (Cleanup.main sys args w))
    = match value (Cleanup.run_body sys args s) with
      | Ok _ => 0
      | Raise _ => 1
      end
    /\ (forall code,
          value (Cleanup.run_body sys args s) = Raise (SystemExit code)
          <-> code = 1 /\ value (Cleanup.check_prerequisites sys args s) = Ok false)
    /\ (value (Cleanup.run_body sys args s) = Raise KeyboardInterrupt ->
        trace (Cleanup.main sys args w)
        = (trace (Cleanup.run_body sys args s)
           ++ [Print EmptyString;
               Print (Cleanup.Colors.YELLOW ++ "⚠️  " ++ "Cleanup interrupted by user"
                      ++ Cleanup.Colors.RESET)])%list)
    /\ value (HelmDeploymentTest.main sys targs st)
       = match value teardown with
         | Raise e => Raise e
         | Ok _ =>
             match value steps with
             | Ok _ => Raise (SystemExit 0)
             | Raise (Exception _ _) => Raise (SystemExit 1)
             | Raise e => Raise e
             end
         end.
Proof.
  intros sys args w targs st s self steps teardown.
  split; [|split; [|split]].
  - unfold Cleanup.main. fold s. rewrite run_value.
    destruct (value (Cleanup.run_body sys args s)) as [u|[|code|cls msg]] eqn:Hb;
      try reflexivity.
    apply exits_when_unprepared in Hb as [-> _]. reflexivity.
  - intros code. apply exits_when_unprepared.
  - apply run_interrupted.
  - apply verification_value.
Qed.

Lemma exit_codes_witness :
  exit_status (value (Cleanup.main (Scripted.system Scenarios.declined)
                        Scenarios.interactive 0%nat)) = 0
  /\ exit_status (value (Cleanup.main (Scripted.system Scenarios.no_binaries)
                           Scenarios.interactive 0%nat)) = 1.
Proof.
  split.
  - rewrite (proj1 (exit_codes (Scripted.system Scenarios.declined)
                      Scenarios.interactive 0%nat
                      (HelmDeploymentTest.mkArgs "quakewatch-test" "default" false)
                      (Scenarios.start_test Scenarios.declined))).
    reflexivity.
  - rewrite (proj1 (exit_codes (Scripted.system Scenarios.no_binaries)
                      Scenarios.interactive 0%nat
                      (HelmDeploymentTest.mkArgs "quakewatch-test" "default" false)
                      (Scenarios.start_test Scenarios.no_binaries))).
    reflexivity.
Defined.

(** C7, as stated, fails for the operator's interrupt: with the stack
    deployed, the prerequisites met and Ctrl-C at the confirmation prompt, no
    error is raised and the script still exits with status 1. *)
Lemma interrupt_exits_with_one :
  value (Cleanup.check_prerequisites (Scripted.system Scenarios.interrupted)
           Scenarios.interactive (Scenarios.start Scenarios.interrupted)) = Ok true
  /\ value (Cleanup.run_body (Scripted.system Scenarios.interrupted)
              Scenarios.interactive (Scenarios.start Scenarios.interrupted))
     = Raise KeyboardInterrupt
  /\ exit_status (value (Cleanup.main (Scripted.system Scenarios.interrupted)
                           Scenarios.interactive 0%nat)) = 1.
Proof. repeat split; vm_compute; reflexivity. Qed.

(** * Reasoning about returned values *)

Section Returns.

Context {S : Type}.

Lemma returns_ret A (Q : A -> Prop) (a : A) : Q a -> returns Q (@ret S A a).
Proof. intros H s. exists a. split; [reflexivity | exact H]. Qed.

Lemma returns_print (line : string) : returns (fun _ => True) (@print S line).
Proof. intros s. exists tt. split; [reflexivity | exact I]. Qed.

Lemma returns_bind A B (P : A -> Prop) (Q : B -> Prop) (m : M S A) (f : A -> M S B) :
  returns P m -> (forall a, P a -> returns Q (f a)) -> returns Q (bind m f).
Proof.
  intros Hm Hf s. destruct (Hm s) as (a & Ha & HP).
  rewrite value_bind, Ha. apply Hf. exact HP.
Qed.

Lemma returns_weaken A (P Q : A -> Prop) (m : M S A) :
  returns P m -> (forall a, P a -> Q a) -> returns Q m.
Proof. intros Hm H s. destruct (Hm s) as (a & Ha & HP). exists a. auto. Qed.

End Returns.

(** ** A cluster with nothing deployed *)

Section BareCluster.

Import Cleanup.

Variable sys : System.
Variable self : Args.
Hypothesis Hbare : nothing_deployed sys.

Lemma run_command_bare cmd capture_output :
  destructive cmd = Ok false ->
  returns (fun r => bare cmd (fst (fst r)) (snd (fst r)) = true)
          (run_command sys self cmd capture_output).
Proof.
  intros Hd s. specialize (Hbare cmd capture_output (world sys s)).
  unfold run_command, bind, when, try_except, print, emit, ret, raise, sys_run, value.
  rewrite Hd.
  destruct (verbose self), (dry_run self); cbn;
    destruct (subprocess_run sys cmd capture_output (world sys s)) as [w [r|c m|]];
    cbn in *; try contradiction; eexists; (split; [reflexivity | exact Hbare]).
Qed.

Lemma quiet_returns A (m : Script sys A) (a : A) :
  (forall s, value (m s) = Ok a) -> returns (fun _ => True) m.
Proof. intros H s. exists a. split; [apply H | exact I]. Qed.

Lemma bare_tool cmd rc out :
  listed cmd Footprint.prerequisites = true ->
  bare cmd rc out = true -> (rc =? 0) = true.
Proof. unfold bare. intros ->. auto. Qed.

Lemma bare_named cmd rc out :
  listed cmd Footprint.prerequisites = false ->
  cmd_eqb cmd label_query = false ->
  cmd_eqb cmd release_listing = false ->
  listed cmd Footprint.listing = true ->
  bare cmd rc out = true -> (rc =? 0) = false.
Proof.
  unfold bare. intros -> -> -> ->. destruct (rc =? 0); [discriminate | reflexivity].
Qed.

Lemma bare_label rc out :
  bare label_query rc out = true ->
  (rc =? 0) && Py.truthy (Py.strip out) = false.
Proof.
  unfold bare.
  change (listed label_query Footprint.prerequisites) with false.
  change (cmd_eqb label_query label_query) with true. cbv iota.
  destruct ((rc =? 0) && Py.truthy (Py.strip out)); [discriminate | reflexivity].
Qed.

Lemma bare_release rc out :
  bare release_listing rc out = true ->
  (rc =? 0) && Py.contains "kube-prometheus-stack" out = false.
Proof.
  unfold bare.
  change (listed release_listing Footprint.prerequisites) with false.
  change (cmd_eqb release_listing label_query) with false.
  change (cmd_eqb release_listing release_listing) with true. cbv iota.
  destruct ((rc =? 0) && Py.contains "kube-prometheus-stack" out);
    [discriminate | reflexivity].
Qed.

(** A probe by name of one of the objects of the inventory finds nothing. *)
Lemma named_probe_absent cmd :
  destructive cmd = Ok false ->
  listed cmd Footprint.prerequisites = false ->
  cmd_eqb cmd label_query = false ->
  cmd_eqb cmd release_listing = false ->
  listed cmd Footprint.listing = true ->
  returns (eq false)
    (r <- run_command sys self cmd true ;;
     let '(returncode, _, _) := r in
     ret (returncode =? 0)).
Proof.
  intros Hd H1 H2 H3 H4. eapply returns_bind.
  - apply run_command_bare. exact Hd.
  - intros [[rc out] err] H. cbn [fst snd] in H. apply returns_ret.
    symmetry. eapply bare_named; eassumption.
Qed.

Lemma release_absent :
  returns (eq false) (helm_release_exists sys self "kube-prometheus-stack" "monitoring").
Proof.
  unfold helm_release_exists. eapply returns_bind.
  - apply run_command_bare. reflexivity.
  - intros [[rc out] err] H. cbn [fst snd] in H. apply returns_ret.
    symmetry. now apply bare_release.
Qed.

Ltac absent :=
  first [ apply release_absent
        | try unfold resource_exists; try unfold namespace_exists;
          apply named_probe_absent; reflexivity ].

Ltac probe_step :=
  eapply (returns_bind _ _ (eq empty_inventory));
  [ eapply returns_bind;
    [ absent | intros ? <-; cbv iota; apply returns_ret; reflexivity ]
  | intros ? <- ].

Lemma inventory_is_empty :
  returns (eq empty_inventory) (list_resources_to_delete sys self).
Proof.
  unfold list_resources_to_delete.
  eapply returns_bind;
    [apply (quiet_returns _ _ tt); intros; reflexivity | intros _ _].
  eapply returns_bind; [absent | intros found <-]. cbv iota.
  eapply returns_bind; [apply run_command_bare; reflexivity|].
  intros [[rc out] err] H. cbn [fst snd] in H. apply bare_label in H.
  rewrite H. cbv iota zeta.
  eapply returns_bind; [absent | intros found <-]. cbv iota.
  cbn [for_fold monitoring_resources].
  eapply (returns_bind _ _ (eq empty_inventory)).
  { do 3 probe_step. apply returns_ret. reflexivity. }
  intros resources <-.
  eapply (returns_bind _ _ (eq empty_inventory)).
  { do 2 probe_step. apply returns_ret. reflexivity. }
  intros resources <-.
  intros s. eexists. split; reflexivity.
Qed.

Ltac tool_step :=
  eapply returns_bind; [apply run_command_bare; reflexivity|];
  let H := fresh "H" in
  intros [[? ?] ?] H; cbn [fst snd] in H;
  apply bare_tool in H; [|reflexivity]; rewrite H;
  eapply returns_bind;
  [ apply (quiet_returns _ _ tt); intros; reflexivity | intros _ _ ];
  apply returns_ret; reflexivity.

Lemma prerequisites_met :
  returns (eq true) (check_prerequisites sys self).
Proof.
  unfold check_prerequisites.
  eapply returns_bind;
    [apply (quiet_returns _ _ tt); intros; reflexivity | intros _ _].
  cbn [for_fold tools].
  eapply (returns_bind _ _ (eq true)).
  { eapply (returns_bind _ _ (eq true)); [tool_step | intros all_found <-].
    eapply (returns_bind _ _ (eq true)); [tool_step | intros all_found <-].
    apply returns_ret. reflexivity. }
  intros all_found <-. tool_step.
Qed.

End BareCluster.

Lemma ends_bind {S A} (P : event -> Prop) (last : event) (Q : A -> Prop)
    (m : M S A) (f : A -> M S unit) :
  emits P m -> returns Q m ->
  (forall a, Q a -> forall s, ends_with P last (f a s)) ->
  forall s, ends_with P last (bind m f s).
Proof.
  intros He Hr Hf s. destruct (Hr s) as (a & Ha & HQ).
  rewrite run_bind, Ha. cbv zeta.
  destruct (Hf a HQ (final_state (m s))) as (Hv & t & Ht & HP).
  split; [exact Hv|].
  exists (trace (m s) ++ t)%list. cbn [trace fst snd]. fold (trace (f a (final_state (m s)))).
  rewrite Ht, app_assoc. split; [reflexivity|].
  apply Forall_app. split; [apply He | exact HP].
Qed.

(** C9.  On a cluster where the tools answer and nothing is deployed,
    [list_resources_to_delete] returns the inventory with its five
    categories empty, and the run returns after printing "Nothing to clean
    up!" as its last line: before it, the run only printed and ran the
    commands of the prerequisite check and of the inventory (no deletion
    command, no pause), and it never read the terminal. *)
Theorem nothing_deployed_nothing_done :
  forall (sys : System) (args : Cleanup.Args) (w : World sys),
    nothing_deployed sys ->
    (forall s, value (Cleanup.list_resources_to_delete sys args s)
               = Ok Cleanup.empty_inventory)
    /\ all_empty Cleanup.empty_inventory = true
    /\ ends_with (only args (Footprint.prerequisites ++ Footprint.listing) [] false)
         nothing_to_clean_up (Cleanup.main sys args w).
Proof.
  intros sys args w Hbare. split; [|split; [reflexivity|]].
  - intros s. destruct (inventory_is_empty sys args Hbare s) as (a & Ha & <-). exact Ha.
  - assert (Hbody : forall s,
              ends_with (only args (Footprint.prerequisites ++ Footprint.listing) [] false)
                nothing_to_clean_up (Cleanup.run_body sys args s)).
    { unfold Cleanup.run_body.
      apply (ends_bind _ _ (fun _ => True)).
      { intros s. repeat constructor. }
      { intros s. exists tt. split; [reflexivity | exact I]. }
      intros _ _.
      apply (ends_bind _ _ (fun _ => True)).
      { intros s. destruct (Cleanup.dry_run args); repeat constructor. }
      { intros s. exists tt. destruct (Cleanup.dry_run args); split; try reflexivity; exact I. }
      intros _ _.
      apply (ends_bind _ _ (eq true)).
      { eapply emits_weaken; [ | | | apply check_prerequisites_only];
          [reflexivity | apply incl_refl | auto]. }
      { apply prerequisites_met. exact Hbare. }
      intros ready <-. cbn [negb].
      apply (ends_bind _ _ (fun _ => True)).
      { apply emits_ret. }
      { apply returns_ret. exact I. }
      intros _ _.
      apply (ends_bind _ _ (eq Cleanup.empty_inventory)).
      { eapply emits_weaken; [ | | | apply list_resources_to_delete_only];
          [reflexivity | apply incl_refl | auto]. }
      { apply inventory_is_empty. exact Hbare. }
      intros resources <- s. split; [reflexivity|].
      exists []. split; [reflexivity | constructor]. }
    unfold Cleanup.main, Cleanup.run, try_except.
    destruct (Hbody (Cleanup.mkState sys w [])) as (Hv & t & Ht & HP).
    unfold ends_with, value, trace in *.
    destruct (Cleanup.run_body sys args (Cleanup.mkState sys w [])) as [[s1 l1] r1].
    cbn in *. subst r1. cbn. split; [reflexivity|]. exists t. split; assumption.
Qed.

Lemma nothing_deployed_empty_cluster :
  nothing_deployed (Scripted.system Scenarios.empty_cluster).
Proof.
  intros cmd capture_output w.
  change (snd (subprocess_run (Scripted.system Scenarios.empty_cluster) cmd
                 capture_output w))
    with (if Scenarios.by_label cmd then Scripted.completed 0 EmptyString
          else if Scenarios.starts_with ["kubectl"; "get"] cmd
          then Done (mkCompleted 1 EmptyString "Error from server (NotFound)")
          else if Scenarios.starts_with ["pgrep"] cmd
          then Scripted.completed 1 EmptyString
          else Scripted.completed 0 EmptyString).
  unfold bare.
  destruct (listed cmd Footprint.prerequisites) eqn:Hp.
  { apply listed_In in Hp. cbn in Hp.
    repeat (destruct Hp as [<-|Hp]; [reflexivity|]). contradiction. }
  destruct (cmd_eqb cmd label_query) eqn:Hq.
  { apply cmd_eqb_eq in Hq. subst cmd. reflexivity. }
  destruct (cmd_eqb cmd release_listing) eqn:Hr.
  { apply cmd_eqb_eq in Hr. subst cmd. reflexivity. }
  destruct (listed cmd Footprint.listing) eqn:Hl.
  { apply listed_In in Hl. cbn in Hl.
    repeat (destruct Hl as [<-|Hl]; [first [reflexivity | discriminate]|]).
    contradiction. }
  destruct (Scenarios.by_label cmd); [reflexivity|].
  destruct (Scenarios.starts_with ["kubectl"; "get"] cmd); [reflexivity|].
  destruct (Scenarios.starts_with ["pgrep"] cmd); reflexivity.
Qed.

Lemma nothing_deployed_nothing_done_witness :
  ends_with (only Scenarios.interactive
               (Footprint.prerequisites ++ Footprint.listing) [] false)
    nothing_to_clean_up
    (Cleanup.main (Scripted.system Scenarios.empty_cluster) Scenarios.interactive 0%nat).
Proof.
  apply (proj2 (proj2 (nothing_deployed_nothing_done
                         (Scripted.system Scenarios.empty_cluster)
                         Scenarios.interactive 0%nat
                         nothing_deployed_empty_cluster))).
Defined.

(** * The verification script: claims *)


Lemma slept_app t1 t2 : slept (t1 ++ t2) = slept t1 + slept t2.
Proof.
  induction t1 as [|e t1 IH]; cbn; [reflexivity|].
  destruct e; cbn; rewrite IH; lia.
Qed.

Section Polling.

Import HelmDeploymentTest.

Variable sys : System.
Variable self : Self.











End Polling.






(** A run of the loop: the pods are running at the third query, so the loop
    returns them after two sleeps. *)
Example slow_start_run :
  value (HelmDeploymentTest.test_pods_running (Scripted.system Scenarios.slow_start)
           HelmDeploymentTest.default_self (Scenarios.start_test Scenarios.slow_start))
  = Ok (JArr [Scenarios.pod "Running"; Scenarios.pod "Running"])
  /\ slept (trace (HelmDeploymentTest.test_pods_running
                     (Scripted.system Scenarios.slow_start)
                     HelmDeploymentTest.default_self
                     (Scenarios.start_test Scenarios.slow_start))) = 4.
Proof. split; vm_compute; reflexivity. Qed.

Lemma bind_done {S A B} (m : M S A) (f : A -> M S B) (s s' : S) l (a : A) :
  m s = (s', l, Ok a) ->
  bind m f s = (final_state (f a s'), (l ++ trace (f a s'))%list, value (f a s')).
Proof.
  intros H. unfold bind, final_state, trace, value. rewrite H.
  destruct (f a s') as [[s2 l2] r2]; reflexivity.
Qed.

Lemma bind_raised {S A B} (m : M S A) (f : A -> M S B) (s s' : S) l (e : exn) :
  m s = (s', l, Raise e) -> bind m f s = (s', l, Raise e).
Proof. intros H. unfold bind. rewrite H. reflexivity. Qed.

Lemma try_finally_trace {S A} (m : M S A) (fin : M S unit) (s : S) :
  trace (try_finally m fin s)
  = (trace (m s) ++ trace (fin (final_state (m s))))%list.
Proof.
  unfold try_finally, trace, final_state.
  destruct (m s) as [[s1 l1] r1]; cbn.
  destruct (fin s1) as [[s2 l2] r2]; reflexivity.
Qed.

Section HealthCheck.

Import HelmDeploymentTest.

Variable sys : System.
Variable self : Self.

Lemma run_command_free cmd check : emits process_free (run_command sys cmd check).
Proof.
  intros s. unfold run_command, sys_run, bind, print, emit, ret, raise, trace.
  destruct (subprocess_run sys cmd true (world sys s)) as [w [r|c m|]]; cbn;
    try (repeat constructor).
  destruct (check && negb (returncode r =? 0)); cbn; repeat constructor.
Qed.

Lemma first_pod_name_free : emits process_free (first_pod_name sys self).
Proof.
  unfold first_pod_name. apply emits_bind; [apply run_command_free|].
  intros r. apply emits_ret.
Qed.

Lemma sys_sleep_free seconds : emits process_free (sys_sleep sys seconds).
Proof.
  intros s. unfold sys_sleep, trace.
  destruct (time_sleep sys seconds (world sys s)) as [w o]. repeat constructor.
Qed.

Lemma sys_get_free url timeout : emits process_free (sys_get sys url timeout).
Proof.
  intros s. unfold sys_get, trace.
  destruct (requests_get sys url timeout (world sys s)) as [w o]. repeat constructor.
Qed.

Lemma probe_endpoints_free : emits process_free (probe_endpoints sys).
Proof.
  unfold probe_endpoints.
  apply emits_bind; [apply sys_sleep_free | intros _].
  apply emits_bind.
  - apply emits_for_each. intros endpoint _.
    apply emits_try_except.
    + apply emits_bind; [apply sys_get_free | intros status_code].
      destruct (status_code =? 200); apply emits_print; exact I.
    + intros e. apply emits_print. exact I.
  - intros _. apply emits_try_except.
    + apply emits_bind; [apply sys_get_free | intros status_code].
      destruct (status_code =? 200); apply emits_print; exact I.
    + intros e. apply emits_print. exact I.
Qed.

End HealthCheck.

(** C2.  In every execution of the health-check step, either no
    port-forward process was started (the pod lookup or [Popen] itself
    raised, and so does the step), or the process [Popen] returned is
    terminated and waited on as the last two things the step does, whatever
    happened in between, an exception included.  ([terminate] and [wait] are
    taken not to raise.) *)
Theorem port_forward_is_terminated :
  forall (sys : System) (self : HelmDeploymentTest.Self)
         (s : HelmDeploymentTest.State sys),
    let out := HelmDeploymentTest.test_application_health sys self s in
    exists before,
      Forall process_free before
      /\ ((trace out = before /\ exists e, value out = Raise e)
          \/ (exists cmd,
                trace out = (before ++ [Popen cmd None])%list
                /\ exists e, value out = Raise e)
          \/ (exists pod pid during,
                Forall process_free during
                /\ trace out
                   = (before
                      ++ Popen (HelmDeploymentTest.port_forward_cmd self pod) (Some pid)
                         :: during ++ [Terminate pid; Wait pid])%list)).
Proof.
  intros sys self s out. subst out.
  unfold HelmDeploymentTest.test_application_health.
  erewrite bind_done by reflexivity.
  pose proof (first_pod_name_free sys self s) as Hname. unfold trace in Hname.
  destruct (HelmDeploymentTest.first_pod_name sys self s) as [[s1 l1] [pod|e]] eqn:Hn;
    cbn [fst snd] in Hname.
  2:{ erewrite bind_raised by exact Hn.
      eexists. split; [|left; split; [reflexivity | eexists; reflexivity]].
      constructor; [exact I | exact Hname]. }
  erewrite bind_done by exact Hn.
  unfold HelmDeploymentTest.assert.
  destruct (Py.truthy pod).
  2:{ erewrite bind_raised by reflexivity.
      eexists. split; [|left; split; [reflexivity | eexists; reflexivity]].
      cbn. rewrite app_nil_r. constructor; [exact I | exact Hname]. }
  erewrite bind_done by reflexivity.
  destruct (subprocess_Popen sys (HelmDeploymentTest.port_forward_cmd self pod)
              (HelmDeploymentTest.world sys s1)) as [w [pid|c m|]] eqn:Hp.
  - erewrite bind_done
      by (unfold HelmDeploymentTest.sys_Popen; rewrite Hp; reflexivity).
    exists (Print "🔹 Testing application health..." :: l1).
    split; [constructor; [exact I | exact Hname]|].
    right. right.
    exists pod, pid,
      (trace (HelmDeploymentTest.probe_endpoints sys
                (HelmDeploymentTest.mkState sys w (HelmDeploymentTest.environ sys s1)))).
    split; [apply probe_endpoints_free|].
    cbn [trace fst snd]. fold (@trace (HelmDeploymentTest.State sys) unit).
    rewrite try_finally_trace. reflexivity.
  - erewrite bind_raised
      by (unfold HelmDeploymentTest.sys_Popen; rewrite Hp; reflexivity).
    exists (Print "🔹 Testing application health..." :: l1).
    split; [constructor; [exact I | exact Hname]|].
    right. left. eexists. split; [reflexivity | eexists; reflexivity].
  - erewrite bind_raised
      by (unfold HelmDeploymentTest.sys_Popen; rewrite Hp; reflexivity).
    exists (Print "🔹 Testing application health..." :: l1).
    split; [constructor; [exact I | exact Hname]|].
    right. left. eexists. split; [reflexivity | eexists; reflexivity].
Qed.

(** ** The cleanup gate *)

Section Gate.

Import HelmDeploymentTest.

Variable sys : System.

Lemma keeps_ret A (a : A) : keeps sys (ret a).
Proof. intros s. reflexivity. Qed.

Lemma keeps_raise A (e : exn) : keeps sys (@raise (State sys) A e).
Proof. intros s. reflexivity. Qed.

Lemma keeps_print line : keeps sys (print line).
Proof. intros s. reflexivity. Qed.

Lemma keeps_lift A (r : result A) : keeps sys (lift sys r).
Proof. intros s. reflexivity. Qed.

Lemma keeps_bind A B (m : Script sys A) (f : A -> Script sys B) :
  keeps sys m -> (forall a, keeps sys (f a)) -> keeps sys (bind m f).
Proof.
  intros Hm Hf s. rewrite run_bind. specialize (Hm s).
  destruct (value (m s)) as [a|e]; cbn [final_state fst]; [|exact Hm].
  cbv zeta. cbn [fst]. fold (final_state (f a (final_state (m s)))).
  rewrite Hf. exact Hm.
Qed.

Lemma keeps_try_except A (m : Script sys A) handles (handler : exn -> Script sys A) :
  keeps sys m -> (forall e, keeps sys (handler e)) -> keeps sys (try_except m handles handler).
Proof.
  intros Hm Hh s. unfold try_except, final_state. specialize (Hm s).
  unfold final_state in Hm.
  destruct (m s) as [[s1 l1] [a|e]]; cbn in *; [exact Hm|].
  destruct (handles e); [|exact Hm].
  specialize (Hh e s1). unfold final_state in Hh.
  destruct (handler e s1) as [[s2 l2] r2]; cbn in *. congruence.
Qed.

Lemma keeps_try_finally A (m : Script sys A) (fin : Script sys unit) :
  keeps sys m -> keeps sys fin -> keeps sys (try_finally m fin).
Proof.
  intros Hm Hf s. unfold try_finally, final_state. specialize (Hm s).
  unfold final_state in Hm.
  destruct (m s) as [[s1 l1] r1]; cbn in *.
  specialize (Hf s1). unfold final_state in Hf.
  destruct (fin s1) as [[s2 l2] r2]; cbn in *. congruence.
Qed.

Lemma keeps_for_each A (xs : list A) (body : A -> Script sys unit) :
  (forall x, keeps sys (body x)) -> keeps sys (for_each xs body).
Proof.
  intros H. induction xs as [|x xs IH]; cbn.
  - apply keeps_ret.
  - apply keeps_bind; auto.
Qed.

Lemma keeps_sys_run cmd : keeps sys (sys_run sys cmd).
Proof.
  intros s. unfold sys_run, final_state.
  destruct (subprocess_run sys cmd true (world sys s)) as [w o]. reflexivity.
Qed.

Lemma keeps_sys_sleep seconds : keeps sys (sys_sleep sys seconds).
Proof.
  intros s. unfold sys_sleep, final_state.
  destruct (time_sleep sys seconds (world sys s)) as [w o]. reflexivity.
Qed.

Lemma keeps_sys_get url timeout : keeps sys (sys_get sys url timeout).
Proof.
  intros s. unfold sys_get, final_state.
  destruct (requests_get sys url timeout (world sys s)) as [w o]. reflexivity.
Qed.

Lemma keeps_sys_Popen cmd : keeps sys (sys_Popen sys cmd).
Proof.
  intros s. unfold sys_Popen, final_state.
  destruct (subprocess_Popen sys cmd (world sys s)) as [w o]. reflexivity.
Qed.

Lemma keeps_loads text : keeps sys (loads sys text).
Proof. unfold loads. destruct (json_loads sys text); [apply keeps_ret | apply keeps_raise]. Qed.

Lemma keeps_assert cond msg : keeps sys (assert sys cond msg).
Proof. unfold assert. destruct cond; [apply keeps_ret | apply keeps_raise]. Qed.

Ltac still :=
  repeat first
    [ apply keeps_ret
    | apply keeps_raise
    | apply keeps_print
    | apply keeps_lift
    | apply keeps_loads
    | apply keeps_assert
    | apply keeps_sys_run
    | apply keeps_sys_sleep
    | apply keeps_sys_get
    | apply keeps_sys_Popen
    | (intros ?; reflexivity)
    | apply keeps_bind; [|intros]
    | apply keeps_try_except; [|intros]
    | apply keeps_try_finally
    | apply keeps_for_each; intros
    | match goal with
      | |- keeps sys (if ?c then _ else _) => destruct c
      | |- keeps sys (match ?x with _ => _ end) => destruct x
      end
    | progress unfold run_command, first_pod_name, probe_endpoints ].

Lemma keeps_attempts self range : keeps sys (attempts sys self range).
Proof.
  induction range as [|attempt rest IH]; cbn [attempts].
  - apply keeps_ret.
  - apply keeps_bind.
    + unfold attempt_once. still.
    + intros [items|]; [apply keeps_ret | exact IH].
Qed.

Lemma keeps_test_steps self : keeps sys (test_steps sys self).
Proof.
  unfold test_steps, test_helm_install, test_deployment_status, test_pods_running,
    test_service_exists, test_configmap_mount, test_application_health,
    test_hpa_exists.
  repeat first [ apply keeps_attempts | progress still ].
Qed.

Lemma keeps_cleanup self : keeps sys (cleanup sys self).
Proof. unfold cleanup. still. Qed.

End Gate.

Lemma cleanup_spawns_uninstall sys self s :
  In (Spawn (HelmDeploymentTest.uninstall_cmd self))
     (trace (HelmDeploymentTest.cleanup sys self s)).
Proof.
  unfold HelmDeploymentTest.cleanup, HelmDeploymentTest.run_command,
    HelmDeploymentTest.sys_run, bind, print, emit, ret, raise, trace.
  destruct (subprocess_run sys (HelmDeploymentTest.uninstall_cmd self) true
              (HelmDeploymentTest.world sys s)) as [w [r|c m|]]; cbn; auto.
  destruct (returncode r =? 0); cbn; auto.
Qed.

Lemma cleanup_if_enabled_runs sys self s :
  HelmDeploymentTest.cleanup_enabled (HelmDeploymentTest.environ sys s) = true ->
  HelmDeploymentTest.cleanup_if_enabled sys self s = HelmDeploymentTest.cleanup sys self s.
Proof.
  intros H. unfold HelmDeploymentTest.cleanup_if_enabled, HelmDeploymentTest.get_environ.
  unfold bind at 1. rewrite H. cbn [when].
  destruct (HelmDeploymentTest.cleanup sys self s) as [[s1 l1] r1]. reflexivity.
Qed.

(** C10.  The gate [os.getenv("CLEANUP", "true").lower() == "true"] is on
    when the variable is unset, and otherwise exactly when its value is
    "true" up to the case of its letters ("TRUE" and "True" included);
    [--no-cleanup] sets the variable to "false", which turns it off.  In
    [run_all_tests] the gate is tested in the [finally] block: when it is on
    at the start, the trace of the suite ends with the trace of [cleanup],
    which runs the Helm uninstall, whatever the steps did (passed, failed or
    interrupted); [teardown_class] is the same gate around the same
    cleanup. *)
Theorem cleanup_gate :
  forall (sys : System) (self : HelmDeploymentTest.Self)
         (s : HelmDeploymentTest.State sys),
    (forall env, env "CLEANUP" = None -> HelmDeploymentTest.cleanup_enabled env = true)
    /\ (forall env v,
          env "CLEANUP" = Some v ->
          HelmDeploymentTest.cleanup_enabled env = String.eqb (Py.lower v) "true")
    /\ (HelmDeploymentTest.cleanup_enabled (fun _ => Some "TRUE") = true
        /\ HelmDeploymentTest.cleanup_enabled (fun _ => Some "True") = true)
    /\ (forall env,
          HelmDeploymentTest.cleanup_enabled
            (HelmDeploymentTest.setenv "CLEANUP" "false" env) = false)
    /\ (HelmDeploymentTest.cleanup_enabled (HelmDeploymentTest.environ sys s) = true ->
        (exists before s1,
            trace (HelmDeploymentTest.run_all_tests sys self s)
            = (before ++ trace (HelmDeploymentTest.cleanup sys self s1))%list
            /\ In (Spawn (HelmDeploymentTest.uninstall_cmd self))
                  (trace (HelmDeploymentTest.cleanup sys self s1)))
        /\ HelmDeploymentTest.teardown_class sys s
           = HelmDeploymentTest.cleanup sys HelmDeploymentTest.test_suite s).
Proof.
  intros sys self s. split; [|split; [|split; [|split; [|]]]].
  - intros env H. unfold HelmDeploymentTest.cleanup_enabled, HelmDeploymentTest.getenv.
    rewrite H. reflexivity.
  - intros env v H. unfold HelmDeploymentTest.cleanup_enabled, HelmDeploymentTest.getenv.
    rewrite H. reflexivity.
  - split; reflexivity.
  - intros env. reflexivity.
  - intros Hon. split; [|apply cleanup_if_enabled_runs; exact Hon].
    unfold HelmDeploymentTest.run_all_tests.
    erewrite bind_done by reflexivity.
    erewrite bind_done by reflexivity.
    cbn [trace fst snd]. fold (@trace (HelmDeploymentTest.State sys) bool).
    rewrite try_finally_trace.
    match goal with
    | |- context [try_except ?m ?h ?k s] => set (guarded := try_except m h k)
    end.
    assert (Hk : keeps sys guarded).
    { subst guarded. apply keeps_try_except.
      - apply keeps_bind; [apply keeps_test_steps | intros _].
        repeat (apply keeps_bind; [apply keeps_print | intros _]). apply keeps_ret.
      - intros e.
        repeat (apply keeps_bind; [apply keeps_print | intros _]). apply keeps_ret. }
    rewrite cleanup_if_enabled_runs by (rewrite Hk; exact Hon).
    eexists. exists (final_state (guarded s)). split.
    + rewrite !app_assoc. reflexivity.
    + apply cleanup_spawns_uninstall.
Qed.

Lemma cleanup_gate_witness :
  HelmDeploymentTest.cleanup_enabled (fun _ => None) = true
  /\ In (Spawn ["helm"; "uninstall"; "quakewatch-test"; "-n"; "default"])
        (trace (HelmDeploymentTest.run_all_tests (Scripted.system Scenarios.no_binaries)
                  HelmDeploymentTest.default_self
                  (Scenarios.start_test Scenarios.no_binaries))).
Proof.
  split.
  - apply (proj1 (cleanup_gate (Scripted.system Scenarios.no_binaries)
                    HelmDeploymentTest.default_self
                    (Scenarios.start_test Scenarios.no_binaries))).
    reflexivity.
  - destruct (proj1 (proj2 (proj2 (proj2 (proj2
                (cleanup_gate (Scripted.system Scenarios.no_binaries)
                   HelmDeploymentTest.default_self
                   (Scenarios.start_test Scenarios.no_binaries))))) eq_refl))
      as (before & s1 & Ht & Hin).
    rewrite Ht. apply in_or_app. right. exact Hin.
Defined.

(** ** The existence prober *)

Section Prober.

Import Cleanup.

Variable sys : System.
Variable self : Args.

Lemma run_command_launched cmd s :
  launched self cmd = true ->
  run_command sys self cmd true s
  = (mkState sys (fst (subprocess_run sys cmd true (world sys s)))
       (deleted_resources sys s),
     (echo self cmd ++ [Spawn cmd])%list,
     match snd (subprocess_run sys cmd true (world sys s)) with
     | Done r => Ok (returncode r, stdout r, stderr r)
     | Failed _ msg => Ok (1, EmptyString, msg)
     | Interrupted => Raise KeyboardInterrupt
     end).
Proof.
  unfold launched, run_command, echo, bind, when, try_except, print, emit, ret,
    raise, sys_run.
  destruct (verbose self), (dry_run self); cbn;
    try (destruct (destructive cmd) as [[|]|e]; cbn; try discriminate);
    intros _;
    destruct (subprocess_run sys cmd true (world sys s)) as [w [r|c m|]];
    reflexivity.
Qed.

(** Whenever the query is launched, the prober runs it once and reports
    [returncode == 0]. *)
Lemma resource_probe_reports_status resource_type name namespace s :
  let cmd := with_namespace ["kubectl"; "get"; resource_type; name] namespace in
  launched self cmd = true ->
  resource_exists sys self resource_type name namespace s
  = (mkState sys (fst (subprocess_run sys cmd true (world sys s)))
       (deleted_resources sys s),
     (echo self cmd ++ [Spawn cmd])%list,
     reading (fun r => returncode r =? 0)
             (snd (subprocess_run sys cmd true (world sys s)))).
Proof.
  intros cmd Hl. unfold resource_exists. fold cmd. unfold bind.
  rewrite (run_command_launched cmd s Hl).
  destruct (snd (subprocess_run sys cmd true (world sys s))) as [r|c m|]; cbn;
    rewrite ?app_nil_r; reflexivity.
Qed.

Lemma namespace_probe_reports_status namespace s :
  let cmd := ["kubectl"; "get"; "namespace"; namespace] in
  launched self cmd = true ->
  namespace_exists sys self namespace s
  = (mkState sys (fst (subprocess_run sys cmd true (world sys s)))
       (deleted_resources sys s),
     (echo self cmd ++ [Spawn cmd])%list,
     reading (fun r => returncode r =? 0)
             (snd (subprocess_run sys cmd true (world sys s)))).
Proof.
  intros cmd Hl. unfold namespace_exists. fold cmd. unfold bind.
  rewrite (run_command_launched cmd s Hl).
  destruct (snd (subprocess_run sys cmd true (world sys s))) as [r|c m|]; cbn;
    rewrite ?app_nil_r; reflexivity.
Qed.

(** For a Helm release the prober runs the listing once and reports
    [returncode == 0 and release in stdout]. *)
Lemma release_probe_reports_listing release namespace s :
  let cmd := ["helm"; "list"; "-n"; namespace; "-q"] in
  launched self cmd = true ->
  helm_release_exists sys self release namespace s
  = (mkState sys (fst (subprocess_run sys cmd true (world sys s)))
       (deleted_resources sys s),
     (echo self cmd ++ [Spawn cmd])%list,
     reading (fun r => (returncode r =? 0) && Py.contains release (stdout r))
             (snd (subprocess_run sys cmd true (world sys s)))).
Proof.
  intros cmd Hl. unfold helm_release_exists. fold cmd. unfold bind.
  rewrite (run_command_launched cmd s Hl).
  destruct (snd (subprocess_run sys cmd true (world sys s))) as [r|c m|]; cbn;
    rewrite ?app_nil_r; reflexivity.
Qed.

(** Outside dry-run mode every query is launched. *)
Lemma launched_for_real cmd : dry_run self = false -> launched self cmd = true.
Proof. unfold launched. intros ->. reflexivity. Qed.

End Prober.


(** ** Inside the phases *)

Lemma trace_bind {S A B} (m : M S A) (f : A -> M S B) (s : S) :
  trace (bind m f s)
  = (trace (m s)
     ++ match value (m s) with
        | Ok a => trace (f a (final_state (m s)))
        | Raise _ => []
        end)%list.
Proof.
  rewrite run_bind. destruct (value (m s)); cbn [trace fst snd];
    [reflexivity | now rewrite app_nil_r].
Qed.

Section PhaseDetails.

Import Cleanup.

Variable sys : System.
Variable self : Args.



Lemma real_deletion_is_run resource_type name namespace wait s :
  dry_run self = false ->
  In (Spawn (let cmd := with_namespace
                          ["kubectl"; "delete"; resource_type; name;
                           "--ignore-not-found=true"] namespace in
             if wait : bool then (cmd ++ ["--wait=true"])%list else cmd))
     (trace (delete_resource sys self resource_type name namespace wait s)).
Proof.
  intros Hd. unfold delete_resource. cbv zeta. rewrite trace_bind.
  apply in_or_app. left.
  rewrite run_command_launched by (apply launched_for_real; exact Hd).
  cbn [trace fst snd]. apply in_or_app. right. left. reflexivity.
Qed.

Lemma pause_after_deletion s :
  pauses_last self (trace (delete_argocd_application sys self s)).
Proof.
  unfold delete_argocd_application, pauses_last.
  destruct (dry_run self) eqn:Hd.
  { eexists. exists []. split; [symmetry; apply app_nil_r|].
    split; [|left; reflexivity].
    match goal with
    | |- Forall ?P (trace (?m s)) =>
        let H := fresh in assert (H : emits P m) by walk; apply H
    end. }
  erewrite bind_done by reflexivity. cbn [trace fst snd negb].
  fold (@trace (State sys) unit).
  rewrite trace_bind.
  assert (Hre : emits (only self Footprint.argocd_application [] false)
                  (resource_exists sys self "application" "earthquake-app"
                     (Some "argocd"))) by walk.
  specialize (Hre s).
  set (s1 := final_state _).
  destruct (value (resource_exists sys self "application" "earthquake-app"
                     (Some "argocd") s)) as [[|]|e].
  - erewrite bind_done by reflexivity. cbn [trace fst snd].
    fold (@trace (State sys) unit).
    rewrite trace_bind.
    assert (Hdel : emits (only self Footprint.argocd_application [] false)
                     (delete_resource sys self "application" "earthquake-app"
                        (Some "argocd") false)) by walk.
    specialize (Hdel s1).
    pose proof (real_deletion_is_run "application" "earthquake-app" (Some "argocd")
                  false s1 Hd) as Hrun.
    change (Spawn _) with (Spawn delete_application) in Hrun.
    set (s2 := final_state _).
    destruct (value (delete_resource sys self "application" "earthquake-app"
                       (Some "argocd") false s1)) as [[|]|e].
    + cbn [when]. erewrite bind_done by reflexivity. cbn [trace fst snd].
      assert (Hnap : trace (sys_sleep sys 3 s2) = [Sleep 3]).
      { unfold sys_sleep, trace.
        destruct (time_sleep sys 3 (world sys s2)) as [w o]. reflexivity. }
      fold (@trace (State sys) unit). rewrite Hnap.
      eexists. exists [Sleep 3]. split; [rewrite !app_assoc; reflexivity|].
      split.
      * repeat (apply Forall_app; split); try assumption; repeat constructor.
      * right. split; [reflexivity|]. rewrite !in_app_iff. tauto.
    + eexists. exists []. split; [symmetry; apply app_nil_r|].
      split; [|left; reflexivity].
      repeat (apply Forall_app; split); try assumption; repeat constructor.
    + eexists. exists []. split; [symmetry; apply app_nil_r|].
      split; [|left; reflexivity].
      repeat (apply Forall_app; split); try assumption; repeat constructor.
  - eexists. exists []. split; [symmetry; apply app_nil_r|].
    split; [|left; reflexivity].
    repeat (apply Forall_app; split); try assumption; repeat constructor.
  - eexists. exists []. split; [symmetry; apply app_nil_r|].
    split; [|left; reflexivity].
    repeat (apply Forall_app; split); try assumption; repeat constructor.
Qed.

End PhaseDetails.

Lemma execute_cleanup_follows_plan sys self :
  follows sys self (Footprint.plan (Cleanup.dry_run self))
          (Cleanup.execute_cleanup sys self).
Proof.
  unfold Cleanup.execute_cleanup, Footprint.plan.
  apply follows_cons.
  { unfold Cleanup.kill_port_forwards.
    apply (headed sys self (Footprint.mkPhase _ _ _)).
    apply kill_port_forwards_only. }
  apply follows_cons.
  { unfold Cleanup.delete_argocd_application.
    apply (headed sys self (Footprint.mkPhase _ _ _)).
    apply delete_argocd_application_only. }
  apply follows_cons.
  { unfold Cleanup.delete_application_resources.
    apply (headed sys self (Footprint.mkPhase _ _ _)).
    apply delete_application_resources_only. }
  apply follows_cons.
  { unfold Cleanup.delete_monitoring_resources.
    apply (headed sys self (Footprint.mkPhase _ _ _)).
    apply delete_monitoring_resources_only. }
  apply follows_cons.
  { unfold Cleanup.delete_monitoring_stack.
    apply (headed sys self (Footprint.mkPhase _ _ _)).
    apply delete_monitoring_stack_only. }
  apply follows_last.
  unfold Cleanup.delete_namespaces.
  apply (headed sys self (Footprint.mkPhase _ _ _)).
  apply delete_namespaces_only.
Qed.



(** A whole run with everything deployed, [--all] and no manifest on disk. *)
Example deployed_run :
  commands_run (trace (Cleanup.main (Scripted.system Scenarios.deployed)
                         Scenarios.real 0%nat))
  = ["kubectl version --client"; "helm version"; "kubectl cluster-info";
     "kubectl get application earthquake-app -n argocd";
     "kubectl get all,configmap,secret,pvc,serviceaccount,cronjob,servicemonitor -l app.kubernetes.io/instance=earthquake-app -n default -o name";
     "helm list -n monitoring -q";
     "kubectl get servicemonitor quakewatch-app -n default";
     "kubectl get prometheusrule quakewatch-alerts -n monitoring";
     "kubectl get configmap quakewatch-dashboard -n monitoring";
     "kubectl get namespace argocd"; "kubectl get namespace monitoring";
     "pgrep -f kubectl port-forward"; "pkill -f kubectl port-forward";
     "kubectl get application earthquake-app -n argocd";
     "kubectl delete application earthquake-app --ignore-not-found=true -n argocd";
     "kubectl delete all,configmap,secret,pvc,serviceaccount,cronjob,servicemonitor -l app.kubernetes.io/instance=earthquake-app -n default --ignore-not-found=true";
     "kubectl delete servicemonitor quakewatch-app --ignore-not-found=true -n default";
     "kubectl delete servicemonitor quakewatch-app --ignore-not-found=true -n default";
     "kubectl delete prometheusrule quakewatch-alerts --ignore-not-found=true -n monitoring";
     "kubectl delete configmap quakewatch-dashboard --ignore-not-found=true -n monitoring";
     "helm list -n monitoring -q";
     "helm uninstall kube-prometheus-stack -n monitoring";
     "kubectl get namespace monitoring";
     "kubectl delete pvc --all -n monitoring --ignore-not-found=true";
     "kubectl get namespace argocd"; "kubectl get namespace argocd";
     "kubectl delete namespace argocd --timeout=120s";
     "kubectl get namespace monitoring"; "kubectl get namespace monitoring";
     "kubectl delete namespace monitoring --timeout=120s"]
  /\ value (Cleanup.main (Scripted.system Scenarios.deployed) Scenarios.real 0%nat)
     = Ok tt.
Proof. split; vm_compute; reflexivity. Qed.

(** * Further properties of the two scripts *)

(** ** cleanup.py, function by function *)

Lemma run_command_held_back sys self cmd capture_output s :
  Cleanup.dry_run self = true ->
  Cleanup.destructive cmd = Ok true ->
  Cleanup.run_command sys self cmd capture_output s
  = (s, (echo self cmd ++ [Print (Cleanup.dry_run_line cmd)])%list,
     Ok (0, EmptyString, EmptyString)).
Proof.
  intros Hd Hc. unfold Cleanup.run_command, echo, bind, when, print, emit, ret.
  rewrite Hd, Hc. destruct (Cleanup.verbose self); reflexivity.
Qed.

(** X1.  The command runner of the teardown script raises in two cases only:
    the operator interrupts the launch ([KeyboardInterrupt] is not an
    [Exception], so the [except] clause lets it through), or the command is
    the empty list in dry-run mode, where [cmd[0]] is evaluated outside the
    [try] block and raises [IndexError].  In the second case nothing is
    launched and only the verbose echo is printed. *)
Theorem run_command_raises_only :
  forall (sys : System) (self : Cleanup.Args) (cmd : list string)
         (capture_output : bool) (s : Cleanup.State sys),
    (forall e,
       value (Cleanup.run_command sys self cmd capture_output s) = Raise e ->
       (e = KeyboardInterrupt
        /\ snd (subprocess_run sys cmd capture_output (Cleanup.world sys s)) = Interrupted)
       \/ (e = index_error /\ Cleanup.dry_run self = true /\ cmd = []))
    /\ (Cleanup.dry_run self = true ->
        Cleanup.run_command sys self [] capture_output s
        = (s, echo self [], Raise index_error)).
Proof.
  intros sys self cmd capture_output s. split.
  - intros e.
    unfold Cleanup.run_command, bind, when, try_except, print, emit, ret, raise,
      Cleanup.sys_run, value.
    destruct (Cleanup.verbose self), (Cleanup.dry_run self); cbn;
      try (destruct cmd as [|c0 rest]; cbn;
           [intros H; injection H as <-; right; repeat split; reflexivity|];
           destruct (_ && _); cbn; try discriminate);
      destruct (subprocess_run sys _ capture_output (Cleanup.world sys s))
        as [w [r|c m|]]; cbn; try discriminate;
      intros H; injection H as <-; left; split; reflexivity.
  - intros Hd.
    unfold Cleanup.run_command, echo, bind, when, print, emit, ret, raise.
    rewrite Hd. destruct (Cleanup.verbose self); reflexivity.
Qed.

Lemma run_command_raises_only_witness :
  Cleanup.run_command (Scripted.system Scripted.quiet) Scenarios.dry [] true
    (Scenarios.start Scripted.quiet)
  = (Scenarios.start Scripted.quiet, [], Raise index_error).
Proof.
  apply (proj2 (run_command_raises_only (Scripted.system Scripted.quiet)
                  Scenarios.dry [] true (Scenarios.start Scripted.quiet))
           eq_refl).
Defined.








Lemma deletion_cmd_destructive resource_type name namespace wait :
  Cleanup.destructive (deletion_cmd resource_type name namespace wait) = Ok true.
Proof.
  unfold deletion_cmd, Cleanup.with_namespace.
  destruct (Cleanup.given namespace), wait; reflexivity.
Qed.

(** X3.  [delete_resource] and [deleted_resources].  In dry-run mode nothing
    is launched and the world is untouched, yet the call answers [True] and
    records the resource as deleted.  Outside dry-run mode the deletion is
    launched once; the call answers whether it exited with status 0 (a
    launch failure counts as status 1), appends the entry
    [type/name[ -n namespace]] exactly when it answers [True], and leaves the
    list alone otherwise, an interrupt included. *)
Theorem delete_resource_keeps_the_books :
  forall (sys : System) (self : Cleanup.Args) (resource_type name : string)
         (namespace : option string) (wait : bool) (s : Cleanup.State sys),
    let cmd := deletion_cmd resource_type name namespace wait in
    let label := deletion_label resource_type name namespace in
    let run := subprocess_run sys cmd true (Cleanup.world sys s) in
    let out := Cleanup.delete_resource sys self resource_type name namespace wait s in
    (Cleanup.dry_run self = true ->
     value out = Ok true
     /\ polls (trace out) = 0%nat
     /\ Cleanup.world sys (final_state out) = Cleanup.world sys s
     /\ Cleanup.deleted_resources sys (final_state out)
        = (Cleanup.deleted_resources sys s ++ [label])%list)
    /\ (Cleanup.dry_run self = false ->
        commands_run (trace out) = [Py.join " " cmd]
        /\ Cleanup.world sys (final_state out) = fst run
        /\ match snd run with
           | Interrupted =>
               value out = Raise KeyboardInterrupt
               /\ Cleanup.deleted_resources sys (final_state out)
                  = Cleanup.deleted_resources sys s
           | o =>
               value out = Ok (status o =? 0)
               /\ Cleanup.deleted_resources sys (final_state out)
                  = (Cleanup.deleted_resources sys s
                     ++ (if status o =? 0 then [label] else []))%list
           end).
Proof.
  intros sys self resource_type name namespace wait s. cbv zeta.
  unfold Cleanup.delete_resource. cbv zeta.
  fold (deletion_cmd resource_type name namespace wait).
  fold (deletion_label resource_type name namespace).
  set (cmd := deletion_cmd resource_type name namespace wait).
  set (label := deletion_label resource_type name namespace).
  split; intros Hd.
  - unfold bind.
    rewrite (run_command_held_back sys self cmd true s Hd
               (deletion_cmd_destructive resource_type name namespace wait)).
    cbn. unfold echo. destruct (Cleanup.verbose self); cbn; repeat split; reflexivity.
  - unfold bind.
    rewrite (run_command_launched sys self cmd s (launched_for_real self cmd Hd)).
    destruct (subprocess_run sys cmd true (Cleanup.world sys s)) as [w [r|c m|]];
      cbn [fst snd status]; cbv beta iota zeta; change (1 =? 0) with false;
      try destruct (returncode r =? 0); cbv beta iota zeta;
      unfold Cleanup.log_deleted, when, Cleanup.print_error, print, emit, ret, echo;
      try destruct (Py.truthy _); destruct (Cleanup.verbose self);
      cbn; rewrite ?app_nil_r; repeat split; reflexivity.
Qed.

Lemma delete_resource_keeps_the_books_witness :
  value (Cleanup.delete_resource (Scripted.system Scenarios.no_binaries) Scenarios.dry
           "configmap" "quakewatch-dashboard" (Some "monitoring") false
           (Scenarios.start Scenarios.no_binaries)) = Ok true
  /\ Cleanup.deleted_resources (Scripted.system Scenarios.no_binaries)
       (final_state
          (Cleanup.delete_resource (Scripted.system Scenarios.no_binaries) Scenarios.real
             "configmap" "quakewatch-dashboard" (Some "monitoring") false
             (Scenarios.start Scenarios.no_binaries))) = [].
Proof.
  split.
  - apply (proj1 (delete_resource_keeps_the_books (Scripted.system Scenarios.no_binaries)
                    Scenarios.dry "configmap" "quakewatch-dashboard" (Some "monitoring")
                    false (Scenarios.start Scenarios.no_binaries)) eq_refl).
  - apply (proj2 (proj2 (proj2 (delete_resource_keeps_the_books
                    (Scripted.system Scenarios.no_binaries)
                    Scenarios.real "configmap" "quakewatch-dashboard" (Some "monitoring")
                    false (Scenarios.start Scenarios.no_binaries)) eq_refl))).
Defined.

(** X4.  [delete_namespace_wait] outside dry-run mode, when it is not
    interrupted.  If its probe of the namespace does not exit with status 0
    it answers [True] after that one command and records nothing.
    Otherwise it runs [kubectl delete namespace <ns> --timeout=<t>s],
    answers whether that exited with status 0, and records [namespace/<ns>]
    only then. *)
Theorem namespace_deletion_outcome :
  forall (sys : System) (self : Cleanup.Args) (namespace : string) (timeout : Z)
         (s : Cleanup.State sys),
    let probe := subprocess_run sys (namespace_probe namespace) true
                   (Cleanup.world sys s) in
    let deletion := subprocess_run sys (namespace_deletion namespace timeout) true
                      (fst probe) in
    let out := Cleanup.delete_namespace_wait sys self namespace timeout s in
    Cleanup.dry_run self = false ->
    snd probe <> Interrupted ->
    snd deletion <> Interrupted ->
    if status (snd probe) =? 0
    then value out = Ok (status (snd deletion) =? 0)
         /\ Cleanup.deleted_resources sys (final_state out)
            = (Cleanup.deleted_resources sys s
               ++ (if status (snd deletion) =? 0
                   then [("namespace/" ++ namespace)%string] else []))%list
         /\ commands_run (trace out)
            = [Py.join " " (namespace_probe namespace);
               Py.join " " (namespace_deletion namespace timeout)]
    else value out = Ok true
         /\ Cleanup.deleted_resources sys (final_state out)
            = Cleanup.deleted_resources sys s
         /\ commands_run (trace out) = [Py.join " " (namespace_probe namespace)].
Proof.
  intros sys self namespace timeout s. cbv zeta. intros Hd Np Nd.
  unfold Cleanup.delete_namespace_wait, Cleanup.namespace_exists.
  fold (namespace_probe namespace). fold (namespace_deletion namespace timeout).
  unfold Cleanup.log_deleted, when, Cleanup.print_error, print, emit, ret, bind.
  cbv beta iota zeta.
  rewrite (run_command_launched sys self _ s (launched_for_real self _ Hd)).
  destruct (subprocess_run sys (namespace_probe namespace) true (Cleanup.world sys s))
    as [w1 [r1|c1 m1|]]; cbn [fst snd status] in *; try congruence;
    cbv beta iota zeta; change (1 =? 0) with false;
    try (destruct (returncode r1 =? 0); cbn [negb]; cbv beta iota zeta);
    try (unfold echo; destruct (Cleanup.verbose self); repeat split; reflexivity);
    rewrite (run_command_launched sys self _ _ (launched_for_real self _ Hd));
    cbn [Cleanup.world Cleanup.deleted_resources];
    destruct (subprocess_run sys (namespace_deletion namespace timeout) true w1)
      as [w2 [r2|c2 m2|]]; cbn [fst snd status] in *; try congruence;
    cbv beta iota zeta; change (1 =? 0) with false;
    try destruct (returncode r2 =? 0); cbv beta iota zeta;
    unfold echo; destruct (Cleanup.verbose self);
    cbn [value trace final_state fst snd Cleanup.deleted_resources];
    rewrite ?app_nil_r; repeat split; reflexivity.
Qed.

Lemma namespace_deletion_outcome_witness :
  value (Cleanup.delete_namespace_wait (Scripted.system Scenarios.deployed)
           Scenarios.real "argocd" 120 (Scenarios.start Scenarios.deployed)) = Ok true
  /\ Cleanup.deleted_resources (Scripted.system Scenarios.deployed)
       (final_state
          (Cleanup.delete_namespace_wait (Scripted.system Scenarios.deployed)
             Scenarios.real "argocd" 120 (Scenarios.start Scenarios.deployed)))
     = ["namespace/argocd"]
  /\ commands_run
       (trace (Cleanup.delete_namespace_wait (Scripted.system Scenarios.deployed)
                 Scenarios.real "argocd" 120 (Scenarios.start Scenarios.deployed)))
     = ["kubectl get namespace argocd"; "kubectl delete namespace argocd --timeout=120s"].
Proof.
  apply (namespace_deletion_outcome (Scripted.system Scenarios.deployed) Scenarios.real
           "argocd" 120 (Scenarios.start Scenarios.deployed) eq_refl);
    discriminate.
Defined.

Lemma prerequisites_launched self :
  forallb (launched self) Footprint.prerequisites = true.
Proof. unfold launched. destruct (Cleanup.dry_run self); reflexivity. Qed.

(** One launch of [run_command], by cases on what the system answers. *)
Ltac launch H cmd w :=
  rewrite (run_command_launched _ _ cmd _ H);
  cbn [Cleanup.world Cleanup.deleted_resources];
  destruct (subprocess_run _ cmd true w) as [? [?|? ?|]];
  cbn [fst snd status] in *; try congruence;
  cbv beta iota zeta; change (1 =? 0) with false in *;
  try match goal with
      | |- context [returncode ?r =? 0] => destruct (returncode r =? 0)
      end;
  cbv beta iota zeta.

(** X5.  [check_prerequisites] does not stop at the first failure: unless a
    launch is interrupted it runs its three commands in order, each from the
    world the one before left, and answers the conjunction of "exited with
    status 0" over the three; a tool that cannot be launched counts as a
    failure. *)
Theorem prerequisites_are_all_checked :
  forall (sys : System) (self : Cleanup.Args) (s : Cleanup.State sys),
    let kubectl := subprocess_run sys ["kubectl"; "version"; "--client"] true
                     (Cleanup.world sys s) in
    let helm := subprocess_run sys ["helm"; "version"] true (fst kubectl) in
    let cluster := subprocess_run sys ["kubectl"; "cluster-info"] true (fst helm) in
    snd kubectl <> Interrupted ->
    snd helm <> Interrupted ->
    snd cluster <> Interrupted ->
    value (Cleanup.check_prerequisites sys self s)
    = Ok ((status (snd kubectl) =? 0) && (status (snd helm) =? 0)
          && (status (snd cluster) =? 0))
    /\ commands_run (trace (Cleanup.check_prerequisites sys self s))
       = ["kubectl version --client"; "helm version"; "kubectl cluster-info"]
    /\ Cleanup.world sys (final_state (Cleanup.check_prerequisites sys self s))
       = fst cluster.
Proof.
  intros sys self s. cbv zeta. intros N1 N2 N3.
  pose proof (prerequisites_launched self) as Hl. cbn [forallb Footprint.prerequisites] in Hl.
  apply andb_prop in Hl as [H1 Hl]. apply andb_prop in Hl as [H2 Hl].
  apply andb_prop in Hl as [H3 _].
  unfold Cleanup.check_prerequisites.
  cbn [Cleanup.for_fold Cleanup.tools].
  change (Py.split "kubectl version --client") with ["kubectl"; "version"; "--client"].
  change (Py.split "helm version") with ["helm"; "version"].
  unfold Cleanup.print_header, Cleanup.print_success, Cleanup.print_error,
    print, emit, ret, bind.
  cbv beta iota zeta.
  launch H1 ["kubectl"; "version"; "--client"] (Cleanup.world sys s);
    match goal with
    | w1 : World sys |- _ =>
        launch H2 ["helm"; "version"] w1;
        match goal with
        | w2 : World sys |- _ => launch H3 ["kubectl"; "cluster-info"] w2
        end
    end;
    cbn [value trace final_state fst snd Cleanup.world];
    (split; [reflexivity | split; [|reflexivity]]);
    unfold echo; destruct (Cleanup.verbose self); reflexivity.
Qed.

Lemma prerequisites_are_all_checked_witness :
  value (Cleanup.check_prerequisites (Scripted.system Scenarios.no_binaries)
           Scenarios.interactive (Scenarios.start Scenarios.no_binaries)) = Ok false
  /\ commands_run
       (trace (Cleanup.check_prerequisites (Scripted.system Scenarios.no_binaries)
                 Scenarios.interactive (Scenarios.start Scenarios.no_binaries)))
     = ["kubectl version --client"; "helm version"; "kubectl cluster-info"].
Proof.
  destruct (prerequisites_are_all_checked (Scripted.system Scenarios.no_binaries)
              Scenarios.interactive (Scenarios.start Scenarios.no_binaries))
    as (Hv & Hc & _); try discriminate.
  split; [exact Hv | exact Hc].
Defined.

Lemma final_state_bind {S A B} (m : M S A) (f : A -> M S B) (s : S) :
  final_state (bind m f s)
  = match value (m s) with
    | Ok a => final_state (f a (final_state (m s)))
    | Raise _ => final_state (m s)
    end.
Proof. rewrite run_bind. destruct (value (m s)); reflexivity. Qed.

Lemma yields_ret {S A} (Q : A -> Prop) (a : A) : Q a -> yields Q (@ret S A a).
Proof. intros H s a' E. injection E as <-. exact H. Qed.

Lemma yields_bind {S A B} (P : A -> Prop) (Q : B -> Prop) (m : M S A) (f : A -> M S B) :
  yields P m -> (forall a, P a -> yields Q (f a)) -> yields Q (bind m f).
Proof.
  intros Hm Hf s b. rewrite value_bind. specialize (Hm s).
  destruct (value (m s)) as [a|e]; [|discriminate].
  apply Hf. now apply Hm.
Qed.

Lemma yields_any {S A} (m : M S A) : yields (fun _ => True) m.
Proof. intros s a _. exact I. Qed.

Lemma yields_for_fold sys A B (Q : B -> Prop) (xs : list A) (acc : B)
    (body : A -> B -> Cleanup.Script sys B) :
  Q acc -> (forall x b, Q b -> yields Q (body x b)) ->
  yields Q (Cleanup.for_fold sys xs acc body).
Proof.
  intros Hacc H. revert acc Hacc. induction xs as [|x xs IH]; intros acc Hacc; cbn.
  - now apply yields_ret.
  - eapply yields_bind; [now apply H | intros b Hb; now apply IH].
Qed.

Lemma closes_bind {S A B} (P : A -> Prop) (Q : B -> Prop) (last : B -> event)
    (m : M S A) (f : A -> M S B) :
  yields P m -> (forall a, P a -> closes Q last (f a)) -> closes Q last (bind m f).
Proof.
  intros Hm Hf s b. rewrite value_bind, trace_bind. specialize (Hm s).
  destruct (value (m s)) as [a|e]; [|discriminate].
  intros E. destruct (Hf a (Hm a eq_refl) _ b E) as (HQ & before & Ht).
  split; [exact HQ|]. exists (trace (m s) ++ before)%list.
  rewrite Ht. apply app_assoc.
Qed.

Lemma categories_extend key items resources :
  categories (Cleanup.extend key items resources) = categories resources.
Proof.
  unfold categories, Cleanup.extend. rewrite map_map. apply map_ext.
  intros [k v]. destruct (String.eqb k key); reflexivity.
Qed.

Lemma total_of_cons category items resources :
  total_of ((category, items) :: resources)
  = (length items + total_of resources)%nat.
Proof. reflexivity. Qed.

Lemma print_summary_counts sys resources acc s :
  value (Cleanup.for_fold sys resources acc
           (fun '(category, items) total =>
              if negb (Nat.eqb (length items) 0)
              then
                print (Cleanup.Colors.BOLD ++ category ++ ":" ++ Cleanup.Colors.RESET) ;;
                for_each (firstn 10 items) (fun item => print ("  • " ++ item)) ;;
                when (10 <? length items)%nat
                  (print ("  ... and " ++ Py.str_nat (length items - 10) ++ " more")) ;;
                print EmptyString ;;
                ret (total + length items)%nat
              else ret total) s)
  = Ok (acc + total_of resources)%nat.
Proof.
  revert acc s. induction resources as [|[category items] resources IH]; intros acc s.
  - cbn. f_equal. unfold total_of. cbn. lia.
  - cbn [Cleanup.for_fold]. rewrite value_bind.
    assert (Hprints : forall (xs : list string) (f : string -> string) s',
               for_each xs (fun item => print (f item)) s'
               = (s', trace (for_each xs (fun item => @print (Cleanup.State sys) (f item)) s'),
                  Ok tt)).
    { induction xs as [|x xs IHx]; intros f s'; [reflexivity|].
      cbn [for_each]. rewrite run_bind. cbn [print emit value final_state trace fst snd].
      rewrite (IHx f s'). reflexivity. }
    destruct (Nat.eqb (length items) 0) eqn:Hn; cbn [negb].
    + cbn [ret value snd final_state fst]. rewrite IH.
      apply Nat.eqb_eq in Hn. rewrite total_of_cons. f_equal. lia.
    + erewrite value_after by reflexivity.
      erewrite value_after by apply Hprints.
      assert (Hwhen : forall c line (s' : Cleanup.State sys),
                 when c (print line) s' = (s', trace (when c (print line) s'), Ok tt)).
      { intros [|] line s'; reflexivity. }
      erewrite value_after by apply Hwhen.
      erewrite value_after by reflexivity.
      cbn [ret value snd].
      match goal with
      | |- context [final_state ?x] =>
          replace (final_state x) with s
      end.
      * rewrite IH, total_of_cons. f_equal. lia.
      * rewrite !final_state_bind. cbn [print emit value final_state fst snd].
        rewrite Hprints. cbn [value final_state fst snd].
        rewrite Hwhen. cbn [value final_state fst snd]. reflexivity.
Qed.

Lemma print_summary_total sys resources s :
  value (Cleanup.print_summary sys resources s) = Ok (total_of resources).
Proof. unfold Cleanup.print_summary. apply print_summary_counts. Qed.

Lemma all_empty_total resources :
  all_empty resources = Nat.eqb (total_of resources) 0.
Proof.
  unfold all_empty, total_of.
  induction resources as [|[k v] resources IH]; [reflexivity|].
  cbn [forallb]. rewrite IH. fold (total_of resources).
  change (list_sum (map (fun entry => length (snd entry)) ((k, v) :: resources)))
    with (length v + total_of resources)%nat.
  destruct v; reflexivity.
Qed.

Lemma inventory_closes sys self :
  closes (fun resources => categories resources = categories Cleanup.empty_inventory)
         closing_line (Cleanup.list_resources_to_delete sys self).
Proof.
  unfold Cleanup.list_resources_to_delete.
  apply (closes_bind (fun _ => True)); [apply yields_any | intros _ _].
  cbv zeta.
  apply (closes_bind (fun _ => True)); [apply yields_any | intros found _].
  apply (closes_bind (fun _ => True)); [apply yields_any | intros [[rc out] err] _].
  apply (closes_bind (fun _ => True)); [apply yields_any | intros release _].
  apply (closes_bind
           (fun resources => categories resources = categories Cleanup.empty_inventory)).
  { apply yields_for_fold.
    - repeat match goal with
             | |- context [if ?c then _ else _] => destruct c
             end; rewrite ?categories_extend; reflexivity.
    - intros [[res_type name] ns] b Hb.
      eapply yields_bind; [apply yields_any | intros present _].
      apply yields_ret. destruct present; rewrite ?categories_extend; exact Hb. }
  intros resources Hr.
  apply (closes_bind
           (fun resources => categories resources = categories Cleanup.empty_inventory)).
  { apply yields_for_fold; [exact Hr|].
    intros ns b Hb.
    eapply yields_bind; [apply yields_any | intros present _].
    apply yields_ret. destruct present; rewrite ?categories_extend; exact Hb. }
  clear resources Hr. intros resources Hr s a.
  rewrite value_bind, trace_bind, print_summary_total.
  cbv beta iota.
  set (s1 := final_state (Cleanup.print_summary sys resources s)).
  assert (Hlast :
            (if Nat.eqb (total_of resources) 0
             then Cleanup.print_info sys "No resources found to delete" ;; ret resources
             else
               print (Cleanup.Colors.BOLD ++ "Total resources: "
                      ++ Py.str_nat (total_of resources)
                      ++ Cleanup.Colors.RESET ++ Cleanup.nl) ;;
               ret resources) s1
            = (s1, [closing_line resources], Ok resources)).
  { unfold closing_line. destruct (Nat.eqb (total_of resources) 0); reflexivity. }
  rewrite Hlast. cbn [value trace fst snd].
  intros E. injection E as <-. split; [exact Hr|]. eexists. reflexivity.
Qed.

(** X6.  Whenever [list_resources_to_delete] returns, the inventory has its
    five categories, in the order of the dict; the test [run] makes on it
    (every category empty) agrees with the test the listing made (the total
    is zero); and the last line printed is "No resources found to delete"
    when the total is zero and the total of all categories otherwise, the
    items beyond the tenth of a category included. *)
Theorem inventory_is_summed_up :
  forall (sys : System) (self : Cleanup.Args) (s : Cleanup.State sys)
         (resources : Cleanup.Inventory),
    value (Cleanup.list_resources_to_delete sys self s) = Ok resources ->
    categories resources
    = ["ArgoCD"; "Application"; "Monitoring Stack"; "Monitoring Resources"; "Namespaces"]
    /\ all_empty resources = Nat.eqb (total_of resources) 0
    /\ exists before,
         trace (Cleanup.list_resources_to_delete sys self s)
         = (before ++ [closing_line resources])%list.
Proof.
  intros sys self s resources E.
  destruct (inventory_closes sys self s resources E) as (Hc & before & Ht).
  split; [exact Hc|]. split; [apply all_empty_total|].
  exists before. exact Ht.
Qed.

Lemma inventory_is_summed_up_witness :
  categories Cleanup.empty_inventory
  = ["ArgoCD"; "Application"; "Monitoring Stack"; "Monitoring Resources"; "Namespaces"]
  /\ exists before,
       trace (Cleanup.list_resources_to_delete (Scripted.system Scenarios.empty_cluster)
                Scenarios.interactive (Scenarios.start Scenarios.empty_cluster))
       = (before ++ [closing_line Cleanup.empty_inventory])%list.
Proof.
  destruct (inventory_is_summed_up (Scripted.system Scenarios.empty_cluster)
              Scenarios.interactive (Scenarios.start Scenarios.empty_cluster)
              Cleanup.empty_inventory) as (Hc & _ & Ht).
  - vm_compute. reflexivity.
  - split; [exact Hc | exact Ht].
Defined.

Lemma pgrep_launched self : launched self Footprint.pgrep = true.
Proof. unfold launched. destruct (Cleanup.dry_run self); reflexivity. Qed.

(** Decides whether a command is among the events of an explicit trace. *)
Ltac absent_here :=
  let H := fresh in
  intros H; cbn [In app trace fst snd] in H;
  repeat (destruct H as [H|H]; [discriminate H|]); contradiction.

(** X7.  [kill_port_forwards] runs the [pkill] exactly when it is not a dry
    run and the [pgrep] before it exited with status 0 and printed something
    other than white space.  The outcome of the [pkill] is not looked at:
    when it was run and the function returns, "All port-forwards stopped"
    is the last line, whatever the [pkill] exited with. *)
Theorem pkill_only_after_pgrep_found :
  forall (sys : System) (self : Cleanup.Args) (s : Cleanup.State sys),
    let found := snd (subprocess_run sys Footprint.pgrep true (Cleanup.world sys s)) in
    let out := Cleanup.kill_port_forwards sys self s in
    (In (Spawn Footprint.pkill) (trace out)
     <-> Cleanup.dry_run self = false
         /\ exists r, found = Done r /\ returncode r = 0
                      /\ Py.truthy (Py.strip (stdout r)) = true)
    /\ (In (Spawn Footprint.pkill) (trace out) ->
        value out = Ok tt ->
        exists before, trace out = (before ++ [all_stopped])%list).
Proof.
  intros sys self s. cbv zeta.
  unfold Cleanup.kill_port_forwards.
  unfold when, Cleanup.print_header, Cleanup.print_success, Cleanup.print_info,
    print, emit, ret, bind.
  cbv beta iota zeta.
  rewrite (run_command_launched sys self ["pgrep"; "-f"; "kubectl port-forward"] s
             (pgrep_launched self)).
  change ["pgrep"; "-f"; "kubectl port-forward"] with Footprint.pgrep.
  destruct (subprocess_run sys Footprint.pgrep true (Cleanup.world sys s))
    as [w [r|c m|]]; cbn [fst snd]; cbv beta iota zeta.
  - destruct (returncode r =? 0) eqn:Hr; cbn [andb].
    + destruct (Py.truthy (Py.strip (stdout r))) eqn:Ht.
      * destruct (Cleanup.dry_run self) eqn:Hd; cbn [negb]; cbv beta iota zeta.
        { unfold echo. destruct (Cleanup.verbose self);
            (split; [split; [absent_here | intros [H _]; discriminate H] | absent_here]). }
        rewrite (run_command_launched sys self ["pkill"; "-f"; "kubectl port-forward"] _
                   (launched_for_real self _ Hd)).
        change ["pkill"; "-f"; "kubectl port-forward"] with Footprint.pkill.
        cbn [Cleanup.world].
        destruct (subprocess_run sys Footprint.pkill true w) as [w2 [r2|c2 m2|]];
          cbn [fst snd]; cbv beta iota zeta;
          (split;
           [ split;
             [ intros _; split; [reflexivity|]; exists r; repeat split;
               [now apply Z.eqb_eq | exact Ht]
             | intros _; cbn [trace fst snd]; rewrite !in_app_iff; cbn [In]; tauto ]
           | intros _; cbn [value trace fst snd]; try discriminate; intros _;
             eexists; rewrite !app_assoc; reflexivity ]).
      * unfold echo. destruct (Cleanup.verbose self);
          (split; [split; [absent_here|] | absent_here]);
          intros (_ & r0 & H0 & _ & H2); injection H0 as <-; congruence.
    + unfold echo. destruct (Cleanup.verbose self);
        (split; [split; [absent_here|] | absent_here]);
        intros (_ & r0 & H0 & H1 & _); injection H0 as <-;
        apply Z.eqb_neq in Hr; contradiction.
  - change (1 =? 0) with false. cbn [andb].
    unfold echo. destruct (Cleanup.verbose self);
      (split; [split; [absent_here|] | absent_here]);
      intros (_ & r0 & H0 & _); discriminate H0.
  - unfold echo. destruct (Cleanup.verbose self);
      (split; [split; [absent_here|] | absent_here]);
      intros (_ & r0 & H0 & _); discriminate H0.
Qed.

Lemma pkill_only_after_pgrep_found_witness :
  exists before,
    trace (Cleanup.kill_port_forwards (Scripted.system Scenarios.forwarding)
             Scenarios.real (Scenarios.start Scenarios.forwarding))
    = (before ++ [all_stopped])%list.
Proof.
  apply (proj2 (pkill_only_after_pgrep_found (Scripted.system Scenarios.forwarding)
                  Scenarios.real (Scenarios.start Scenarios.forwarding))).
  - vm_compute. tauto.
  - reflexivity.
Defined.

Lemma prefix_app release suffix : String.prefix release (release ++ suffix) = true.
Proof.
  induction release as [|c release IH]; cbn [append].
  - destruct suffix; reflexivity.
  - cbn [String.prefix].
    destruct (ascii_dec c c) as [_|N]; [exact IH | contradiction].
Qed.

Lemma contains_infix before release after :
  Py.contains release (before ++ release ++ after) = true.
Proof.
  induction before as [|c before IH].
  - cbn [append]. destruct (release ++ after) eqn:E; cbn [Py.contains];
      rewrite <- E, prefix_app; reflexivity.
  - cbn [append Py.contains]. rewrite IH. apply orb_true_r.
Qed.

(** X23.  [helm_release_exists] is a substring test.  Outside dry-run mode,
    when the listing has been launched it answers [returncode == 0 and
    release in stdout]; so with status 0 it answers [True] for every output
    that holds the name of the release somewhere, as a part of the name of
    another release for instance. *)
Theorem release_probe_is_a_substring_test :
  forall (sys : System) (self : Cleanup.Args) (release namespace : string)
         (s : Cleanup.State sys) (r : Completed),
    Cleanup.dry_run self = false ->
    snd (subprocess_run sys (release_listing_of namespace) true (Cleanup.world sys s))
    = Done r ->
    value (Cleanup.helm_release_exists sys self release namespace s)
    = Ok ((returncode r =? 0) && Py.contains release (stdout r))
    /\ (forall before after,
          returncode r = 0 ->
          stdout r = before ++ release ++ after ->
          value (Cleanup.helm_release_exists sys self release namespace s) = Ok true).
Proof.
  intros sys self release namespace s r Hd Hrun.
  assert (Hv : value (Cleanup.helm_release_exists sys self release namespace s)
               = Ok ((returncode r =? 0) && Py.contains release (stdout r))).
  { rewrite (release_probe_reports_listing sys self release namespace s
               (launched_for_real self _ Hd)).
    unfold release_listing_of in Hrun. cbn [value snd]. rewrite Hrun. reflexivity. }
  split; [exact Hv|].
  intros before after Hrc Hout. rewrite Hv, Hrc, Hout, contains_infix. reflexivity.
Qed.

Lemma release_probe_is_a_substring_test_witness :
  value (Cleanup.helm_release_exists (Scripted.system Cases.lookalike) Scenarios.real
           "kube-prometheus-stack" "monitoring" (Scenarios.start Cases.lookalike))
  = Ok true.
Proof.
  apply (proj2 (release_probe_is_a_substring_test (Scripted.system Cases.lookalike)
                  Scenarios.real "kube-prometheus-stack" "monitoring"
                  (Scenarios.start Cases.lookalike)
                  (mkCompleted 0 "kube-prometheus-stack-canary" EmptyString)
                  eq_refl eq_refl)
           EmptyString "-canary" eq_refl eq_refl).
Defined.

(** X22.  [delete_application_resources] outside dry-run mode, when it is
    not interrupted: it runs the deletion by label and then the deletion of
    the ServiceMonitor by name, whatever the first one exited with; it
    returns; and the only entry it can record is the one of the
    ServiceMonitor, when the second deletion exited with status 0.  What the
    deletion by label removed is not recorded. *)
Theorem application_resources_are_deleted_twice_over :
  forall (sys : System) (self : Cleanup.Args) (s : Cleanup.State sys),
    let by_label := subprocess_run sys label_deletion true (Cleanup.world sys s) in
    let by_name :=
      subprocess_run sys
        (deletion_cmd "servicemonitor" "quakewatch-app" (Some "default") false) true
        (fst by_label) in
    let out := Cleanup.delete_application_resources sys self s in
    Cleanup.dry_run self = false ->
    snd by_label <> Interrupted ->
    snd by_name <> Interrupted ->
    value out = Ok tt
    /\ commands_run (trace out)
       = [Py.join " " label_deletion;
          "kubectl delete servicemonitor quakewatch-app --ignore-not-found=true -n default"]
    /\ Cleanup.deleted_resources sys (final_state out)
       = (Cleanup.deleted_resources sys s
          ++ (if status (snd by_name) =? 0
              then ["servicemonitor/quakewatch-app -n default"] else []))%list.
Proof.
  intros sys self s. cbv zeta. intros Hd N1 N2.
  unfold Cleanup.delete_application_resources, Cleanup.delete_resource. cbv zeta.
  change (Cleanup.with_namespace _ (Some "default"))
    with (deletion_cmd "servicemonitor" "quakewatch-app" (Some "default") false).
  fold label_deletion.
  unfold Cleanup.log_deleted, when, Cleanup.print_header, Cleanup.print_success,
    Cleanup.print_warning, Cleanup.print_error, print, emit, ret, bind.
  cbv beta iota zeta.
  rewrite (run_command_launched sys self _ s (launched_for_real self _ Hd)).
  destruct (subprocess_run sys label_deletion true (Cleanup.world sys s))
    as [w1 [r1|c1 m1|]]; cbn [fst snd status] in *; try congruence;
    cbv beta iota zeta; change (1 =? 0) with false;
    try (destruct (returncode r1 =? 0); cbv beta iota zeta;
         try destruct (Py.truthy (stdout r1) && Cleanup.verbose self));
    cbv beta iota zeta;
    rewrite (run_command_launched sys self _ _ (launched_for_real self _ Hd));
    cbn [Cleanup.world Cleanup.deleted_resources];
    destruct (subprocess_run sys _ true w1) as [w2 [r2|c2 m2|]];
    cbn [fst snd status] in *; try congruence;
    cbv beta iota zeta; change (1 =? 0) with false;
    try destruct (returncode r2 =? 0); cbv beta iota zeta;
    try destruct (Py.truthy _ && Cleanup.verbose self); cbv beta iota zeta;
    unfold echo; destruct (Cleanup.verbose self);
    cbn [value trace final_state fst snd Cleanup.deleted_resources];
    rewrite ?app_nil_r; repeat split; reflexivity.
Qed.

Lemma application_resources_are_deleted_twice_over_witness :
  value (Cleanup.delete_application_resources (Scripted.system Scenarios.no_binaries)
           Scenarios.real (Scenarios.start Scenarios.no_binaries)) = Ok tt
  /\ Cleanup.deleted_resources (Scripted.system Scenarios.no_binaries)
       (final_state
          (Cleanup.delete_application_resources (Scripted.system Scenarios.no_binaries)
             Scenarios.real (Scenarios.start Scenarios.no_binaries))) = [].
Proof.
  destruct (application_resources_are_deleted_twice_over
              (Scripted.system Scenarios.no_binaries) Scenarios.real
              (Scenarios.start Scenarios.no_binaries) eq_refl)
    as (Hv & _ & Hl); try discriminate.
  split; [exact Hv | exact Hl].
Defined.

(** ** cleanup.py, a whole run *)

Section Steady.

Import Cleanup.

Variable sys : System.
Variable self : Args.
Hypothesis Hsys : uninterrupted sys.

Lemma run_command_steady cmd capture_output :
  cmd <> [] -> throws never (run_command sys self cmd capture_output).
Proof.
  intros Hc s e H.
  destruct Hsys as [Hrun _]. specialize (Hrun cmd capture_output (world sys s)).
  revert H.
  unfold run_command, bind, when, try_except, print, emit, ret, raise, sys_run, value.
  destruct cmd as [|c0 rest]; [contradiction|].
  destruct (verbose self), (dry_run self); cbn;
    try (destruct (_ && _); cbn; try discriminate);
    destruct (subprocess_run sys _ capture_output (world sys s)) as [w [r|c m|]];
    cbn in *; try discriminate; contradiction.
Qed.

Lemma sys_sleep_steady seconds : throws never (sys_sleep sys seconds).
Proof.
  intros s e. destruct Hsys as [_ Hnap]. specialize (Hnap seconds (world sys s)).
  unfold sys_sleep, value.
  destruct (time_sleep sys seconds (world sys s)) as [w o]. cbn in *. subst o.
  discriminate.
Qed.

Lemma silent_steady A (m : Script sys A) :
  (forall s, exists a, value (m s) = Ok a) -> throws never m.
Proof. intros H s e He. destruct (H s) as [a Ha]. congruence. Qed.

Lemma for_fold_steady A B (xs : list A) (acc : B) (body : A -> B -> Script sys B) :
  (forall x b, throws never (body x b)) -> throws never (for_fold sys xs acc body).
Proof.
  intros H. revert acc. induction xs as [|x xs IH]; intros acc; cbn.
  - apply throws_ret.
  - apply throws_bind; auto.
Qed.

End Steady.

(** Walks through a script of the teardown and checks that nothing in it
    raises, on a system that is not interrupted. *)
Ltac steady H :=
  repeat first
    [ apply throws_ret
    | apply throws_print
    | apply throws_emit
    | apply (sys_sleep_steady _ H)
    | apply (run_command_steady _ _ H); discriminate
    | apply silent_steady; intros; eexists; reflexivity
    | apply throws_bind; [|intros]
    | apply throws_when
    | apply for_fold_steady; intros
    | apply throws_for_each; intros
    | match goal with
      | |- throws _ (if ?c then _ else _) => destruct c eqn:?
      | |- throws _ (match ?x with _ => _ end) => destruct x eqn:?
      | |- throws _ ((match ?x with _ => _ end) _) => destruct x
      end
    | progress unfold Cleanup.print_header, Cleanup.print_success,
        Cleanup.print_error, Cleanup.print_warning, Cleanup.print_info,
        Cleanup.resource_exists, Cleanup.namespace_exists,
        Cleanup.helm_release_exists, Cleanup.delete_resource,
        Cleanup.delete_namespace_wait
    | progress cbn [Cleanup.with_namespace Cleanup.given Py.truthy app] ].

Lemma execute_cleanup_steady sys self :
  uninterrupted sys -> throws never (Cleanup.execute_cleanup sys self).
Proof.
  intros H.
  unfold Cleanup.execute_cleanup, Cleanup.kill_port_forwards,
    Cleanup.delete_argocd_application, Cleanup.delete_application_resources,
    Cleanup.delete_monitoring_resources, Cleanup.delete_monitoring_manifest,
    Cleanup.delete_monitoring_stack, Cleanup.delete_namespaces,
    Cleanup.log_deleted, Cleanup.path_exists.
  steady H.
Qed.

(** X8.  The six phases are best effort.  As long as no launch is
    interrupted and sleeping completes, [execute_cleanup] returns, whatever
    the commands exit with and even when none of them can be launched, and
    its trace holds the segment of every one of the six phases, in order. *)
Theorem teardown_is_best_effort :
  forall (sys : System) (self : Cleanup.Args) (s : Cleanup.State sys),
    uninterrupted sys ->
    value (Cleanup.execute_cleanup sys self s) = Ok tt
    /\ exists reached,
         trace (Cleanup.execute_cleanup sys self s) = concat reached
         /\ Forall2 (segment_of self) (Footprint.plan (Cleanup.dry_run self)) reached.
Proof.
  intros sys self s Hsys.
  assert (Hv : value (Cleanup.execute_cleanup sys self s) = Ok tt).
  { destruct (value (Cleanup.execute_cleanup sys self s)) as [[]|e] eqn:E;
      [reflexivity|].
    destruct (execute_cleanup_steady sys self Hsys s e E). }
  split; [exact Hv|].
  destruct (execute_cleanup_follows_plan sys self s) as (reached & Ht & Hf & Hl).
  exists reached. split; [exact Ht|].
  rewrite (Hl tt Hv) in Hf. rewrite firstn_all in Hf. exact Hf.
Qed.

Lemma no_binaries_uninterrupted : uninterrupted (Scripted.system Scenarios.no_binaries).
Proof. split; intros; cbn; [discriminate | reflexivity]. Defined.

Lemma teardown_is_best_effort_witness :
  value (Cleanup.execute_cleanup (Scripted.system Scenarios.no_binaries) Scenarios.real
           (Scenarios.start Scenarios.no_binaries)) = Ok tt.
Proof.
  apply (proj1 (teardown_is_best_effort (Scripted.system Scenarios.no_binaries)
                  Scenarios.real (Scenarios.start Scenarios.no_binaries)
                  no_binaries_uninterrupted)).
Defined.

Section Logs.

Import Cleanup.

Variable sys : System.
Variable allowed : list string.

Lemma logs_quiet A (m : Script sys A) :
  (forall s, deleted_resources sys (final_state (m s)) = deleted_resources sys s) ->
  logs sys allowed m.
Proof.
  intros H s. exists []. rewrite app_nil_r. split; [apply H | intros x []].
Qed.

Lemma logs_ret A (a : A) : logs sys allowed (ret a).
Proof. apply logs_quiet. reflexivity. Qed.

Lemma logs_raise A (e : exn) : logs sys allowed (@raise _ A e).
Proof. apply logs_quiet. reflexivity. Qed.

Lemma logs_emit (e : event) : logs sys allowed (emit e).
Proof. apply logs_quiet. reflexivity. Qed.

Lemma logs_print (line : string) : logs sys allowed (print line).
Proof. apply logs_quiet. reflexivity. Qed.

Lemma logs_bind A B (m : Script sys A) (f : A -> Script sys B) :
  logs sys allowed m -> (forall a, logs sys allowed (f a)) -> logs sys allowed (bind m f).
Proof.
  intros Hm Hf s. rewrite final_state_bind.
  destruct (Hm s) as (l1 & E1 & I1).
  destruct (value (m s)) as [a|e].
  - destruct (Hf a (final_state (m s))) as (l2 & E2 & I2).
    exists (l1 ++ l2)%list. rewrite E2, E1, app_assoc.
    split; [reflexivity | now apply incl_app].
  - exists l1. split; assumption.
Qed.

Lemma logs_try_except A (m : Script sys A) handles (handler : exn -> Script sys A) :
  logs sys allowed m -> (forall e, logs sys allowed (handler e)) ->
  logs sys allowed (try_except m handles handler).
Proof.
  intros Hm Hh s. destruct (Hm s) as (l1 & E1 & I1). revert E1.
  unfold try_except, final_state.
  destruct (m s) as [[s1 l] [a|e]]; cbn; intros E1.
  - exists l1. split; assumption.
  - destruct (handles e).
    + destruct (Hh e s1) as (l2 & E2 & I2). revert E2. unfold final_state.
      destruct (handler e s1) as [[s2 l'] r2]; cbn. intros E2.
      exists (l1 ++ l2)%list. rewrite E2, E1, app_assoc.
      split; [reflexivity | now apply incl_app].
    + exists l1. split; assumption.
Qed.

Lemma logs_when (c : bool) (m : Script sys unit) :
  logs sys allowed m -> logs sys allowed (when c m).
Proof. destruct c; cbn; intros H; [exact H | apply logs_ret]. Qed.

Lemma logs_for_each A (xs : list A) (body : A -> Script sys unit) :
  (forall x, logs sys allowed (body x)) -> logs sys allowed (for_each xs body).
Proof.
  intros H. induction xs as [|x xs IH]; cbn.
  - apply logs_ret.
  - apply logs_bind; auto.
Qed.

Lemma logs_for_fold A B (xs : list A) (acc : B) (body : A -> B -> Script sys B) :
  (forall x b, logs sys allowed (body x b)) -> logs sys allowed (for_fold sys xs acc body).
Proof.
  intros H. revert acc. induction xs as [|x xs IH]; intros acc; cbn.
  - apply logs_ret.
  - apply logs_bind; auto.
Qed.

Lemma logs_log_deleted item : In item allowed -> logs sys allowed (log_deleted sys item).
Proof.
  intros Hin s. exists [item]. split; [reflexivity|].
  intros x [<-|[]]. exact Hin.
Qed.

Lemma logs_run_command self cmd capture_output :
  logs sys allowed (run_command sys self cmd capture_output).
Proof.
  apply logs_quiet. intros s.
  unfold run_command, bind, when, try_except, print, emit, ret, raise, sys_run,
    final_state.
  destruct (verbose self), (dry_run self); cbn;
    try (destruct (destructive cmd) as [[|]|e]; cbn; try reflexivity);
    destruct (subprocess_run sys cmd capture_output (world sys s)) as [w [r|c m|]];
    reflexivity.
Qed.

Lemma logs_sys_sleep seconds : logs sys allowed (sys_sleep sys seconds).
Proof.
  apply logs_quiet. intros s. unfold sys_sleep, final_state.
  destruct (time_sleep sys seconds (world sys s)) as [w o]. reflexivity.
Qed.

Lemma logs_sys_input prompt : logs sys allowed (sys_input sys prompt).
Proof.
  apply logs_quiet. intros s. unfold sys_input, final_state.
  destruct (builtin_input sys prompt (world sys s)) as [w o]. reflexivity.
Qed.

End Logs.

(** Walks through a script of the teardown and collects what it can append
    to [deleted_resources]. *)
Ltac tally :=
  repeat first
    [ apply logs_ret
    | apply logs_raise
    | apply logs_print
    | apply logs_emit
    | apply logs_sys_sleep
    | apply logs_sys_input
    | apply logs_run_command
    | apply logs_log_deleted; solve [repeat (first [left; reflexivity | right])]
    | apply logs_bind; [|intros]
    | apply logs_when
    | match goal with
      | |- logs _ _ (if ?c then _ else _) => destruct c eqn:?
      | |- logs _ _ (match ?x with _ => _ end) => destruct x eqn:?
      | |- logs _ _ ((match ?x with _ => _ end) _) => destruct x
      end
    | progress unfold Cleanup.print_header, Cleanup.print_success,
        Cleanup.print_error, Cleanup.print_warning, Cleanup.print_info,
        Cleanup.resource_exists, Cleanup.namespace_exists,
        Cleanup.helm_release_exists, Cleanup.delete_resource,
        Cleanup.delete_namespace_wait, Cleanup.sys_exit
    | progress cbn [Cleanup.for_fold for_each Cleanup.tools
                    Cleanup.monitoring_resources Cleanup.monitoring_manifests]
    | apply logs_for_fold; intros
    | apply logs_for_each; intros
    | apply logs_quiet; reflexivity ].

Lemma run_logs sys self : logs sys loggable (Cleanup.run sys self).
Proof.
  unfold Cleanup.run. apply logs_try_except.
  - unfold Cleanup.run_body, Cleanup.check_prerequisites,
      Cleanup.list_resources_to_delete, Cleanup.print_summary,
      Cleanup.confirmed, Cleanup.confirm_action, Cleanup.proceed,
      Cleanup.execute_cleanup, Cleanup.kill_port_forwards,
      Cleanup.delete_argocd_application, Cleanup.delete_application_resources,
      Cleanup.delete_monitoring_resources, Cleanup.delete_monitoring_manifest,
      Cleanup.delete_monitoring_stack, Cleanup.delete_namespaces,
      Cleanup.print_report.
    tally.
  - intros e. destruct e; tally.
Qed.

(** X9.  A whole run only ever appends to [deleted_resources], and what it
    appends are entries of a fixed list of seven: the ArgoCD application,
    the three monitoring objects, the Helm release and the two namespaces.
    What the deletion by label, the deletions from a manifest and the
    deletion of the volume claims remove is never recorded. *)
Theorem deleted_resources_only_grow :
  forall (sys : System) (self : Cleanup.Args) (s : Cleanup.State sys),
    exists added,
      Cleanup.deleted_resources sys (final_state (Cleanup.run sys self s))
      = (Cleanup.deleted_resources sys s ++ added)%list
      /\ incl added loggable.
Proof. intros sys self s. apply run_logs. Qed.

Lemma prompts_in_app t1 t2 :
  prompts_in (t1 ++ t2) = (prompts_in t1 + prompts_in t2)%nat.
Proof.
  induction t1 as [|e t1 IH]; [reflexivity|].
  destruct e; cbn; rewrite IH; reflexivity.
Qed.

Lemma asks_bind {S A B} a b (m : M S A) (f : A -> M S B) :
  asks a m -> (forall x, asks b (f x)) -> asks (a + b) (bind m f).
Proof.
  intros Hm Hf s. rewrite trace_bind, prompts_in_app.
  specialize (Hm s). destruct (value (m s)) as [x|e].
  - specialize (Hf x (final_state (m s))). lia.
  - cbn. lia.
Qed.

Lemma asks_try_except {S A} a b (m : M S A) handles (handler : exn -> M S A) :
  asks a m -> (forall e, asks b (handler e)) ->
  asks (a + b) (try_except m handles handler).
Proof.
  intros Hm Hh s. specialize (Hm s). revert Hm.
  unfold try_except, trace.
  destruct (m s) as [[s1 l1] [x|e]]; cbn; [lia|].
  destruct (handles e); cbn; [|lia].
  specialize (Hh e s1). unfold trace in Hh.
  destruct (handler e s1) as [[s2 l2] r2]; cbn in *.
  rewrite prompts_in_app. lia.
Qed.

Lemma only_asks_nothing sys self allowed naps A (m : Cleanup.Script sys A) :
  emits (only self allowed naps false) m -> asks 0 m.
Proof.
  intros H s. specialize (H s).
  induction H as [|e t He _ IH]; [constructor|].
  destruct e; cbn in *; try exact IH. discriminate He.
Qed.

(** A part of the script that reads nothing from the terminal. *)
Ltac mute L :=
  eapply only_asks_nothing, L.

(** The footprint of a part is within the footprint of the whole. *)
Ltac within L :=
  eapply emits_weaken; [ | | | apply L];
  [ first [ reflexivity
          | match goal with
            | |- context [Cleanup.dry_run ?x] =>
                destruct (Cleanup.dry_run x); reflexivity
            end ]
  | intros ? ?; cbn in *; tauto
  | intros; first [reflexivity | assumption] ].

Lemma confirmed_asks sys self :
  asks (if Cleanup.all self || Cleanup.dry_run self then 0 else 1)%nat
       (Cleanup.confirmed sys self).
Proof.
  unfold Cleanup.confirmed, Cleanup.confirm_action.
  destruct (Cleanup.dry_run self); cbn [negb].
  - rewrite orb_true_r. intros s. constructor.
  - rewrite orb_false_r. destruct (Cleanup.all self).
    + intros s. constructor.
    + intros s. unfold bind, print, emit, ret, Cleanup.sys_input, trace.
      destruct (builtin_input sys _ (Cleanup.world sys s)) as [w [line| |]];
        cbn; lia.
Qed.

Lemma proceed_asks sys self : asks 0 (Cleanup.proceed sys self).
Proof.
  eapply (only_asks_nothing sys self (Footprint.script (Cleanup.dry_run self)) [3]).
  unfold Cleanup.proceed.
  apply emits_bind; [walk | intros start_time].
  apply emits_bind.
  { unfold Cleanup.execute_cleanup.
    apply emits_bind; [within kill_port_forwards_only | intros _].
    apply emits_bind; [within delete_argocd_application_only | intros _].
    apply emits_bind; [within delete_application_resources_only | intros _].
    apply emits_bind; [within delete_monitoring_resources_only | intros _].
    apply emits_bind; [within delete_monitoring_stack_only | intros _].
    within delete_namespaces_only. }
  intros _.
  apply emits_bind; [walk | intros now].
  unfold Cleanup.print_report, Cleanup.get_deleted. walk.
Qed.

Lemma run_asks sys self :
  asks (if Cleanup.all self || Cleanup.dry_run self then 0 else 1)%nat
       (Cleanup.run sys self).
Proof.
  set (n := (if Cleanup.all self || Cleanup.dry_run self then 0 else 1)%nat).
  replace n with ((0 + (0 + (0 + (0 + (0 + (n + 0))))) + 0))%nat by lia.
  unfold Cleanup.run. apply asks_try_except.
  - unfold Cleanup.run_body.
    apply asks_bind;
      [eapply (only_asks_nothing sys self [] []); walk | intros _].
    apply asks_bind;
      [eapply (only_asks_nothing sys self [] []); walk | intros _].
    apply asks_bind; [mute check_prerequisites_only | intros ready].
    apply asks_bind;
      [eapply (only_asks_nothing sys self [] []); walk | intros _].
    apply asks_bind; [mute list_resources_to_delete_only | intros resources].
    destruct (forallb _ resources).
    + intros s. cbn. lia.
    + apply asks_bind; [apply confirmed_asks | intros go].
      destruct (negb go); [intros s; cbn; lia | apply proceed_asks].
  - intros e. eapply (only_asks_nothing sys self [] []).
    destruct e; walk.
Qed.

(** X10.  A run reads the terminal at most once, and not at all with
    [--all] or [--dry-run]. *)
Theorem terminal_is_read_at_most_once :
  forall (sys : System) (self : Cleanup.Args) (w : World sys),
    (prompts_in (trace (Cleanup.main sys self w)) <= 1)%nat
    /\ (Cleanup.all self = true \/ Cleanup.dry_run self = true ->
        prompts_in (trace (Cleanup.main sys self w)) = 0%nat).
Proof.
  intros sys self w.
  pose proof (run_asks sys self (Cleanup.mkState sys w [])) as H.
  unfold Cleanup.main. split.
  - destruct (_ || _) in H; lia.
  - intros [Ha|Hd]; [rewrite Ha in H | rewrite Hd, orb_true_r in H]; cbn in H; lia.
Qed.

Lemma terminal_is_read_at_most_once_witness :
  prompts_in (trace (Cleanup.main (Scripted.system Scenarios.deployed)
                       Scenarios.real 0%nat)) = 0%nat.
Proof.
  apply (proj2 (terminal_is_read_at_most_once (Scripted.system Scenarios.deployed)
                  Scenarios.real 0%nat)).
  left. reflexivity.
Defined.

Lemma rests_bind {S A B} a b (m : M S A) (f : A -> M S B) :
  0 <= b -> rests a m -> (forall x, rests b (f x)) -> rests (a + b) (bind m f).
Proof.
  intros Hb Hm Hf s. rewrite trace_bind, slept_app.
  specialize (Hm s). destruct (value (m s)) as [x|e].
  - specialize (Hf x (final_state (m s))). lia.
  - cbn [slept]. lia.
Qed.

Lemma rests_try_except {S A} a b (m : M S A) handles (handler : exn -> M S A) :
  0 <= b -> rests a m -> (forall e, rests b (handler e)) ->
  rests (a + b) (try_except m handles handler).
Proof.
  intros Hb Hm Hh s. specialize (Hm s). revert Hm.
  unfold try_except, trace.
  destruct (m s) as [[s1 l1] [x|e]]; cbn [fst snd]; [lia|].
  destruct (handles e); cbn [fst snd]; [|lia].
  specialize (Hh e s1). unfold trace in Hh.
  destruct (handler e s1) as [[s2 l2] r2]; cbn [fst snd] in *.
  rewrite slept_app. lia.
Qed.

Lemma only_rests sys self allowed prompts A (m : Cleanup.Script sys A) :
  emits (only self allowed [] prompts) m -> rests 0 m.
Proof.
  intros H s. specialize (H s).
  induction H as [|e t He _ IH]; [cbn; lia|].
  destruct e; cbn [slept] in *; try exact IH. destruct He.
Qed.

(** The pause of the ArgoCD phase. *)
Lemma argocd_rests sys self :
  rests (if Cleanup.dry_run self then 0 else 3)
        (Cleanup.delete_argocd_application sys self).
Proof.
  destruct (Cleanup.dry_run self) eqn:Hd.
  - apply (only_rests sys self Footprint.argocd_application false).
    unfold Cleanup.delete_argocd_application. rewrite Hd. walk.
  - intros s.
    destruct (pause_after_deletion sys self s) as (body & tail & -> & Hbody & Htail).
    rewrite slept_app.
    assert (Hzero : slept body = 0).
    { clear Htail. induction Hbody as [|e t He _ IH]; [reflexivity|].
      destruct e; cbn [slept] in *; try exact IH. destruct He. }
    rewrite Hzero. destruct Htail as [->|[-> _]]; cbn; lia.
Qed.

Lemma execute_cleanup_rests sys self :
  rests (if Cleanup.dry_run self then 0 else 3) (Cleanup.execute_cleanup sys self).
Proof.
  set (n := if Cleanup.dry_run self then 0 else 3).
  assert (Hn : 0 <= n) by (subst n; destruct (Cleanup.dry_run self); lia).
  replace n with (0 + (n + (0 + (0 + (0 + 0))))) by lia.
  unfold Cleanup.execute_cleanup.
  apply rests_bind; [lia | eapply only_rests, kill_port_forwards_only | intros _].
  apply rests_bind; [lia | apply argocd_rests | intros _].
  apply rests_bind;
    [lia | eapply only_rests, delete_application_resources_only | intros _].
  apply rests_bind;
    [lia | eapply only_rests, delete_monitoring_resources_only | intros _].
  apply rests_bind;
    [lia | eapply only_rests, delete_monitoring_stack_only | intros _].
  eapply only_rests, delete_namespaces_only.
Qed.

Lemma run_rests sys self :
  rests (if Cleanup.dry_run self then 0 else 3) (Cleanup.run sys self).
Proof.
  set (n := if Cleanup.dry_run self then 0 else 3).
  assert (Hn : 0 <= n) by (subst n; destruct (Cleanup.dry_run self); lia).
  replace n with ((0 + (0 + (0 + (0 + (0 + (0 + (0 + (n + (0 + 0))))))))) + 0) by lia.
  unfold Cleanup.run. apply rests_try_except; [lia | |].
  - unfold Cleanup.run_body.
    apply rests_bind; [lia | eapply (only_rests sys self [] true); walk | intros _].
    apply rests_bind; [lia | eapply (only_rests sys self [] true); walk | intros _].
    apply rests_bind; [lia | eapply only_rests, check_prerequisites_only | intros ready].
    apply rests_bind; [lia | eapply (only_rests sys self [] true); walk | intros _].
    apply rests_bind;
      [lia | eapply only_rests, list_resources_to_delete_only | intros resources].
    destruct (forallb _ resources).
    { intros s. cbn. lia. }
    apply rests_bind; [lia | | intros go].
    { eapply (only_rests sys self [] true).
      unfold Cleanup.confirmed, Cleanup.confirm_action. walk. }
    destruct (negb go).
    { intros s. cbn. lia. }
    unfold Cleanup.proceed.
    apply rests_bind; [lia | eapply (only_rests sys self [] true); walk | intros start].
    apply rests_bind; [lia | apply execute_cleanup_rests | intros _].
    apply rests_bind; [lia | eapply (only_rests sys self [] true); walk | intros now].
    eapply (only_rests sys self [] true).
    unfold Cleanup.print_report, Cleanup.get_deleted. walk.
  - intros e. eapply (only_rests sys self [] true). destruct e; walk.
Qed.

(** X24.  A run pauses once at most: every pause lasts three seconds, the
    pauses of a run add up to at most three seconds (the pause that follows
    the deletion of the ArgoCD application), and a dry run does not pause at
    all. *)
Theorem a_run_pauses_once_at_most :
  forall (sys : System) (self : Cleanup.Args) (w : World sys),
    Forall pause_of_three (trace (Cleanup.main sys self w))
    /\ 0 <= slept (trace (Cleanup.main sys self w)) <= 3
    /\ (Cleanup.dry_run self = true -> slept (trace (Cleanup.main sys self w)) = 0).
Proof.
  intros sys self w.
  pose proof (run_rests sys self (Cleanup.mkState sys w [])) as H.
  unfold Cleanup.main. split; [|split].
  - eapply Forall_impl; [|apply run_only].
    intros [| |seconds| | | | | |]; cbn; try (intros; exact I).
    intros [<-|[]]. reflexivity.
  - destruct (Cleanup.dry_run self); lia.
  - intros Hd. rewrite Hd in H. lia.
Qed.

Lemma a_run_pauses_once_at_most_witness :
  slept (trace (Cleanup.main (Scripted.system Scenarios.deployed) Scenarios.dry 0%nat))
  = 0.
Proof.
  apply (proj2 (proj2 (a_run_pauses_once_at_most (Scripted.system Scenarios.deployed)
                         Scenarios.dry 0%nat))).
  reflexivity.
Defined.







Lemma run_trace_unhandled sys self s code :
  value (Cleanup.run_body sys self s) = Raise (SystemExit code) ->
  Cleanup.run sys self s = Cleanup.run_body sys self s.
Proof.
  unfold Cleanup.run, try_except, value.
  destruct (Cleanup.run_body sys self s) as [[s1 l1] r1]. cbn. intros ->. reflexivity.
Qed.

Lemma run_body_unprepared sys self s :
  value (Cleanup.check_prerequisites sys self s) = Ok false ->
  exists before,
    Forall (only self Footprint.prerequisites [] false) before
    /\ Cleanup.run_body sys self s
       = (final_state (Cleanup.check_prerequisites sys self s),
          (before ++ [prerequisites_failed])%list, Raise (SystemExit 1)).
Proof.
  intros Hc. unfold Cleanup.run_body.
  rewrite run_bind. cbn [Cleanup.print_header value trace final_state fst snd].
  change (value (Cleanup.print_header sys "QuakeWatch Cleanup Script" s)) with
    (@Ok unit tt).
  cbv beta iota zeta.
  change (final_state (Cleanup.print_header sys "QuakeWatch Cleanup Script" s)) with s.
  rewrite run_bind.
  assert (Hw : forall s',
             when (Cleanup.dry_run self)
               (Cleanup.print_warning sys "DRY-RUN MODE: No resources will be deleted" ;;
                print EmptyString) s'
             = (s', trace (when (Cleanup.dry_run self)
                             (Cleanup.print_warning sys
                                "DRY-RUN MODE: No resources will be deleted" ;;
                              print EmptyString) s'), Ok tt)).
  { intros s'. destruct (Cleanup.dry_run self); reflexivity. }
  rewrite Hw. cbn [value final_state trace fst snd]. cbv beta iota zeta.
  rewrite run_bind, Hc. cbn [negb]. cbv beta iota zeta.
  rewrite run_bind.
  cbn [Cleanup.print_error Cleanup.sys_exit print emit raise bind value trace
       final_state fst snd].
  eexists. split; [|rewrite app_nil_r, !app_assoc; reflexivity].
  apply Forall_app; split; [apply Forall_app; split|].
  - repeat constructor.
  - destruct (Cleanup.dry_run self); repeat constructor.
  - apply check_prerequisites_only.
Qed.

(** X12.  When the prerequisite check answers [False], the script exits
    with status 1 right after the line "Prerequisites check failed": before
    it, it launched nothing but the three commands of the check, so the
    cluster was not even listed. *)
Theorem nothing_runs_without_prerequisites :
  forall (sys : System) (self : Cleanup.Args) (w : World sys),
    value (Cleanup.check_prerequisites sys self (Cleanup.mkState sys w [])) = Ok false ->
    value (Cleanup.main sys self w) = Raise (SystemExit 1)
    /\ exists before,
         trace (Cleanup.main sys self w) = (before ++ [prerequisites_failed])%list
         /\ Forall (only self Footprint.prerequisites [] false) before.
Proof.
  intros sys self w Hc. unfold Cleanup.main.
  destruct (run_body_unprepared sys self _ Hc) as (before & Hb & Hrun).
  rewrite (run_trace_unhandled sys self _ 1) by (rewrite Hrun; reflexivity).
  rewrite Hrun. split; [reflexivity|].
  exists before. split; [reflexivity | exact Hb].
Qed.

Lemma nothing_runs_without_prerequisites_witness :
  value (Cleanup.main (Scripted.system Scenarios.no_binaries) Scenarios.interactive
           0%nat) = Raise (SystemExit 1).
Proof.
  apply (proj1 (nothing_runs_without_prerequisites (Scripted.system Scenarios.no_binaries)
                  Scenarios.interactive 0%nat eq_refl)).
Defined.

(** X13.  When the [try] block of [run] raises an [Exception], [run] adds
    one line with the text of the exception, a traceback only under
    [--verbose], and exits with status 1. *)
Theorem unexpected_error_is_reported :
  forall (sys : System) (self : Cleanup.Args) (s : Cleanup.State sys)
         (cls msg : string),
    value (Cleanup.run_body sys self s) = Raise (Exception cls msg) ->
    value (Cleanup.run sys self s) = Raise (SystemExit 1)
    /\ trace (Cleanup.run sys self s)
       = (trace (Cleanup.run_body sys self s) ++ error_report self msg)%list.
Proof.
  intros sys self s cls msg. unfold Cleanup.run, try_except, value, trace, error_report.
  destruct (Cleanup.run_body sys self s) as [[s1 l1] r1]. cbn [fst snd].
  intros ->. cbn. destruct (Cleanup.verbose self); split; reflexivity.
Qed.

Lemma unexpected_error_is_reported_witness :
  value (Cleanup.run (Scripted.system Cases.closed_stdin) Scenarios.interactive
           (Scenarios.start Cases.closed_stdin)) = Raise (SystemExit 1).
Proof.
  apply (proj1 (unexpected_error_is_reported (Scripted.system Cases.closed_stdin)
                  Scenarios.interactive (Scenarios.start Cases.closed_stdin)
                  "EOFError" "EOF when reading a line" eq_refl)).
Defined.

(** ** test_helm_deployment.py *)

Lemma test_run_command_value sys cmd check s :
  value (HelmDeploymentTest.run_command sys cmd check s)
  = checked sys cmd check
      (snd (subprocess_run sys cmd true (HelmDeploymentTest.world sys s))).
Proof.
  unfold HelmDeploymentTest.run_command, HelmDeploymentTest.sys_run, bind, print,
    emit, ret, raise, value, checked, called_process_error.
  destruct (subprocess_run sys cmd true (HelmDeploymentTest.world sys s))
    as [w [r|c m|]]; cbn; try reflexivity.
  destruct (check && negb (returncode r =? 0)); reflexivity.
Qed.

Lemma test_run_command_unchecked sys cmd s :
  HelmDeploymentTest.run_command sys cmd false s
  = (HelmDeploymentTest.mkState sys
       (fst (subprocess_run sys cmd true (HelmDeploymentTest.world sys s)))
       (HelmDeploymentTest.environ sys s),
     [Spawn cmd],
     result_of_outcome
       (snd (subprocess_run sys cmd true (HelmDeploymentTest.world sys s)))).
Proof.
  unfold HelmDeploymentTest.run_command, HelmDeploymentTest.sys_run, bind, ret.
  destruct (subprocess_run sys cmd true (HelmDeploymentTest.world sys s))
    as [w [r|c m|]]; reflexivity.
Qed.

Lemma test_run_command_returns sys cmd check s r :
  value (HelmDeploymentTest.run_command sys cmd check s) = Ok r ->
  HelmDeploymentTest.run_command sys cmd check s
  = (HelmDeploymentTest.mkState sys
       (fst (subprocess_run sys cmd true (HelmDeploymentTest.world sys s)))
       (HelmDeploymentTest.environ sys s),
     [Spawn cmd], Ok r).
Proof.
  unfold HelmDeploymentTest.run_command, HelmDeploymentTest.sys_run, bind, print,
    emit, ret, raise, value.
  destruct (subprocess_run sys cmd true (HelmDeploymentTest.world sys s))
    as [w [r0|c m|]]; cbn; try discriminate.
  destruct (check && negb (returncode r0 =? 0)); cbn; [discriminate|].
  intros H. injection H as <-. reflexivity.
Qed.

(** X14.  [test_helm_install] passes exactly when its Helm command is
    launched and exits with status 0, and otherwise raises what
    [run_command] raised ([CalledProcessError] for a non-zero status, the
    launch failure itself otherwise).  The assertion "Helm install failed"
    that follows the command never fires: under [check] the command
    returns only with status 0. *)
Theorem install_passes_iff_command_succeeds :
  forall (sys : System) (self : HelmDeploymentTest.Self)
         (s : HelmDeploymentTest.State sys),
    value (HelmDeploymentTest.test_helm_install sys self s)
    = match checked sys (install_cmd self) true
              (snd (subprocess_run sys (install_cmd self) true
                      (HelmDeploymentTest.world sys s))) with
      | Ok _ => Ok tt
      | Raise e => Raise e
      end.
Proof.
  intros sys self s. unfold HelmDeploymentTest.test_helm_install.
  erewrite value_after by reflexivity. cbv zeta.
  fold (install_cmd self).
  rewrite value_bind, test_run_command_value.
  destruct (subprocess_run sys (install_cmd self) true (HelmDeploymentTest.world sys s))
    as [w [r|c m|]]; cbn [snd checked]; try reflexivity.
  cbn [andb]. destruct (returncode r =? 0) eqn:Hr; cbn [negb]; [|reflexivity].
  unfold bind, HelmDeploymentTest.assert, print, emit, ret, value.
  rewrite Hr. reflexivity.
Qed.

Lemma answered sys cmd s d (k : json -> HelmDeploymentTest.Script sys unit) :
  answers sys cmd s d ->
  exists s1,
    value ((r <- HelmDeploymentTest.run_command sys cmd true ;;
            deployment <- HelmDeploymentTest.loads sys (stdout r) ;;
            k deployment) s)
    = value (k d s1).
Proof.
  intros (r & Hrun & Hrc & Hd).
  exists (final_state (HelmDeploymentTest.run_command sys cmd true s)).
  rewrite value_bind, test_run_command_value, Hrun. cbn [checked].
  rewrite Hrc. cbn [Z.eqb negb andb].
  unfold HelmDeploymentTest.loads. rewrite Hd.
  erewrite value_after by reflexivity. reflexivity.
Qed.

(** X15.  [test_deployment_status], once the query has answered with a
    document: a lookup of [status.replicas] that fails is what the step
    raises; no replica gives the assertion "No replicas found"; a status
    with replicas but without the key [readyReplicas] raises [KeyError]
    before the assertion on readiness is reached; and with both present
    the step passes exactly when they are equal. *)
Theorem deployment_status_edge_cases :
  forall (sys : System) (self : HelmDeploymentTest.Self)
         (s : HelmDeploymentTest.State sys) (d : json),
    answers sys (object_cmd self "deployment") s d ->
    let out := value (HelmDeploymentTest.test_deployment_status sys self s) in
    (forall e, HelmDeploymentTest.getitem2 d "status" "replicas" = Raise e ->
               out = Raise e)
    /\ (forall n,
          HelmDeploymentTest.getitem2 d "status" "replicas" = Ok (JNum n) ->
          n <= 0 -> out = Raise (assertion_error "No replicas found"))
    /\ (forall n status,
          HelmDeploymentTest.getitem d "status" = Ok (JObj status) ->
          HelmDeploymentTest.dict_get status "replicas" = Some (JNum n) ->
          0 < n ->
          HelmDeploymentTest.dict_get status "readyReplicas" = None ->
          out = Raise (key_error "readyReplicas"))
    /\ (forall n ready,
          HelmDeploymentTest.getitem2 d "status" "replicas" = Ok (JNum n) ->
          0 < n ->
          HelmDeploymentTest.getitem2 d "status" "readyReplicas" = Ok ready ->
          out = if py_eq sys ready (JNum n) then Ok tt
                else Raise (assertion_error "Not all replicas are ready")).
Proof.
  intros sys self s d Ha. cbv zeta.
  unfold HelmDeploymentTest.test_deployment_status.
  erewrite value_after by reflexivity. cbv zeta.
  fold (object_cmd self "deployment").
  destruct (answered sys _ s d
              (fun deployment =>
                 replicas <- HelmDeploymentTest.lift sys
                               (HelmDeploymentTest.getitem2 deployment "status" "replicas") ;;
                 positive <- HelmDeploymentTest.lift sys
                               (HelmDeploymentTest.gt_zero replicas) ;;
                 HelmDeploymentTest.assert sys positive "No replicas found" ;;
                 ready <- HelmDeploymentTest.lift sys
                            (HelmDeploymentTest.getitem2 deployment "status" "readyReplicas") ;;
                 replicas <- HelmDeploymentTest.lift sys
                               (HelmDeploymentTest.getitem2 deployment "status" "replicas") ;;
                 HelmDeploymentTest.assert sys (py_eq sys ready replicas)
                   "Not all replicas are ready" ;;
                 ready <- HelmDeploymentTest.lift sys
                            (HelmDeploymentTest.getitem2 deployment "status" "readyReplicas") ;;
                 print ("✅ Deployment has " ++ py_str sys ready ++ " ready replicas"))
              Ha) as (s1 & ->).
  unfold bind, HelmDeploymentTest.lift, HelmDeploymentTest.assert, print, emit, ret,
    raise, value.
  cbv beta iota zeta.
  repeat split.
  - intros e ->. reflexivity.
  - intros n -> Hn. cbn [HelmDeploymentTest.gt_zero].
    replace (0 <? n) with false by (symmetry; apply Z.ltb_ge; exact Hn).
    reflexivity.
  - intros n status Hs Hr Hn Hm.
    unfold HelmDeploymentTest.getitem2. rewrite Hs.
    cbn [HelmDeploymentTest.getitem]. rewrite Hr, Hm.
    cbn [HelmDeploymentTest.gt_zero].
    replace (0 <? n) with true by (symmetry; apply Z.ltb_lt; exact Hn).
    reflexivity.
  - intros n ready -> Hn ->. cbn [HelmDeploymentTest.gt_zero].
    replace (0 <? n) with true by (symmetry; apply Z.ltb_lt; exact Hn).
    destruct (py_eq sys ready (JNum n)); reflexivity.
Qed.

Lemma rollout_answers :
  answers (Scripted.system (Cases.printing Cases.rollout))
    (object_cmd HelmDeploymentTest.default_self "deployment")
    (Scenarios.start_test (Cases.printing Cases.rollout)) Cases.rollout.
Proof. eexists. repeat split. Defined.

Lemma deployment_status_edge_cases_witness :
  value (HelmDeploymentTest.test_deployment_status
           (Scripted.system (Cases.printing Cases.rollout))
           HelmDeploymentTest.default_self
           (Scenarios.start_test (Cases.printing Cases.rollout)))
  = Raise (key_error "readyReplicas").
Proof.
  apply (proj1 (proj2 (proj2 (deployment_status_edge_cases
                  (Scripted.system (Cases.printing Cases.rollout))
                  HelmDeploymentTest.default_self
                  (Scenarios.start_test (Cases.printing Cases.rollout))
                  Cases.rollout rollout_answers)))
           2 [("replicas", JNum 2)] eq_refl eq_refl eq_refl eq_refl).
Defined.

(** X16.  [test_service_exists], once the query has answered with a
    document: a failing lookup of [spec.ports] is what the step raises, a
    falsy [ports] (the empty list, null) gives the assertion "Service has
    no ports defined", and with a non-empty list of ports the step returns
    the decoded document itself. *)
Theorem service_check_returns_the_document :
  forall (sys : System) (self : HelmDeploymentTest.Self)
         (s : HelmDeploymentTest.State sys) (d : json),
    answers sys (object_cmd self "service") s d ->
    let out := value (HelmDeploymentTest.test_service_exists sys self s) in
    (forall e, HelmDeploymentTest.getitem2 d "spec" "ports" = Raise e -> out = Raise e)
    /\ (forall ports,
          HelmDeploymentTest.getitem2 d "spec" "ports" = Ok ports ->
          HelmDeploymentTest.truthy ports = false ->
          out = Raise (assertion_error "Service has no ports defined"))
    /\ (forall port ports,
          HelmDeploymentTest.getitem2 d "spec" "ports" = Ok (JArr (port :: ports)) ->
          out = Ok d).
Proof.
  intros sys self s d (r & Hrun & Hrc & Hd). cbv zeta.
  unfold HelmDeploymentTest.test_service_exists.
  erewrite value_after by reflexivity. cbv zeta.
  fold (object_cmd self "service").
  rewrite value_bind, test_run_command_value, Hrun. cbn [checked].
  rewrite Hrc. cbn [Z.eqb negb andb].
  unfold HelmDeploymentTest.loads. rewrite Hd.
  erewrite value_after by reflexivity.
  unfold bind, HelmDeploymentTest.lift, HelmDeploymentTest.assert, print, emit, ret,
    raise, value.
  cbv beta iota zeta.
  repeat split.
  - intros e ->. reflexivity.
  - intros ports -> ->. reflexivity.
  - intros port ports ->. reflexivity.
Qed.

Lemma service_answers :
  answers (Scripted.system (Cases.printing Cases.service))
    (object_cmd HelmDeploymentTest.default_self "service")
    (Scenarios.start_test (Cases.printing Cases.service)) Cases.service.
Proof. eexists. repeat split. Defined.

Lemma service_check_returns_the_document_witness :
  value (HelmDeploymentTest.test_service_exists
           (Scripted.system (Cases.printing Cases.service))
           HelmDeploymentTest.default_self
           (Scenarios.start_test (Cases.printing Cases.service)))
  = Ok Cases.service.
Proof.
  apply (proj2 (proj2 (service_check_returns_the_document
                  (Scripted.system (Cases.printing Cases.service))
                  HelmDeploymentTest.default_self
                  (Scenarios.start_test (Cases.printing Cases.service))
                  Cases.service service_answers))
           (JObj [("port", JNum 80)]) [] eq_refl).
Defined.

Lemma first_pod_name_returns sys self s name :
  value (HelmDeploymentTest.first_pod_name sys self s) = Ok name ->
  HelmDeploymentTest.first_pod_name sys self s
  = (HelmDeploymentTest.mkState sys
       (fst (subprocess_run sys (pod_query self) true (HelmDeploymentTest.world sys s)))
       (HelmDeploymentTest.environ sys s),
     [Spawn (pod_query self)], Ok name).
Proof.
  unfold HelmDeploymentTest.first_pod_name. fold (pod_query self).
  rewrite value_bind, run_bind.
  destruct (value (HelmDeploymentTest.run_command sys (pod_query self) true s))
    as [r|e] eqn:E; [|discriminate].
  rewrite (test_run_command_returns _ _ _ _ _ E).
  cbn [value trace final_state fst snd ret]. intros H. injection H as <-.
  reflexivity.
Qed.

(** X17.  [test_configmap_mount], once the name of the first pod has been
    read.  With an empty name the step raises "No pods found for ConfigMap
    test" and the lookup is the only command it ran.  With a pod, and when
    commands can be launched, the step passes whatever the two [kubectl
    exec] exit with: a missing mount or a missing file only changes the
    lines printed. *)
Theorem configmap_check_is_lenient :
  forall (sys : System) (self : HelmDeploymentTest.Self)
         (s : HelmDeploymentTest.State sys) (name : string),
    value (HelmDeploymentTest.first_pod_name sys self s) = Ok name ->
    let out := HelmDeploymentTest.test_configmap_mount sys self s in
    (Py.truthy name = false ->
     value out = Raise (assertion_error "No pods found for ConfigMap test")
     /\ polls (trace out) = 1%nat)
    /\ (Py.truthy name = true ->
        launches sys ->
        value out = Ok tt /\ (2 <= polls (trace out) <= 3)%nat).
Proof.
  intros sys self s name Hname. cbv zeta.
  unfold HelmDeploymentTest.test_configmap_mount.
  rewrite run_bind. cbn [print emit value trace final_state fst snd]. cbv zeta.
  rewrite run_bind, (first_pod_name_returns _ _ _ _ Hname).
  cbn [value trace final_state fst snd]. cbv zeta.
  set (s1 := HelmDeploymentTest.mkState sys _ _).
  split.
  - intros Ht. rewrite run_bind. unfold HelmDeploymentTest.assert. rewrite Ht.
    split; reflexivity.
  - intros Ht Hl. rewrite run_bind. unfold HelmDeploymentTest.assert. rewrite Ht.
    cbn [ret value trace final_state fst snd]. cbv zeta.
    rewrite run_bind, test_run_command_unchecked.
    destruct (Hl ["kubectl"; "exec"; name; "-n"; HelmDeploymentTest.namespace self;
                  "--"; "ls"; "/data"] (HelmDeploymentTest.world sys s1)) as [r1 H1].
    rewrite H1. cbn [result_of_outcome value trace final_state fst snd]. cbv zeta.
    destruct (returncode r1 =? 0).
    + rewrite run_bind. cbn [print emit value trace final_state fst snd]. cbv zeta.
      rewrite run_bind, test_run_command_unchecked.
      match goal with
      | |- context [snd (subprocess_run sys ?c true ?w)] =>
          destruct (Hl c w) as [r2 H2]; rewrite H2
      end. cbn [result_of_outcome value trace final_state fst snd]. cbv zeta.
      destruct (returncode r2 =? 0); cbn; (split; [reflexivity | lia]).
    + cbn. split; [reflexivity | lia].
Qed.

Lemma stuck_launches : launches (Scripted.system Scenarios.stuck).
Proof. intros cmd w. eexists. reflexivity. Defined.

Lemma configmap_check_is_lenient_witness :
  value (HelmDeploymentTest.test_configmap_mount (Scripted.system Scenarios.stuck)
           HelmDeploymentTest.default_self (Scenarios.start_test Scenarios.stuck))
  = Ok tt.
Proof.
  apply (proj2 (configmap_check_is_lenient (Scripted.system Scenarios.stuck)
                  HelmDeploymentTest.default_self (Scenarios.start_test Scenarios.stuck)
                  "pending" eq_refl) eq_refl stuck_launches).
Defined.

Lemma requests_of_app t1 t2 :
  requests_of (t1 ++ t2) = (requests_of t1 ++ requests_of t2)%list.
Proof. unfold requests_of. apply flat_map_app. Qed.

Section Requests.

Context {S : Type}.

Lemma gets_print (line : string) : gets [] (@print S line).
Proof. intros s. reflexivity. Qed.

Lemma gets_quiet A B l (m : M S A) (f : A -> M S B) :
  gets l m -> (forall a, gets [] (f a)) -> gets l (bind m f).
Proof.
  intros Hm Hf s. rewrite trace_bind, requests_of_app, Hm.
  destruct (value (m s)) as [a|e]; [rewrite Hf|]; apply app_nil_r.
Qed.

Lemma gets_bind A B l1 l2 (m : M S A) (f : A -> M S B) :
  throws never m -> gets l1 m -> (forall a, gets l2 (f a)) ->
  gets (l1 ++ l2) (bind m f).
Proof.
  intros Hn Hm Hf s. rewrite trace_bind, requests_of_app, Hm.
  destruct (value (m s)) as [a|e] eqn:E; [now rewrite Hf|].
  destruct (Hn s e E).
Qed.

Lemma gets_try_except A l (m : M S A) handles (handler : exn -> M S A) :
  gets l m -> (forall e, gets [] (handler e)) -> gets l (try_except m handles handler).
Proof.
  intros Hm Hh s. specialize (Hm s). revert Hm. unfold try_except, trace.
  destruct (m s) as [[s1 l1] [a|e]]; cbn [fst snd]; [auto|].
  destruct (handles e); cbn [fst snd]; [|auto].
  specialize (Hh e s1). unfold trace in Hh.
  destruct (handler e s1) as [[s2 l2] r2]; cbn [fst snd] in *.
  intros <-. rewrite requests_of_app, Hh. apply app_nil_r.
Qed.

End Requests.

Section Endpoints.

Import HelmDeploymentTest.

Variable sys : System.
Hypothesis Hsys : endpoints_answer sys.

Lemma sys_get_gets url timeout : gets [(url, timeout)] (sys_get sys url timeout).
Proof.
  intros s. unfold sys_get, trace.
  destruct (requests_get sys url timeout (world sys s)) as [w o]. reflexivity.
Qed.

Lemma sys_get_tolerated url timeout s e :
  value (sys_get sys url timeout s) = Raise e -> is_RequestException e = true.
Proof.
  destruct Hsys as [_ Hget]. specialize (Hget url timeout (world sys s)).
  unfold sys_get, value.
  destruct (requests_get sys url timeout (world sys s)) as [w [code|cls msg|]];
    cbn in *; try discriminate; [|contradiction].
  intros H. injection H as <-. subst cls. reflexivity.
Qed.

(** One endpoint: the request, then one line, whatever the answer. *)
Lemma probe_steady url (ok : string) (bad : Z -> string) (failed : exn -> string) :
  let probe :=
    try_except
      (status_code <- sys_get sys url 10 ;;
       if status_code =? 200 then print ok else print (bad status_code))
      is_RequestException
      (fun e => print (failed e)) in
  throws never probe /\ gets [(url, 10)] probe.
Proof.
  cbv zeta. split.
  - apply throws_try_except.
    + intros s e H Hh. rewrite value_bind in H.
      destruct (value (sys_get sys url 10 s)) as [code|e'] eqn:E.
      * destruct (code =? 200); discriminate H.
      * injection H as <-. apply sys_get_tolerated in E. congruence.
    + intros e. apply throws_print.
  - apply gets_try_except.
    + apply gets_quiet; [apply sys_get_gets|].
      intros code. destruct (code =? 200); apply gets_print.
    + intros e. apply gets_print.
Qed.

Lemma nap_steady :
  throws never (sys_sleep sys 3) /\ gets [] (sys_sleep sys 3).
Proof.
  destruct Hsys as [Hnap _]. split.
  - intros s e. specialize (Hnap (world sys s)). unfold sys_sleep, value.
    destruct (time_sleep sys 3 (world sys s)) as [w o]. cbn in *. subst o.
    discriminate.
  - intros s. unfold sys_sleep, trace.
    destruct (time_sleep sys 3 (world sys s)) as [w o]. reflexivity.
Qed.

Lemma probe_endpoints_steady :
  throws never (probe_endpoints sys)
  /\ gets [("http://localhost:8080/ping", 10); ("http://localhost:8080/health", 10);
           ("http://localhost:8080/status", 10); ("http://localhost:8080/", 10)]
          (probe_endpoints sys).
Proof.
  unfold probe_endpoints. cbn [for_each health_endpoints].
  split.
  - apply throws_bind; [apply nap_steady | intros _].
    apply throws_bind; [|intros _; apply probe_steady].
    repeat (apply throws_bind; [apply probe_steady | intros _]).
    apply throws_ret.
  - apply (gets_bind _ _ []); [apply nap_steady | apply nap_steady | intros _].
    apply (gets_bind _ _ [_; _; _] [_]); [| |intros _; apply probe_steady].
    + repeat (apply throws_bind; [apply probe_steady | intros _]). apply throws_ret.
    + apply (gets_bind _ _ [_] [_; _]); [apply probe_steady | apply probe_steady | intros _].
      apply (gets_bind _ _ [_] [_]); [apply probe_steady | apply probe_steady | intros _].
      apply (gets_bind _ _ [_] []); [apply probe_steady | apply probe_steady | intros _].
      intros s. reflexivity.
Qed.

End Endpoints.

(** X18.  The [try] block of [test_application_health].  When the
    three-second sleep completes and every request either gets a status
    code or fails with a [RequestException], the block returns, and it has
    sent exactly four requests, in the order [/ping], [/health], [/status],
    [/], each with a timeout of 10 seconds: neither a status other than 200
    nor a failed request stops the step or fails it. *)
Theorem endpoints_are_all_probed :
  forall (sys : System) (s : HelmDeploymentTest.State sys),
    endpoints_answer sys ->
    value (HelmDeploymentTest.probe_endpoints sys s) = Ok tt
    /\ requests_of (trace (HelmDeploymentTest.probe_endpoints sys s))
       = [("http://localhost:8080/ping", 10); ("http://localhost:8080/health", 10);
          ("http://localhost:8080/status", 10); ("http://localhost:8080/", 10)].
Proof.
  intros sys s Hsys.
  destruct (probe_endpoints_steady sys Hsys) as [Hn Hg].
  split; [|apply Hg].
  destruct (value (HelmDeploymentTest.probe_endpoints sys s)) as [[]|e] eqn:E;
    [reflexivity | destruct (Hn s e E)].
Qed.

Lemma unhealthy_answers : endpoints_answer (Scripted.system Cases.unhealthy).
Proof. split; intros; cbn; [reflexivity | exact I]. Defined.

Lemma endpoints_are_all_probed_witness :
  value (HelmDeploymentTest.probe_endpoints (Scripted.system Cases.unhealthy)
           (Scenarios.start_test Cases.unhealthy)) = Ok tt.
Proof.
  apply (proj1 (endpoints_are_all_probed (Scripted.system Cases.unhealthy)
                  (Scenarios.start_test Cases.unhealthy) unhealthy_answers)).
Defined.



Section NoUninstall.

Import HelmDeploymentTest.

Variable sys : System.

Lemma run_command_clean cmd check :
  is_uninstall cmd = false -> emits no_uninstall (run_command sys cmd check).
Proof.
  intros Hc s. unfold run_command, sys_run, bind, print, emit, ret, raise, trace.
  destruct (subprocess_run sys cmd true (world sys s)) as [w [r|c m|]]; cbn;
    try destruct (check && negb (returncode r =? 0)); cbn;
    repeat constructor; exact Hc.
Qed.

Lemma quiet_clean A (m : Script sys A) :
  (forall s, Forall no_uninstall (trace (m s))) -> emits no_uninstall m.
Proof. intros H s. apply H. Qed.

Lemma sys_sleep_clean seconds : emits no_uninstall (sys_sleep sys seconds).
Proof.
  intros s. unfold sys_sleep, trace.
  destruct (time_sleep sys seconds (world sys s)) as [w o]. repeat constructor.
Qed.

Lemma sys_get_clean url timeout : emits no_uninstall (sys_get sys url timeout).
Proof.
  intros s. unfold sys_get, trace.
  destruct (requests_get sys url timeout (world sys s)) as [w o]. repeat constructor.
Qed.

Lemma sys_Popen_clean cmd : emits no_uninstall (sys_Popen sys cmd).
Proof.
  intros s. unfold sys_Popen, trace.
  destruct (subprocess_Popen sys cmd (world sys s)) as [w o]. repeat constructor.
Qed.

Lemma lift_clean A (r : result A) : emits no_uninstall (lift sys r).
Proof. intros s. constructor. Qed.

Lemma loads_clean text : emits no_uninstall (loads sys text).
Proof. unfold loads. destruct (json_loads sys text); intros s; constructor. Qed.

Lemma assert_clean cond msg : emits no_uninstall (assert sys cond msg).
Proof. unfold assert. destruct cond; intros s; constructor. Qed.

End NoUninstall.

(** Walks through a script of the verification and checks that it runs no
    [helm uninstall]. *)
Ltac clean :=
  repeat first
    [ apply emits_ret
    | apply emits_raise
    | apply emits_print; exact I
    | apply emits_emit; exact I
    | apply lift_clean
    | apply loads_clean
    | apply assert_clean
    | apply sys_sleep_clean
    | apply sys_get_clean
    | apply sys_Popen_clean
    | apply run_command_clean; reflexivity
    | apply emits_bind; [|intros]
    | apply emits_try_except; [|intros]
    | apply emits_try_finally
    | apply emits_for_each; intros
    | match goal with
      | |- emits _ (if ?c then _ else _) => destruct c
      | |- emits _ (match ?x with _ => _ end) => destruct x
      end
    | progress unfold HelmDeploymentTest.first_pod_name,
        HelmDeploymentTest.probe_endpoints, HelmDeploymentTest.sys_terminate,
        HelmDeploymentTest.sys_wait
    | apply quiet_clean; intros; repeat constructor ].

Lemma attempts_clean sys self range :
  emits no_uninstall (HelmDeploymentTest.attempts sys self range).
Proof.
  induction range as [|attempt rest IH]; cbn [HelmDeploymentTest.attempts].
  - apply emits_ret.
  - apply emits_bind.
    + unfold HelmDeploymentTest.attempt_once. clean.
    + intros [items|]; [apply emits_ret | exact IH].
Qed.

Lemma test_steps_clean sys self :
  emits no_uninstall (HelmDeploymentTest.test_steps sys self).
Proof.
  unfold HelmDeploymentTest.test_steps, HelmDeploymentTest.test_helm_install,
    HelmDeploymentTest.test_deployment_status, HelmDeploymentTest.test_pods_running,
    HelmDeploymentTest.test_service_exists, HelmDeploymentTest.test_configmap_mount,
    HelmDeploymentTest.test_application_health, HelmDeploymentTest.test_hpa_exists.
  repeat first [ apply attempts_clean | progress clean ].
Qed.

Lemma cleanup_if_disabled sys self s :
  HelmDeploymentTest.cleanup_enabled (HelmDeploymentTest.environ sys s) = false ->
  HelmDeploymentTest.cleanup_if_enabled sys self s = (s, [], Ok tt).
Proof.
  intros H. unfold HelmDeploymentTest.cleanup_if_enabled, HelmDeploymentTest.get_environ.
  unfold bind at 1. rewrite H. reflexivity.
Qed.

Lemma guarded_keeps sys self :
  keeps sys
    (try_except
       (HelmDeploymentTest.test_steps sys self ;;
        print HelmDeploymentTest.banner ;;
        print "✅ All tests completed successfully!" ;;
        ret true)
       is_Exception
       (fun e =>
          print HelmDeploymentTest.banner ;;
          print ("❌ Test failed: " ++ Cleanup.str_exn e) ;;
          ret false)).
Proof.
  apply keeps_try_except.
  - apply keeps_bind; [apply keeps_test_steps | intros _].
    repeat (apply keeps_bind; [apply keeps_print | intros _]). apply keeps_ret.
  - intros e.
    repeat (apply keeps_bind; [apply keeps_print | intros _]). apply keeps_ret.
Qed.

Lemma guarded_clean sys self :
  emits no_uninstall
    (try_except
       (HelmDeploymentTest.test_steps sys self ;;
        print HelmDeploymentTest.banner ;;
        print "✅ All tests completed successfully!" ;;
        ret true)
       is_Exception
       (fun e =>
          print HelmDeploymentTest.banner ;;
          print ("❌ Test failed: " ++ Cleanup.str_exn e) ;;
          ret false)).
Proof.
  apply emits_try_except.
  - apply emits_bind; [apply test_steps_clean | intros _]. clean.
  - intros e. clean.
Qed.

Lemma run_all_tests_without_cleanup sys self s :
  HelmDeploymentTest.cleanup_enabled (HelmDeploymentTest.environ sys s) = false ->
  Forall no_uninstall (trace (HelmDeploymentTest.run_all_tests sys self s))
  /\ HelmDeploymentTest.environ sys
       (final_state (HelmDeploymentTest.run_all_tests sys self s))
     = HelmDeploymentTest.environ sys s.
Proof.
  intros Hoff. unfold HelmDeploymentTest.run_all_tests.
  erewrite bind_done by reflexivity.
  erewrite bind_done by reflexivity.
  cbn [trace final_state fst snd].
  fold (@trace (HelmDeploymentTest.State sys) bool).
  fold (@final_state (HelmDeploymentTest.State sys) bool).
  set (guarded := try_except _ _ _).
  pose proof (guarded_keeps sys self s) as Hk. fold guarded in Hk.
  pose proof (guarded_clean sys self s) as Hc. fold guarded in Hc.
  unfold try_finally.
  destruct (guarded s) as [[s1 l1] r1]. cbn [trace final_state fst snd] in Hk, Hc.
  rewrite cleanup_if_disabled by (rewrite Hk; exact Hoff).
  cbn [trace final_state fst snd]. rewrite app_nil_r. split; [|exact Hk].
  repeat constructor. exact Hc.
Qed.

(** X20.  With [--no-cleanup] the script runs no [helm uninstall] at all,
    whatever [CLEANUP] was in the environment, and the environment it
    leaves is the one it found with [CLEANUP] set to "false". *)
Theorem no_cleanup_flag_wins :
  forall (sys : System) (args : HelmDeploymentTest.Args)
         (st : HelmDeploymentTest.State sys),
    HelmDeploymentTest.no_cleanup args = true ->
    Forall no_uninstall (trace (HelmDeploymentTest.main sys args st))
    /\ HelmDeploymentTest.environ sys (final_state (HelmDeploymentTest.main sys args st))
       = HelmDeploymentTest.setenv "CLEANUP" "false" (HelmDeploymentTest.environ sys st).
Proof.
  intros sys args st Hflag. unfold HelmDeploymentTest.main. rewrite Hflag.
  cbn [when]. cbv zeta.
  set (self := HelmDeploymentTest.mkSelf _ _).
  rewrite run_bind. cbn [HelmDeploymentTest.put_environ value trace final_state fst snd].
  cbv zeta.
  set (s1 := HelmDeploymentTest.mkState sys _ _).
  destruct (run_all_tests_without_cleanup sys self s1 eq_refl) as [Hc Hk].
  rewrite run_bind.
  destruct (value (HelmDeploymentTest.run_all_tests sys self s1)) as [success|e];
    cbn [raise value trace final_state fst snd app]; rewrite ?app_nil_r;
    split; assumption.
Qed.

Lemma no_cleanup_flag_wins_witness :
  Forall no_uninstall
    (trace (HelmDeploymentTest.main (Scripted.system Scripted.quiet)
              (HelmDeploymentTest.mkArgs "quakewatch-test" "default" true)
              (Scenarios.start_test Scripted.quiet))).
Proof.
  apply (proj1 (no_cleanup_flag_wins (Scripted.system Scripted.quiet)
                  (HelmDeploymentTest.mkArgs "quakewatch-test" "default" true)
                  (Scenarios.start_test Scripted.quiet) eq_refl)).
Defined.

(** X21.  The six checks that follow the installation do not depend on the
    release name: they query objects called [quackwatch-helm] and pods
    labelled with that instance in the namespace of the suite, so two
    suites on the same namespace run the same checks.  Only the
    installation and the cleanup use the release name. *)
Theorem checks_ignore_the_release_name :
  forall (sys : System) (self other : HelmDeploymentTest.Self),
    HelmDeploymentTest.namespace self = HelmDeploymentTest.namespace other ->
    HelmDeploymentTest.test_deployment_status sys self
    = HelmDeploymentTest.test_deployment_status sys other
    /\ HelmDeploymentTest.test_pods_running sys self
       = HelmDeploymentTest.test_pods_running sys other
    /\ HelmDeploymentTest.test_service_exists sys self
       = HelmDeploymentTest.test_service_exists sys other
    /\ HelmDeploymentTest.test_configmap_mount sys self
       = HelmDeploymentTest.test_configmap_mount sys other
    /\ HelmDeploymentTest.test_application_health sys self
       = HelmDeploymentTest.test_application_health sys other
    /\ HelmDeploymentTest.test_hpa_exists sys self
       = HelmDeploymentTest.test_hpa_exists sys other.
Proof.
  intros sys [release ns] [release' ns']. cbn [HelmDeploymentTest.namespace].
  intros <-. repeat (split; [reflexivity|]). reflexivity.
Qed.

Lemma checks_ignore_the_release_name_witness :
  HelmDeploymentTest.test_deployment_status (Scripted.system Scripted.quiet)
    HelmDeploymentTest.default_self
  = HelmDeploymentTest.test_deployment_status (Scripted.system Scripted.quiet)
      HelmDeploymentTest.test_suite.
Proof.
  apply (proj1 (checks_ignore_the_release_name (Scripted.system Scripted.quiet)
                  HelmDeploymentTest.default_self HelmDeploymentTest.test_suite
                  eq_refl)).
Defined.
